(** * Reconciliation of two document collections (script.py)

    A shallow embedding of [make_hashable], [JSONEncoder.default] and
    [compare_collections], and the properties of the reconciliation engine
    that the specification states about them. *)

From Stdlib Require Import ZArith String Ascii List Bool Lia Permutation.
From Stdlib.Strings Require Import Byte.
From stdpp Require Import gmap strings list pretty sorting.

Local Set Warnings "-register-all,-clear-no-such-hyp".
Local Open Scope string_scope.
Local Open Scope Z_scope.
Local Open Scope list_scope.

(** ** Python objects

    The universe of objects the functions of script.py handle: the scalars
    of a BSON/JSON document, a bson [ObjectId] (its twelve bytes), lists and
    tuples, the built-in [set], deepdiff's [SetOrdered] and dictionaries.
    A dictionary keeps its items in insertion order; its keys are field
    names.  Numbers are the integers (BSON doubles are outside the model). *)

Inductive value : Type :=
  | VNone
  | VBool (b : bool)
  | VInt (n : Z)
  | VStr (s : string)
  | VObjectId (binary : list byte)
  | VList (items : list value)
  | VTuple (items : list value)
  | VSet (members : list value)
  | VSetOrdered (members : list value)
  | VDict (fields : list (string * value)).

(** A document, and any other dict with string keys: the items in insertion
    order. *)
Definition pydict : Type := list (string * value).

(** Exceptions raised by the modelled code. *)
Inductive exn : Type :=
  | KeyError (key : string)
  | TypeError.

(** The outcome of a call: a returned object or a raised exception. *)
Inductive outcome (A : Type) : Type :=
  | Returns (a : A)
  | Raises (e : exn).
Arguments Returns {A} a.
Arguments Raises {A} e.

Definition bind {A B : Type} (m : outcome A) (k : A -> outcome B) : outcome B :=
  match m with
  | Returns a => k a
  | Raises e => Raises e
  end.

Notation "'do' x <- m ;; k" := (bind m (fun x => k))
  (at level 10, x name, m at level 99, k at level 200).

(** [[f(x) for x in xs]] where [f] may raise: stops at the first exception. *)
Definition for_each {A B : Type} (f : A -> outcome B) : list A -> outcome (list B) :=
  fix go (xs : list A) : outcome (list B) :=
    match xs with
    | [] => Returns []
    | x :: xs' => do y <- f x ;; do ys <- go xs' ;; Returns (y :: ys)
    end.

(** ** Strong induction principle for nested objects *)

Section value_induction.
Variable P : value -> Prop.
Hypothesis HNone : P VNone.
Hypothesis HBool : forall b, P (VBool b).
Hypothesis HInt : forall n, P (VInt n).
Hypothesis HStr : forall s, P (VStr s).
Hypothesis HObjectId : forall o, P (VObjectId o).
Hypothesis HList : forall l, Forall P l -> P (VList l).
Hypothesis HTuple : forall l, Forall P l -> P (VTuple l).
Hypothesis HSet : forall l, Forall P l -> P (VSet l).
Hypothesis HSetOrdered : forall l, Forall P l -> P (VSetOrdered l).
Hypothesis HDict : forall d, Forall (fun kv => P (snd kv)) d -> P (VDict d).

Fixpoint value_nested_ind (v : value) : P v :=
  let fix items (l : list value) : Forall P l :=
    match l with
    | [] => List.Forall_nil P
    | x :: l' => List.Forall_cons P x l' (value_nested_ind x) (items l')
    end in
  let fix fields (d : list (string * value)) : Forall (fun kv => P (snd kv)) d :=
    match d with
    | [] => List.Forall_nil _
    | kv :: d' => List.Forall_cons _ kv d' (value_nested_ind (snd kv)) (fields d')
    end in
  match v with
  | VNone => HNone
  | VBool b => HBool b
  | VInt n => HInt n
  | VStr s => HStr s
  | VObjectId o => HObjectId o
  | VList l => HList l (items l)
  | VTuple l => HTuple l (items l)
  | VSet l => HSet l (items l)
  | VSetOrdered l => HSetOrdered l (items l)
  | VDict d => HDict d (fields d)
  end.
End value_induction.

(** ** Dictionaries *)

(** [d.get(k)]: the value bound to [k], if any. *)
Fixpoint dict_get (k : string) (d : pydict) : option value :=
  match d with
  | [] => None
  | (k', v) :: d' => if String.eqb k k' then Some v else dict_get k d'
  end.

(** [d[k]]: raises [KeyError] when [k] is absent. *)
Definition dict_item (d : pydict) (k : string) : outcome value :=
  match dict_get k d with
  | Some v => Returns v
  | None => Raises (KeyError k)
  end.

(** [d[k] = v]: an existing key keeps its position and takes the new value,
    a new key goes to the end. *)
Fixpoint dict_set (k : string) (v : value) (d : pydict) : pydict :=
  match d with
  | [] => [(k, v)]
  | (k', v') :: d' =>
      if String.eqb k k' then (k, v) :: d' else (k', v') :: dict_set k v d'
  end.

(** A dict display or comprehension: the items are stored one after the
    other into an empty dict. *)
Definition dict_of_items (items : list (string * value)) : pydict :=
  fold_left (fun d kv => dict_set (fst kv) (snd kv) d) items [].

Definition dict_keys (d : pydict) : list string := map fst d.

(** [k in l] for a list of strings. *)
Definition str_in (k : string) (l : list string) : bool :=
  existsb (String.eqb k) l.

(** ** Built-in operations on objects *)

(** Structural equality of two objects: same type and same content. *)
Fixpoint bytes_eqb (x y : list byte) : bool :=
  match x, y with
  | [], [] => true
  | a :: x', b :: y' => Byte.eqb a b && bytes_eqb x' y'
  | _, _ => false
  end.

Fixpoint value_eqb (a b : value) : bool :=
  let fix items (la lb : list value) : bool :=
    match la, lb with
    | [], [] => true
    | x :: la', y :: lb' => value_eqb x y && items la' lb'
    | _, _ => false
    end in
  let fix fields (da db : list (string * value)) : bool :=
    match da, db with
    | [], [] => true
    | (k, x) :: da', (k', y) :: db' =>
        String.eqb k k' && value_eqb x y && fields da' db'
    | _, _ => false
    end in
  match a, b with
  | VNone, VNone => true
  | VBool x, VBool y => Bool.eqb x y
  | VInt x, VInt y => Z.eqb x y
  | VStr x, VStr y => String.eqb x y
  | VObjectId x, VObjectId y => bytes_eqb x y
  | VList la, VList lb => items la lb
  | VTuple la, VTuple lb => items la lb
  | VSet la, VSet lb => items la lb
  | VSetOrdered la, VSetOrdered lb => items la lb
  | VDict da, VDict db => fields da db
  | _, _ => false
  end.

(** [binascii.hexlify]: two lower-case hexadecimal digits per byte. *)
Definition hex_digit (n : N) : ascii :=
  match n with
  | 0%N => "0" | 1%N => "1" | 2%N => "2" | 3%N => "3"
  | 4%N => "4" | 5%N => "5" | 6%N => "6" | 7%N => "7"
  | 8%N => "8" | 9%N => "9" | 10%N => "a" | 11%N => "b"
  | 12%N => "c" | 13%N => "d" | 14%N => "e" | _ => "f"
  end%char.

Fixpoint hexlify (binary : list byte) : string :=
  match binary with
  | [] => EmptyString
  | b :: rest =>
      String (hex_digit (Byte.to_N b / 16)) (String (hex_digit (Byte.to_N b mod 16)) (hexlify rest))
  end.

(** [str(oid)] of a bson ObjectId: the hexadecimal rendering of its bytes. *)
Definition ObjectId_str (binary : list byte) : string := hexlify binary.

Section Builtins.
(** [repr] of a container (list, tuple, set, dict), which [str] returns
    for them; its exact text plays no role. *)
Variable repr_container : value -> string.

(** The built-in [str]. *)
Definition py_str (obj : value) : string :=
  match obj with
  | VNone => "None"
  | VBool true => "True"
  | VBool false => "False"
  | VInt n => pretty n
  | VStr s => s
  | VObjectId binary => ObjectId_str binary
  | _ => repr_container obj
  end.
End Builtins.

(** The integer a number stands for ([bool] is a subclass of [int]). *)
Definition as_int (v : value) : option Z :=
  match v with
  | VBool b => Some (if b then 1 else 0)
  | VInt n => Some n
  | _ => None
  end.

(** [a == b] on None, numbers, strings, ObjectIds, and tuples and lists of
    those, item by item.  Dicts and sets cannot be members of a [set] nor
    items of such a member, and are not compared by the modelled code. *)
Fixpoint py_eq (a b : value) : bool :=
  let fix items (la lb : list value) : bool :=
    match la, lb with
    | [], [] => true
    | x :: la', y :: lb' => py_eq x y && items la' lb'
    | _, _ => false
    end in
  match a, b with
  | VNone, VNone => true
  | VStr x, VStr y => String.eqb x y
  | VObjectId x, VObjectId y => bytes_eqb x y
  | VTuple la, VTuple lb => items la lb
  | VList la, VList lb => items la lb
  | _, _ =>
      match as_int a, as_int b with
      | Some x, Some y => Z.eqb x y
      | _, _ => false
      end
  end.

(** Lexicographic [<] on byte strings. *)
Fixpoint bytes_ltb (x y : list byte) : bool :=
  match x, y with
  | _, [] => false
  | [], _ :: _ => true
  | a :: x', b :: y' =>
      if N.ltb (Byte.to_N a) (Byte.to_N b) then true
      else if N.ltb (Byte.to_N b) (Byte.to_N a) then false
      else bytes_ltb x' y'
  end.

(** [a < b]: defined between two numbers, two strings, two ObjectIds, two
    tuples and two lists (the first items that differ decide); any other
    pair of objects that can be members of a [set] raises [TypeError]. *)
Fixpoint py_lt (a b : value) : outcome bool :=
  let fix items (la lb : list value) : outcome bool :=
    match la, lb with
    | _, [] => Returns false
    | [], _ :: _ => Returns true
    | x :: la', y :: lb' => if py_eq x y then items la' lb' else py_lt x y
    end in
  match a, b with
  | VStr x, VStr y => Returns (String.ltb x y)
  | VObjectId x, VObjectId y => Returns (bytes_ltb x y)
  | VTuple la, VTuple lb => items la lb
  | VList la, VList lb => items la lb
  | _, _ =>
      match as_int a, as_int b with
      | Some x, Some y => Returns (Z.ltb x y)
      | _, _ => Raises TypeError
      end
  end.

(** [sorted(xs, key=...)], as a stable insertion sort that uses only [<], as
    [list.sort] does; a comparison that raises aborts the sort. *)
Section Sorted.
Context {A : Type}.
Variable key : A -> value.

Fixpoint insert_sorted (x : A) (l : list A) : outcome (list A) :=
  match l with
  | [] => Returns [x]
  | y :: l' =>
      do c <- py_lt (key x) (key y) ;;
      if c then Returns (x :: y :: l')
      else do r <- insert_sorted x l' ;; Returns (y :: r)
  end.

Definition sorted_on (xs : list A) : outcome (list A) :=
  fold_left (fun acc x => do s <- acc ;; insert_sorted x s) xs (Returns []).
End Sorted.

(** [sorted(xs)]. *)
Definition py_sorted (xs : list value) : outcome (list value) :=
  sorted_on (fun x => x) xs.

(** [sorted(d.items())] for a dict: its keys are distinct strings, so the
    keys alone order the items and no comparison raises. *)
Section SortedItems.
Context {A : Type}.

Fixpoint insert_item (x : string * A) (l : list (string * A)) : list (string * A) :=
  match l with
  | [] => [x]
  | y :: l' =>
      if String.ltb (fst x) (fst y) then x :: y :: l' else y :: insert_item x l'
  end.

Definition sorted_items (items : list (string * A)) : list (string * A) :=
  fold_left (fun acc x => insert_item x acc) items [].
End SortedItems.

(** ** The canonicalizer: [make_hashable] *)

(** [make_hashable(obj)].  A dict yields the tuple of its [(key, canonical
    value)] pairs in the order of [sorted(obj.items())], a list the tuple of
    its canonical items in list order, a set the canonical forms of the
    members of [sorted(obj)], an ObjectId its [str]; any other object is
    returned as it is.

    The generator inside [tuple(...)] converts the items one by one in the
    order of the sorted sequence, after [sorted] has returned: the
    conversions are attached to the items before sorting and are run, in
    sorted order, afterwards ([make_hashable_dict] and [make_hashable_set]
    below state the two branches in the source's own form). *)
Fixpoint make_hashable (obj : value) : outcome value :=
  match obj with
  | VDict fields =>
      let converted :=
        (fix go (d : list (string * value)) : list (string * outcome value) :=
           match d with
           | [] => []
           | (k, v) :: d' => (k, make_hashable v) :: go d'
           end) fields in
      do pairs <- for_each
                    (fun kv => do v' <- snd kv ;; Returns (VTuple [VStr (fst kv); v']))
                    (sorted_items converted) ;;
      Returns (VTuple pairs)
  | VList items =>
      do converted <- for_each make_hashable items ;;
      Returns (VTuple converted)
  | VSet members =>
      let converted :=
        (fix go (l : list value) : list (value * outcome value) :=
           match l with
           | [] => []
           | x :: l' => (x, make_hashable x) :: go l'
           end) members in
      do ordered <- sorted_on fst converted ;;
      do items <- for_each snd ordered ;;
      Returns (VTuple items)
  | VObjectId binary => Returns (VStr (ObjectId_str binary))
  | _ => Returns obj
  end.

(** ** The JSON encoder *)

(** A JSON document, as [json.dumps] writes it. *)
Inductive json : Type :=
  | JNull
  | JBool (b : bool)
  | JNumber (n : Z)
  | JString (s : string)
  | JArray (items : list json)
  | JObject (members : list (string * json)).

(** [JSONEncoder.default(obj)], called by the encoder on every object that
    is not JSON-native: an ObjectId becomes its [str], a SetOrdered a list,
    and [super().default(obj)] raises [TypeError] for anything else. *)
Definition JSONEncoder_default (obj : value) : outcome value :=
  match obj with
  | VObjectId binary => Returns (VStr (ObjectId_str binary))
  | VSetOrdered members => Returns (VList members)
  | _ => Raises TypeError
  end.

(** [json.dumps(obj, cls=JSONEncoder)], up to the layout of the text: None,
    numbers, strings, lists, tuples and dicts with string keys are native;
    every other object goes through [JSONEncoder.default] and its result is
    encoded in turn ([json_dumps_default] below). *)
Fixpoint json_dumps (obj : value) : outcome json :=
  match obj with
  | VNone => Returns JNull
  | VBool b => Returns (JBool b)
  | VInt n => Returns (JNumber n)
  | VStr s => Returns (JString s)
  | VList items | VTuple items =>
      do js <- for_each json_dumps items ;; Returns (JArray js)
  | VDict fields =>
      do js <- (fix go (d : list (string * value)) : outcome (list (string * json)) :=
                  match d with
                  | [] => Returns []
                  | (k, v) :: d' =>
                      do j <- json_dumps v ;; do js <- go d' ;; Returns ((k, j) :: js)
                  end) fields ;;
      Returns (JObject js)
  | VObjectId binary => Returns (JString (ObjectId_str binary))
  | VSetOrdered members =>
      do js <- for_each json_dumps members ;; Returns (JArray js)
  | VSet _ => Raises TypeError
  end.

(** ** The diff library

    [DeepDiff] is imported from the deepdiff package.  The reconciliation
    uses three things of it: the comparison of two documents with
    [ignore_order=False], the truth value of a report (a report is false
    when it holds no difference) and the serialisation of [diff.to_dict()]
    by the JSON encoder. *)
Record DiffLibrary : Type := {
  report : Type;
  DeepDiff : pydict -> pydict -> report;
  report_bool : report -> bool;
  report_dumps : report -> outcome json
}.

(** One entry of [content_differences]. *)
Record diff_entry (R : Type) : Type := {
  entry_id : string;
  source_doc : pydict;
  target_doc : pydict;
  diff : R
}.
Arguments entry_id {R} _.
Arguments source_doc {R} _.
Arguments target_doc {R} _.
Arguments diff {R} _.

(** The dict [differences] that [compare_collections] returns. *)
Record differences (R : Type) : Type := {
  missing_in_source : list pydict;
  missing_in_target : list pydict;
  common_count : nat;
  content_differences : list (diff_entry R)
}.
Arguments missing_in_source {R} _.
Arguments missing_in_target {R} _.
Arguments common_count {R} _.
Arguments content_differences {R} _.

(** ** The reconciliation: [compare_collections] *)

Section Reconcile.
Variable repr_container : value -> string.
Variable L : DiffLibrary.

(** [{k: v for k, v in doc.items() if k not in exclude_fields + ['_id']}] *)
Definition strip_fields (exclude_fields : list string) (doc : pydict) : pydict :=
  dict_of_items
    (List.filter (fun kv => negb (str_in (fst kv) (exclude_fields ++ ["_id"]))) doc).

(** [{str(doc['_id']): {...} for doc in data}]: the documents are stored
    one after the other under their stringified [_id]. *)
Definition index_step (exclude_fields : list string)
    (acc : outcome (gmap string pydict)) (doc : pydict)
  : outcome (gmap string pydict) :=
  do m <- acc ;;
  do id <- dict_item doc "_id" ;;
  Returns (<[py_str repr_container id := strip_fields exclude_fields doc]> m).

Definition index_by_id (exclude_fields : list string) (data : list pydict)
  : outcome (gmap string pydict) :=
  fold_left (index_step exclude_fields) data (Returns ∅).

(** [index[_id]] *)
Definition index_item (index : gmap string pydict) (_id : string) : outcome pydict :=
  match index !! _id with
  | Some doc => Returns doc
  | None => Raises (KeyError _id)
  end.

(** [{'_id': _id, **index[_id]}] *)
Definition restore_id (index : gmap string pydict) (_id : string) : outcome pydict :=
  do doc <- index_item index _id ;;
  Returns (dict_of_items (("_id", VStr _id) :: doc)).

(** The body of the loop over [common_ids]: the entry appended to
    [content_differences], if the report is true. *)
Definition compare_common (source_dict target_dict : gmap string pydict) (_id : string)
  : outcome (option (diff_entry (report L))) :=
  do src_doc <- index_item source_dict _id ;;
  do tgt_doc <- index_item target_dict _id ;;
  let diff := DeepDiff L src_doc tgt_doc in
  Returns (if report_bool L diff
           then Some {| entry_id := _id; source_doc := src_doc;
                        target_doc := tgt_doc; diff := diff |}
           else None).

(** [json.dumps(entry, cls=JSONEncoder)] for an entry of
    [content_differences]. *)
Definition dumps_entry (e : diff_entry (report L)) : outcome json :=
  do s <- json_dumps (VDict (source_doc e)) ;;
  do t <- json_dumps (VDict (target_doc e)) ;;
  do d <- report_dumps L (diff e) ;;
  Returns (JObject [("_id", JString (entry_id e)); ("source_doc", s);
                    ("target_doc", t); ("diff", d)]).

(** The logging at the end of the function: the counts are always logged;
    a non-empty [content_differences] is serialised for the last message,
    which raises when the encoder does. *)
Definition log_differences (content_differences : list (diff_entry (report L)))
  : outcome unit :=
  match content_differences with
  | [] => Returns tt
  | _ :: _ => do _ <- for_each dumps_entry content_differences ;; Returns tt
  end.

(** [compare_collections(source_data, target_data, collection_name,
    exclude_fields)].  The two indexes are finite maps from the stringified
    identity to the stripped document, their key sets are finite sets, and a
    list comprehension or loop over a set runs over its [elements]: an order
    that the set fixes and that the properties below do not depend on. *)
Definition compare_collections
    (source_data target_data : list pydict)
    (collection_name : string) (exclude_fields : list string)
  : outcome (differences (report L)) :=
  do source_dict <- index_by_id exclude_fields source_data ;;
  do target_dict <- index_by_id exclude_fields target_data ;;
  let source_ids : gset string := dom source_dict in
  let target_ids : gset string := dom target_dict in
  let missing_in_source_ids := target_ids ∖ source_ids in
  let missing_in_target_ids := source_ids ∖ target_ids in
  let common_ids := source_ids ∩ target_ids in
  do missing_in_source <- for_each (restore_id target_dict) (elements missing_in_source_ids) ;;
  do missing_in_target <- for_each (restore_id source_dict) (elements missing_in_target_ids) ;;
  do compared <- for_each (compare_common source_dict target_dict) (elements common_ids) ;;
  let content_differences := omap (fun e => e) compared in
  let differences :=
    {| missing_in_source := missing_in_source;
       missing_in_target := missing_in_target;
       common_count := size common_ids;
       content_differences := content_differences |} in
  do _ <- log_differences content_differences ;;
  Returns differences.
End Reconcile.

(** ** The structural differ *)

(** A step of a path into a document: a field of a mapping or a position of
    a sequence. *)
Inductive path_elem : Type :=
  | Key (k : string)
  | Index (i : nat).

Inductive change : Type :=
  | Added (v : value)
  | Removed (v : value)
  | Changed (old new : value).

(** The differences of two documents, each at its path; no difference is
    the empty tree. *)
Definition DiffTree : Type := list (list path_elem * change).

Definition has_key (k : string) (d : pydict) : bool :=
  match dict_get k d with
  | Some _ => true
  | None => false
  end.

(** The two loops of the differ, over the fields of the left mapping and
    over the positions of two sequences; [compare] is the differ itself. *)
Section DifferLoops.
Variable compare : list path_elem -> value -> value -> DiffTree.
Variable path : list path_elem.

(** The fields of the left mapping: a key that the right mapping [dr] lacks
    is removed, a key of both is compared. *)
Fixpoint diff_left_fields (dr : pydict) (d : list (string * value)) : DiffTree :=
  match d with
  | [] => []
  | (k, v) :: d' =>
      match dict_get k dr with
      | Some w => compare (path ++ [Key k]) v w
      | None => [(path ++ [Key k], Removed v)]
      end ++ diff_left_fields dr d'
  end.

(** The fields of the right mapping [dr] that the left mapping [dl] lacks
    are added. *)
Definition diff_added_fields (dl dr : pydict) : DiffTree :=
  map (fun kv => (path ++ [Key (fst kv)], Added (snd kv)))
      (List.filter (fun kv => negb (has_key (fst kv) dl)) dr).

(** Two sequences from position [i] on: position by position; the extra
    tail of the longer one is removed or added. *)
Fixpoint diff_elems (i : nat) (l r : list value) : DiffTree :=
  match l, r with
  | [], _ => imap (fun j y => (path ++ [Index (i + j)], Added y)) r
  | x :: l', [] => (path ++ [Index i], Removed x) :: diff_elems (S i) l' []
  | x :: l', y :: r' => compare (path ++ [Index i]) x y ++ diff_elems (S i) l' r'
  end.
End DifferLoops.

(** Modelled from the spec: the structural differ [diff(leftDoc, rightDoc)]
    of section 4.3, for which the source calls [DeepDiff] of the deepdiff
    package (not under src/).  Two mappings: a key only on the left is
    removed, a key only on the right is added, a key on both sides is
    compared recursively.  Two sequences: compared position by position, the
    extra tail of the longer one is removed or added.  Any other pair: equal
    objects give no difference, unequal ones (a type mismatch included) are
    changed. *)
Fixpoint diff_values (path : list path_elem) (left right : value) : DiffTree :=
  match left, right with
  | VDict dl, VDict dr =>
      diff_left_fields diff_values path dr dl ++ diff_added_fields path dl dr
  | VList ll, VList lr => diff_elems diff_values path 0%nat ll lr
  | _, _ =>
      if value_eqb left right then [] else [(path, Changed left right)]
  end.

Definition diff_documents (leftDoc rightDoc : pydict) : DiffTree :=
  diff_values [] (VDict leftDoc) (VDict rightDoc).

Definition path_elem_json (p : path_elem) : json :=
  match p with
  | Key k => JString k
  | Index i => JNumber (Z.of_nat i)
  end.

(** The class of an object, [type(obj)]. *)
Inductive py_class : Type :=
  | class_NoneType
  | class_bool
  | class_int
  | class_str
  | class_ObjectId
  | class_list
  | class_tuple
  | class_set
  | class_SetOrdered
  | class_dict.

Definition type_of (obj : value) : py_class :=
  match obj with
  | VNone => class_NoneType
  | VBool _ => class_bool
  | VInt _ => class_int
  | VStr _ => class_str
  | VObjectId _ => class_ObjectId
  | VList _ => class_list
  | VTuple _ => class_tuple
  | VSet _ => class_set
  | VSetOrdered _ => class_SetOrdered
  | VDict _ => class_dict
  end.

Definition class_eqb (a b : py_class) : bool :=
  match a, b with
  | class_NoneType, class_NoneType | class_bool, class_bool | class_int, class_int
  | class_str, class_str | class_ObjectId, class_ObjectId | class_list, class_list
  | class_tuple, class_tuple | class_set, class_set
  | class_SetOrdered, class_SetOrdered | class_dict, class_dict => true
  | _, _ => false
  end.

(** What [diff.to_dict()] holds at a difference: objects of the documents
    and, for a type change, classes. *)
Inductive report_item : Type :=
  | RObject (obj : value)
  | RClass (c : py_class).

(** Modelled from the spec: the nested diff structure of a DiffEntry
    (section 3: added, removed, type-changed, value-changed), which the
    source takes from [diff.to_dict()] of the deepdiff package (not under
    src/).  A difference between two objects of one class is a value change
    and holds the two objects; a difference between objects of two classes
    is a type change and holds the two classes, [old_type] and [new_type],
    before the two objects. *)
Definition change_to_dict (c : change) : list (string * report_item) :=
  match c with
  | Added v => [("added", RObject v)]
  | Removed v => [("removed", RObject v)]
  | Changed old new =>
      if class_eqb (type_of old) (type_of new)
      then [("new_value", RObject new); ("old_value", RObject old)]
      else [("old_type", RClass (type_of old)); ("new_type", RClass (type_of new));
            ("old_value", RObject old); ("new_value", RObject new)]
  end.

(** The encoder on an item of the report.  A class is neither an ObjectId
    nor a SetOrdered: [JSONEncoder.default] hands it to [super().default],
    which raises [TypeError]. *)
Definition report_item_dumps (item : report_item) : outcome json :=
  match item with
  | RObject obj => json_dumps obj
  | RClass _ => Raises TypeError
  end.

(** [json.dumps(..., cls=JSONEncoder)] on the dict of one difference and
    on a whole report, up to the layout of the text: the paths are plain,
    the items at the differences go through the encoder in the order of the
    dict. *)
Definition change_dumps (c : change) : outcome json :=
  do js <- for_each
             (fun kv => do j <- report_item_dumps (snd kv) ;; Returns (fst kv, j))
             (change_to_dict c) ;;
  Returns (JObject js).

Definition DiffTree_dumps (t : DiffTree) : outcome json :=
  do js <- for_each
             (fun pc => do j <- change_dumps (snd pc) ;;
                        Returns (JObject [("path", JArray (map path_elem_json (fst pc)));
                                          ("change", j)])) t ;;
  Returns (JArray js).

(** The diff library as the specification describes it: the differ of
    section 4.3, the emptiness test of its trees and the serialisation of a
    tree by the encoder of the source. *)
Definition StructuralDiffer : DiffLibrary :=
  {| report := DiffTree;
     DeepDiff := diff_documents;
     report_bool := fun t => match t with [] => false | _ :: _ => true end;
     report_dumps := DiffTree_dumps |}.

(** ** Notions used to state the properties *)

(** A dict whose keys are pairwise distinct, as every Python dict is. *)
Definition distinct_keys (d : pydict) : Prop := List.NoDup (dict_keys d).

Section ReconcileNotions.
Variable repr_container : value -> string.
Variable L : DiffLibrary.

(** The stringified identity of a document, if it has the [_id] field. *)
Definition doc_id (doc : pydict) : option string :=
  option_map (py_str repr_container) (dict_get "_id" doc).

(** The stringified identities of a collection, in input order. *)
Definition identities (data : list pydict) : list string :=
  omap doc_id data.

(** The index of a collection all of whose documents have an [_id]. *)
Definition store (exclude_fields : list string)
    (m : gmap string pydict) (doc : pydict) : gmap string pydict :=
  match doc_id doc with
  | Some k => <[k := strip_fields exclude_fields doc]> m
  | None => m
  end.

Definition stored_index (exclude_fields : list string) (data : list pydict)
  : gmap string pydict :=
  fold_left (store exclude_fields) data ∅.

Definition all_have_id (data : list pydict) : bool :=
  forallb (has_key "_id") data.

(** The document stored under an identity is the last one of the
    collection with that identity, without the excluded fields. *)
Definition representative (k : string) (data : list pydict) : option pydict :=
  last (List.filter (fun doc => bool_decide (doc_id doc = Some k)) data).

(** [{'_id': _id, **index[_id]}] for an identity of the index. *)
Definition restored (index : gmap string pydict) (k : string) : pydict :=
  dict_of_items (("_id", VStr k) :: default ([] : pydict) (index !! k)).

(** The entry of a common identity, if its two documents differ. *)
Definition compared (source_dict target_dict : gmap string pydict) (k : string)
  : option (diff_entry (report L)) :=
  match source_dict !! k, target_dict !! k with
  | Some src_doc, Some tgt_doc =>
      if report_bool L (DeepDiff L src_doc tgt_doc)
      then Some {| entry_id := k; source_doc := src_doc; target_doc := tgt_doc;
                   diff := DeepDiff L src_doc tgt_doc |}
      else None
  | _, _ => None
  end.

(** What [compare_collections] returns when it returns. *)
Definition reconciled (exclude_fields : list string)
    (source_data target_data : list pydict) : differences (report L) :=
  let source_dict := stored_index exclude_fields source_data in
  let target_dict := stored_index exclude_fields target_data in
  {| missing_in_source :=
       map (restored target_dict) (elements (dom target_dict ∖ dom source_dict));
     missing_in_target :=
       map (restored source_dict) (elements (dom source_dict ∖ dom target_dict));
     common_count := size (dom source_dict ∩ dom target_dict);
     content_differences :=
       omap (compared source_dict target_dict)
            (elements (dom source_dict ∩ dom target_dict)) |}.

End ReconcileNotions.

(** Two documents with the same fields in the same order whose values
    agree everywhere except, possibly, at field [f]. *)
Definition same_but_field (f : string) (doc doc' : pydict) : Prop :=
  List.Forall2
    (fun kv kv' => fst kv = fst kv' /\ (fst kv <> f -> snd kv = snd kv'))
    doc doc'.

(** Two collections whose documents differ, one by one, at most in the
    value of field [f]. *)
Definition same_but_field_data (f : string) (data data' : list pydict) : Prop :=
  List.Forall2 (same_but_field f) data data'.

(** A stand-in for [repr] in the examples, whose identities are scalars. *)
Definition repr_opaque (obj : value) : string := "<object>".

(** Only mappings and sequences are compared part by part. *)
Definition is_container (v : value) : bool :=
  match v with
  | VDict _ | VList _ => true
  | _ => false
  end.

(** Two objects with identical content: mappings with the same key-value
    bindings, whatever the order of their keys; sequences with the same
    content at every position; otherwise the same object. *)
Inductive same_content : value -> value -> Prop :=
  | same_dict (da db : pydict) :
      (forall k, option_Forall2 same_content (dict_get k da) (dict_get k db)) ->
      same_content (VDict da) (VDict db)
  | same_list (la lb : list value) :
      List.Forall2 same_content la lb ->
      same_content (VList la) (VList lb)
  | same_object (a : value) :
      is_container a = false -> same_content a a.

Fixpoint distinct_strings (l : list string) : bool :=
  match l with
  | [] => true
  | k :: l' => negb (str_in k l') && distinct_strings l'
  end.

(** Every dict inside the object has pairwise distinct keys, as every
    Python dict has. *)
Fixpoint well_formed (v : value) : bool :=
  match v with
  | VList l | VTuple l | VSet l | VSetOrdered l => forallb well_formed l
  | VDict d =>
      distinct_strings (map fst d)
      && (fix fields (d : list (string * value)) : bool :=
            match d with
            | [] => true
            | (_, x) :: d' => well_formed x && fields d'
            end) d
  | _ => true
  end.

Definition well_formed_doc (doc : pydict) : bool := well_formed (VDict doc).

(** A JSON-like object, as a document holds them: None, a boolean, a
    number, a string, an ObjectId, a sequence or a mapping of such. *)
Fixpoint json_like (v : value) : bool :=
  match v with
  | VNone | VBool _ | VInt _ | VStr _ | VObjectId _ => true
  | VList l => forallb json_like l
  | VDict d =>
      (fix fields (d : list (string * value)) : bool :=
         match d with
         | [] => true
         | (_, x) :: d' => json_like x && fields d'
         end) d
  | VTuple _ | VSet _ | VSetOrdered _ => false
  end.

Definition json_like_doc (doc : pydict) : bool := json_like (VDict doc).

(** The objects that can be members of a [set]: None, numbers, strings,
    ObjectIds and tuples of such. *)
Fixpoint hashable (v : value) : bool :=
  match v with
  | VNone | VBool _ | VInt _ | VStr _ | VObjectId _ => true
  | VTuple l => forallb hashable l
  | VList _ | VSet _ | VSetOrdered _ | VDict _ => false
  end.

(** The canonicalization of a set as the specification words it:
    canonicalize each element, then sort the canonical results. *)
Definition sorted_canonical_forms (members : list value) : outcome value :=
  do canonical <- for_each make_hashable members ;;
  do ordered <- py_sorted canonical ;;
  Returns (VTuple ordered).

(** The canonical form of a member of a set: the string of an ObjectId,
    the member itself otherwise. *)
Definition member_form (v : value) : value :=
  match v with
  | VObjectId binary => VStr (ObjectId_str binary)
  | _ => v
  end.

(** The sets whose members [sorted] can always order: all numbers, all
    strings or all ObjectIds. *)
Definition is_number (v : value) : bool :=
  match v with
  | VBool _ | VInt _ => true
  | _ => false
  end.

Definition is_string (v : value) : bool :=
  match v with
  | VStr _ => true
  | _ => false
  end.

Definition is_ObjectId (v : value) : bool :=
  match v with
  | VObjectId _ => true
  | _ => false
  end.

Definition one_kind (members : list value) : bool :=
  forallb is_number members || forallb is_string members || forallb is_ObjectId members.

(** The members of a [set] are pairwise different: no two of them are
    [==]. *)
Fixpoint distinct_members (members : list value) : bool :=
  match members with
  | [] => true
  | x :: rest => forallb (fun y => negb (py_eq x y)) rest && distinct_members rest
  end.

(** [a < b] holds. *)
Definition precedes (a b : value) : Prop := py_lt a b = Returns true.

(** The 256 bytes. *)
Definition all_bytes : list byte :=
  omap (fun n => Byte.of_N (N.of_nat n)) (seq 0 256).

(** The two digits of a byte compare as the byte does. *)
Definition hex_order_ok (a b : byte) : bool :=
  match
    match Ascii.compare (hex_digit (Byte.to_N a / 16)) (hex_digit (Byte.to_N b / 16)) with
    | Eq => Ascii.compare (hex_digit (Byte.to_N a mod 16)) (hex_digit (Byte.to_N b mod 16))
    | c => c
    end,
    N.compare (Byte.to_N a) (Byte.to_N b)
  with
  | Eq, Eq | Lt, Lt | Gt, Gt => true
  | _, _ => false
  end.

(** ** Example collections *)

(** The scenario of the specification: one common identity whose [ver]
    differs, and one document only in the target. *)
Definition example_source : list pydict :=
  [[("_id", VStr "1"); ("name", VStr "A"); ("ver", VInt 1)]].

Definition example_target : list pydict :=
  [[("_id", VStr "1"); ("name", VStr "A"); ("ver", VInt 2)];
   [("_id", VStr "2"); ("name", VStr "B")]].

Definition example_differences : differences (report StructuralDiffer) :=
  {| missing_in_source := [[("_id", VStr "2"); ("name", VStr "B")]];
     missing_in_target := [];
     common_count := 1;
     content_differences :=
       [{| entry_id := "1";
           source_doc := [("name", VStr "A"); ("ver", VInt 1)];
           target_doc := [("name", VStr "A"); ("ver", VInt 2)];
           diff := [([Key "ver"], Changed (VInt 1) (VInt 2))] |}] |}.

(** The same scenario with the sides exchanged. *)
Definition example_differences_swapped : differences (report StructuralDiffer) :=
  {| missing_in_source := [];
     missing_in_target := [[("_id", VStr "2"); ("name", VStr "B")]];
     common_count := 1;
     content_differences :=
       [{| entry_id := "1";
           source_doc := [("name", VStr "A"); ("ver", VInt 2)];
           target_doc := [("name", VStr "A"); ("ver", VInt 1)];
           diff := [([Key "ver"], Changed (VInt 2) (VInt 1))] |}] |}.

(** The scenario without the field [name]. *)
Definition example_entry_without_name : diff_entry (report StructuralDiffer) :=
  {| entry_id := "1";
     source_doc := [("ver", VInt 1)];
     target_doc := [("ver", VInt 2)];
     diff := [([Key "ver"], Changed (VInt 1) (VInt 2))] |}.

Definition example_differences_without_name : differences (report StructuralDiffer) :=
  {| missing_in_source := [[("_id", VStr "2")]];
     missing_in_target := [];
     common_count := 1;
     content_differences := [example_entry_without_name] |}.

(** The source of the scenario with another value of [ver]. *)
Definition example_source_other_ver : list pydict :=
  [[("_id", VStr "1"); ("name", VStr "A"); ("ver", VInt 7)]].

(** Two documents with the same bindings in another key order. *)
Definition example_doc_ab : pydict :=
  [("_id", VInt 5); ("a", VInt 1); ("b", VDict [("x", VNone); ("y", VBool true)])].

Definition example_doc_ba : pydict :=
  [("b", VDict [("y", VBool true); ("x", VNone)]); ("_id", VStr "5"); ("a", VInt 1)].

(** Two documents with the identity 7, a number in the first and a string
    in the second, another document, and the comparison of the three with
    the target of the scenario. *)
Definition example_doc_old : pydict := [("_id", VInt 7); ("name", VStr "old")].

Definition example_doc_new : pydict := [("_id", VStr "7"); ("name", VStr "new")].

Definition example_doc_other : pydict := [("_id", VStr "1"); ("name", VStr "A"); ("ver", VInt 2)].

Definition example_differences_duplicates : differences (report StructuralDiffer) :=
  {| missing_in_source := [[("_id", VStr "2"); ("name", VStr "B")]];
     missing_in_target := [[("_id", VStr "7"); ("name", VStr "new")]];
     common_count := 1;
     content_differences := [] |}.

(** Two documents whose [tags] hold the same elements in another order. *)
Definition example_doc_tags_xy : pydict :=
  [("_id", VStr "t"); ("tags", VList [VStr "x"; VStr "y"])].

Definition example_doc_tags_yx : pydict :=
  [("_id", VStr "t"); ("tags", VList [VStr "y"; VStr "x"])].

Definition example_differences_tags : differences (report StructuralDiffer) :=
  {| missing_in_source := [];
     missing_in_target := [];
     common_count := 1;
     content_differences :=
       [{| entry_id := "t";
           source_doc := [("tags", VList [VStr "x"; VStr "y"])];
           target_doc := [("tags", VList [VStr "y"; VStr "x"])];
           diff := [([Key "tags"; Index 0], Changed (VStr "x") (VStr "y"));
                    ([Key "tags"; Index 1], Changed (VStr "y") (VStr "x"))] |}] |}.

(** A common identity whose field [a] is a number on one side and a
    string on the other. *)
Definition example_source_int : list pydict :=
  [[("_id", VInt 1); ("a", VInt 1)]].

Definition example_target_str : list pydict :=
  [[("_id", VInt 1); ("a", VStr "1")]].

(** An ObjectId. *)
Definition example_oid : list byte :=
  [x5f; x1a; x2b; x3c; x4d; x5e; x6f; x70; x81; x92; xa3; xb4]%byte.

(** ** Further notions *)

(** A built-in [set] occurs in the object, at any depth. *)
Fixpoint contains_set (v : value) : bool :=
  match v with
  | VSet _ => true
  | VList l | VTuple l | VSetOrdered l => existsb contains_set l
  | VDict d =>
      (fix fields (d : list (string * value)) : bool :=
         match d with
         | [] => false
         | (_, x) :: d' => contains_set x || fields d'
         end) d
  | _ => false
  end.

(** The objects [make_hashable] converts: None, numbers, strings, ObjectIds,
    and lists, dicts and sets of such. *)
Fixpoint convertible (v : value) : bool :=
  match v with
  | VNone | VBool _ | VInt _ | VStr _ | VObjectId _ => true
  | VList l | VSet l => forallb convertible l
  | VDict d =>
      (fix fields (d : list (string * value)) : bool :=
         match d with
         | [] => true
         | (_, x) :: d' => convertible x && fields d'
         end) d
  | VTuple _ | VSetOrdered _ => false
  end.

(** The canonical forms: None, numbers, strings and tuples of canonical
    forms; no list, dict, set or ObjectId at any depth. *)
Fixpoint canonical (v : value) : bool :=
  match v with
  | VNone | VBool _ | VInt _ | VStr _ => true
  | VTuple l => forallb canonical l
  | VObjectId _ | VList _ | VSet _ | VSetOrdered _ | VDict _ => false
  end.

(** The order of [sorted(d.items())]: by key. *)
Definition item_lt {A : Type} (x y : string * A) : Prop :=
  String.ltb (fst x) (fst y) = true.

(** ** The callers of the reconciliation *)

(** [get_collection_data]: the projection handed to [find],
    [{field: 0 for field in exclude_fields}]. *)
Definition projection (exclude_fields : list string) : pydict :=
  dict_of_items (map (fun field => (field, VInt 0)) exclude_fields).

(** [main]: [json.dump(differences, f, indent=2, cls=JSONEncoder)], up to
    the layout of the text. *)
Definition dumps_differences (L : DiffLibrary) (r : differences (report L))
  : outcome json :=
  do missing_source <- for_each (fun doc => json_dumps (VDict doc)) (missing_in_source r) ;;
  do missing_target <- for_each (fun doc => json_dumps (VDict doc)) (missing_in_target r) ;;
  do content <- for_each (dumps_entry L) (content_differences r) ;;
  Returns (JObject [("missing_in_source", JArray missing_source);
                    ("missing_in_target", JArray missing_target);
                    ("common_count", JNumber (Z.of_nat (common_count r)));
                    ("content_differences", JArray content)]).

(** The identities a result reports: those of the documents of the two
    missing lists and of the entries of [content_differences]. *)
Definition reported_identities {R : Type} (r : differences R) : list value :=
  omap (dict_get "_id") (missing_in_source r)
  ++ omap (dict_get "_id") (missing_in_target r)
  ++ map (fun e => VStr (entry_id e)) (content_differences r).

(** Two results that agree up to the order of their lists. *)
Definition same_report {R : Type} (r r' : differences R) : Prop :=
  Permutation (missing_in_source r) (missing_in_source r') /\
  Permutation (missing_in_target r) (missing_in_target r') /\
  common_count r = common_count r' /\
  Permutation (content_differences r) (content_differences r').

(** ** The load tester (elastic_load_tester.py) *)

(** A Python [str] as the sequence of its code points. *)
Definition text : Type := list N.

(** A string literal of the source (ASCII). *)
Definition lit (s : string) : text := map N_of_ascii (list_ascii_of_string s).

(** The table [replacements] of [normalize_arabic]. *)
Definition replacements : list (N * N) :=
  [(0x0622, 0x0627);   (* alif maddah to alif *)
   (0x0623, 0x0627);   (* alif hamza above to alif *)
   (0x0625, 0x0627);   (* alif hamza below to alif *)
   (0x0629, 0x0647);   (* teh marbuta to heh *)
   (0x0649, 0x064A);   (* alef maksura to yeh *)
   (0x0624, 0x0648);   (* waw hamza to waw *)
   (0x0626, 0x064A)]%N. (* yeh hamza to yeh *)

(** [table.get(c, default)] *)
Fixpoint table_get (table : list (N * N)) (c default : N) : N :=
  match table with
  | [] => default
  | (k, v) :: table' => if N.eqb c k then v else table_get table' c default
  end.

(** [normalize_arabic(text)]:
    [''.join(replacements.get(c, c) for c in text)]. *)
Definition normalize_arabic (t : text) : text :=
  map (fun c => table_get replacements c c) t.

(** The request bodies that [build_query] builds: strings, numbers, lists
    and dicts with literal keys. *)
Inductive query_value : Type :=
  | QText (t : text)
  | QInt (n : Z)
  | QList (items : list query_value)
  | QDict (fields : list (string * query_value)).

(** [build_query(query, lang)] *)
Definition build_query (query lang : text) : query_value :=
  let is_ar := bool_decide (lang = lit "ar") in
  let query := if is_ar then normalize_arabic query else query in
  let arabic_search_filters :=
    if is_ar then
      [QDict [("match", QDict [("tags_primary.arabic",
                 QDict [("query", QText query); ("boost", QInt 10000)])])];
       QDict [("match_phrase", QDict [("tags_primary.arabic",
                 QDict [("query", QText query); ("boost", QInt 3000); ("slop", QInt 2)])])];
       QDict [("match", QDict [("tags_secondary.arabic",
                 QDict [("query", QText query); ("boost", QInt 6000)])])];
       QDict [("match", QDict [("tags_tertiary.arabic",
                 QDict [("query", QText query); ("boost", QInt 1000)])])];
       QDict [("match", QDict [("tags_primary.arabic",
                 QDict [("query", QText query); ("fuzziness", QText (lit "AUTO:4,8"));
                        ("boost", QInt 100)])])];
       QDict [("match", QDict [("tags_secondary.arabic",
                 QDict [("query", QText query); ("fuzziness", QText (lit "AUTO:4,8"));
                        ("boost", QInt 50)])])]]
    else [] in
  QDict
    [("query", QDict [("bool", QDict
        [("should", QList
           ([QDict [("term", QDict [("tags_primary.exact",
                      QDict [("value", QText query); ("boost", QInt 15000)])])];
             QDict [("term", QDict [("tags_secondary.exact",
                      QDict [("value", QText query); ("boost", QInt 10000)])])];
             QDict [("term", QDict [("tags_tertiary.exact",
                      QDict [("value", QText query); ("boost", QInt 1000)])])];
             QDict [("match", QDict [("tags_primary",
                      QDict [("query", QText query); ("boost", QInt 5000)])])];
             QDict [("match_phrase", QDict [("tags_secondary",
                      QDict [("query", QText query); ("boost", QInt 3000)])])];
             QDict [("match_phrase", QDict [("tags_tertiary",
                      QDict [("query", QText query); ("boost", QInt 1000)])])]]
            ++ arabic_search_filters
            ++ [QDict [("match", QDict [("tags_primary.fuzzy",
                      QDict [("query", QText query); ("fuzziness", QText (lit "AUTO:4,8"));
                             ("boost", QInt 100)])])];
                QDict [("match", QDict [("tags_secondary.fuzzy",
                      QDict [("query", QText query); ("fuzziness", QText (lit "AUTO:4,8"));
                             ("boost", QInt 50)])])];
                QDict [("match", QDict [("tags_tertiary.fuzzy",
                      QDict [("query", QText query); ("fuzziness", QText (lit "2"));
                             ("boost", QInt 25)])])]]));
         ("minimum_should_match", QInt 1)])]);
     ("sort", QList
        [QDict [("_score", QText (lit "desc"))];
         QDict [("department_sort_order", QText (lit "asc"))];
         QDict [("title.en.keyword",
                 QDict [("order", QText (lit "asc")); ("missing", QText (lit "_last"))])]]);
     ("size", QInt 30)].

(** [d[k]] on a request body, if it is a dict with that key. *)
Definition query_item (v : query_value) (k : string) : option query_value :=
  match v with
  | QDict fields =>
      (fix get (d : list (string * query_value)) : option query_value :=
         match d with
         | [] => None
         | (k', x) :: d' => if String.eqb k k' then Some x else get d'
         end) fields
  | _ => None
  end.

(** [body['query']['bool']['should']] *)
Definition should_clauses (body : query_value) : list query_value :=
  match query_item body "query" with
  | Some q =>
      match query_item q "bool" with
      | Some b =>
          match query_item b "should" with
          | Some (QList clauses) => clauses
          | _ => []
          end
      | None => []
      end
  | None => []
  end.

(** The text a clause [{kind: {field: {...}}}] searches for: its ["query"]
    or, for a term clause, its ["value"]. *)
Definition clause_text (clause : query_value) : option text :=
  match clause with
  | QDict [(_, QDict [(_, params)])] =>
      match query_item params "query", query_item params "value" with
      | Some (QText t), _ => Some t
      | None, Some (QText t) => Some t
      | _, _ => None
      end
  | _ => None
  end.

(** The letters that [normalize_arabic] replaces. *)
Definition variant_letter (c : N) : bool :=
  existsb (fun kv => N.eqb c (fst kv)) replacements.

(** What the loops of [load_test] can raise. *)
Inductive load_error : Type :=
  | ZeroDivisionError
  | IndexError.

(** [QUERY_TERMS[i % len(QUERY_TERMS)]] *)
Definition rotate_term (QUERY_TERMS : list text) (i : nat) : load_error + text :=
  match length QUERY_TERMS with
  | O => inl ZeroDivisionError
  | len =>
      match nth_error QUERY_TERMS (i mod len) with
      | Some term => inr term
      | None => inl IndexError
      end
  end.

(** The query terms that the first loop of [load_test] submits, for
    [i in range(NUM_REQUESTS)]. *)
Fixpoint submitted_from (QUERY_TERMS : list text) (i count : nat)
  : load_error + list text :=
  match count with
  | O => inr []
  | S count' =>
      match rotate_term QUERY_TERMS i with
      | inl e => inl e
      | inr term =>
          match submitted_from QUERY_TERMS (S i) count' with
          | inl e => inl e
          | inr terms => inr (term :: terms)
          end
      end
  end.

Definition submitted_terms (QUERY_TERMS : list text) (NUM_REQUESTS : nat)
  : load_error + list text :=
  submitted_from QUERY_TERMS 0 NUM_REQUESTS.

(** What [execute_search] returns: the dict of a success or of an
    [ApiError]; [D] is the type of the durations. *)
Inductive search_result (D : Type) : Type :=
  | SearchSuccess (hits : Z) (duration : D)
  | SearchError (error : text) (duration : D).
Arguments SearchSuccess {D} hits duration.
Arguments SearchError {D} error duration.

Definition result_duration {D : Type} (r : search_result D) : D :=
  match r with
  | SearchSuccess _ d => d
  | SearchError _ d => d
  end.

Definition result_status {D : Type} (r : search_result D) : text :=
  match r with
  | SearchSuccess _ _ => lit "success"
  | SearchError _ _ => lit "error"
  end.

(** The state of the second loop of [load_test]. *)
Record tally (D : Type) : Type := {
  response_times : list D;
  successes : nat;
  errors : nat
}.
Arguments response_times {D} _.
Arguments successes {D} _.
Arguments errors {D} _.

(** The body of the loop over [as_completed(futures)]. *)
Definition tally_step {D : Type} (t : tally D) (result : search_result D) : tally D :=
  if bool_decide (result_status result = lit "success")
  then {| response_times := response_times t ++ [result_duration result];
          successes := S (successes t);
          errors := errors t |}
  else {| response_times := response_times t ++ [result_duration result];
          successes := successes t;
          errors := S (errors t) |}.

(** The loop over the results, in the order in which the futures
    complete.  [completed] holds what the calls of [execute_search]
    returned; an exception other than [ApiError] in one of them is raised
    again by [future.result()] and ends [load_test]. *)
Definition tally_results {D : Type} (completed : list (search_result D)) : tally D :=
  fold_left tally_step completed
    {| response_times := []; successes := 0; errors := 0 |}.

(** * Properties *)

(** ** Outcomes and comprehensions *)

Lemma bind_returns {A B : Type} (m : outcome A) (k : A -> outcome B) (b : B) :
  bind m k = Returns b -> exists a, m = Returns a /\ k a = Returns b.
Proof. destruct m as [a|e]; simpl; [eauto | discriminate]. Qed.

Lemma for_each_cons {A B : Type} (f : A -> outcome B) (x : A) (xs : list A) :
  for_each f (x :: xs) =
  (do y <- f x ;; do ys <- for_each f xs ;; Returns (y :: ys)).
Proof. reflexivity. Qed.

(** A comprehension whose body never raises is a [map]. *)
Lemma for_each_pure {A B : Type} (f : A -> outcome B) (g : A -> B) (xs : list A) :
  (forall x, In x xs -> f x = Returns (g x)) ->
  for_each f xs = Returns (map g xs).
Proof.
  induction xs as [|x xs IH]; intros Hf; [reflexivity|].
  rewrite for_each_cons, (Hf x (or_introl eq_refl)). simpl bind.
  rewrite IH; [reflexivity|]. intros y Hy. apply Hf. now right.
Qed.

(** ** Dictionaries *)

Lemma dict_get_set_eq (k : string) (v : value) (d : pydict) :
  dict_get k (dict_set k v d) = Some v.
Proof.
  induction d as [|[k' v'] d IH]; simpl.
  - now rewrite String.eqb_refl.
  - destruct (String.eqb k k') eqn:E; simpl; rewrite ?String.eqb_refl, ?E; auto.
Qed.

Lemma dict_get_set_ne (k k' : string) (v : value) (d : pydict) :
  k <> k' -> dict_get k' (dict_set k v d) = dict_get k' d.
Proof.
  intros Hne. induction d as [|[k0 v0] d IH]; simpl.
  - destruct (String.eqb k' k) eqn:E; [apply String.eqb_eq in E; congruence | reflexivity].
  - destruct (String.eqb k k0) eqn:E; simpl.
    + apply String.eqb_eq in E; subst k0.
      destruct (String.eqb k' k) eqn:E'; [apply String.eqb_eq in E'; congruence | reflexivity].
    + now rewrite IH.
Qed.

Lemma dict_get_Some_In (k : string) (v : value) (d : pydict) :
  dict_get k d = Some v -> In (k, v) d.
Proof.
  induction d as [|[k' v'] d IH]; simpl; [discriminate|].
  destruct (String.eqb k k') eqn:E.
  - apply String.eqb_eq in E; subst. intros [= ->]. now left.
  - intros H. right. auto.
Qed.

Lemma dict_get_None_keys (k : string) (d : pydict) :
  dict_get k d = None <-> ~ In k (dict_keys d).
Proof.
  induction d as [|[k' v'] d IH]; simpl; [split; auto|].
  destruct (String.eqb k k') eqn:E.
  - apply String.eqb_eq in E; subst. split; [discriminate | tauto].
  - apply String.eqb_neq in E. rewrite IH. split; [intros H [?|?]; [congruence|tauto] | tauto].
Qed.

Lemma dict_get_distinct (k : string) (v : value) (d : pydict) :
  distinct_keys d -> In (k, v) d -> dict_get k d = Some v.
Proof.
  unfold distinct_keys. induction d as [|[k' v'] d IH]; simpl; [tauto|].
  intros Hnd [Heq|Hin].
  - inversion Heq; subst. now rewrite String.eqb_refl.
  - inversion Hnd as [|? ? Hnotin Hnd']; subst.
    destruct (String.eqb k k') eqn:E; [|auto].
    apply String.eqb_eq in E; subst. exfalso. apply Hnotin.
    change (In (fst (k', v)) (map fst d)). now apply in_map.
Qed.

Lemma dict_set_fresh (k : string) (v : value) (d : pydict) :
  ~ In k (dict_keys d) -> dict_set k v d = d ++ [(k, v)].
Proof.
  induction d as [|[k' v'] d IH]; simpl; [reflexivity|].
  intros Hn. destruct (String.eqb k k') eqn:E.
  - apply String.eqb_eq in E. subst. exfalso. apply Hn. now left.
  - rewrite IH; [reflexivity | tauto].
Qed.

(** Storing items with distinct keys one after the other gives back the
    items. *)
Lemma dict_of_items_distinct (items : pydict) :
  distinct_keys items -> dict_of_items items = items.
Proof.
  unfold dict_of_items, distinct_keys.
  assert (G : forall acc,
             List.NoDup (dict_keys (acc ++ items)) ->
             fold_left (fun d kv => dict_set (fst kv) (snd kv) d) items acc = acc ++ items).
  { induction items as [|[k v] items IH]; intros acc Hnd; simpl.
    - now rewrite app_nil_r.
    - rewrite dict_set_fresh.
      + rewrite IH; rewrite <- app_assoc; [reflexivity | exact Hnd].
      + unfold dict_keys in *. rewrite map_app in Hnd. simpl in Hnd.
        apply NoDup_remove_2 in Hnd. intros Hin. apply Hnd.
        apply in_or_app. now left. }
  intros Hnd. apply (G []). exact Hnd.
Qed.

(** ** The identity index *)

Section ReconcileFacts.
Variable repr_container : value -> string.
Variable L : DiffLibrary.

Lemma index_fold_raises (exclude_fields : list string) (data : list pydict) (e : exn) :
  fold_left (index_step repr_container exclude_fields) data (Raises e) = Raises e.
Proof. induction data as [|doc data IH]; simpl; auto. Qed.

Lemma index_fold_spec (exclude_fields : list string) (data : list pydict)
    (m0 : gmap string pydict) :
  fold_left (index_step repr_container exclude_fields) data (Returns m0)
  = if all_have_id data
    then Returns (fold_left (store repr_container exclude_fields) data m0)
    else Raises (KeyError "_id").
Proof.
  revert m0. induction data as [|doc data IH]; intros m0; simpl; [reflexivity|].
  unfold index_step, dict_item, has_key, store, doc_id.
  destruct (dict_get "_id" doc) as [id|]; simpl.
  - apply IH.
  - apply index_fold_raises.
Qed.

(** The index is built exactly when every document has an [_id]; the
    first document without one raises [KeyError]. *)
Lemma index_by_id_spec (exclude_fields : list string) (data : list pydict) :
  index_by_id repr_container exclude_fields data
  = if all_have_id data
    then Returns (stored_index repr_container exclude_fields data)
    else Raises (KeyError "_id").
Proof. apply index_fold_spec. Qed.

Lemma stored_index_snoc (exclude_fields : list string) (data : list pydict) (doc : pydict) :
  stored_index repr_container exclude_fields (data ++ [doc])
  = store repr_container exclude_fields (stored_index repr_container exclude_fields data) doc.
Proof. unfold stored_index. now rewrite fold_left_app. Qed.

Lemma identities_snoc (data : list pydict) (doc : pydict) :
  identities repr_container (data ++ [doc]) = identities repr_container data ++ identities repr_container [doc].
Proof. unfold identities. apply omap_app. Qed.

(** The keys of the index are the distinct identities repr_container of the collection. *)
Lemma dom_stored_index (exclude_fields : list string) (data : list pydict) :
  dom (stored_index repr_container exclude_fields data) = list_to_set (identities repr_container data).
Proof.
  induction data as [|doc data IH] using rev_ind.
  - unfold stored_index. simpl. now rewrite dom_empty_L.
  - rewrite stored_index_snoc, identities_snoc, list_to_set_app_L, <- IH.
    unfold store, identities. simpl. destruct (doc_id repr_container doc) as [k|]; simpl.
    + rewrite dom_insert_L. set_solver.
    + set_solver.
Qed.

Lemma stored_index_lookup (exclude_fields : list string) (data : list pydict) (k : string) :
  stored_index repr_container exclude_fields data !! k
  = option_map (strip_fields exclude_fields) (representative repr_container k data).
Proof.
  induction data as [|doc data IH] using rev_ind.
  - reflexivity.
  - rewrite stored_index_snoc. unfold representative, store.
    rewrite List.filter_app. simpl.
    destruct (doc_id repr_container doc) as [k'|] eqn:Hid.
    + destruct (decide (k' = k)) as [->|Hne].
      * rewrite lookup_insert_eq, bool_decide_eq_true_2 by reflexivity.
        now rewrite last_snoc.
      * rewrite lookup_insert_ne by exact Hne.
        rewrite bool_decide_eq_false_2 by congruence.
        rewrite app_nil_r. exact IH.
    + rewrite bool_decide_eq_false_2 by congruence.
      rewrite app_nil_r. exact IH.
Qed.

Lemma restore_id_in_dom (index : gmap string pydict) (k : string) :
  k ∈ dom index -> restore_id index k = Returns (restored index k).
Proof.
  intros [doc Hdoc]%elem_of_dom. unfold restore_id, index_item, restored.
  rewrite Hdoc. reflexivity.
Qed.

Lemma compare_common_in_dom (source_dict target_dict : gmap string pydict) (k : string) :
  k ∈ dom source_dict -> k ∈ dom target_dict ->
  compare_common L source_dict target_dict k
  = Returns (compared L source_dict target_dict k).
Proof.
  intros [s Hs]%elem_of_dom [t Ht]%elem_of_dom.
  unfold compare_common, index_item, compared. rewrite Hs, Ht. reflexivity.
Qed.

Lemma omap_id_map {A B : Type} (f : A -> option B) (l : list A) :
  omap (fun e => e) (map f l) = omap f l.
Proof.
  induction l as [|x l IH]; csimpl; [reflexivity|].
  destruct (f x); csimpl; now rewrite IH.
Qed.

(** [compare_collections] raises [KeyError] at the first document without
    an [_id]; otherwise it computes [reconciled] and returns it once the
    logging has gone through. *)
Theorem compare_collections_spec
    (source_data target_data : list pydict) (name : string)
    (exclude_fields : list string) :
  compare_collections repr_container L source_data target_data name exclude_fields
  = if all_have_id source_data && all_have_id target_data
    then do _ <- log_differences L
                   (content_differences
                      (reconciled repr_container L exclude_fields source_data target_data)) ;;
         Returns (reconciled repr_container L exclude_fields source_data target_data)
    else Raises (KeyError "_id").
Proof.
  unfold compare_collections. rewrite !index_by_id_spec.
  destruct (all_have_id source_data); [|reflexivity].
  destruct (all_have_id target_data); [|reflexivity].
  cbn [bind andb].
  rewrite (for_each_pure _ (restored (stored_index repr_container exclude_fields target_data))).
  2:{ intros k Hk. apply restore_id_in_dom.
      apply list_elem_of_In, elem_of_elements in Hk. set_solver. }
  cbn [bind].
  rewrite (for_each_pure _ (restored (stored_index repr_container exclude_fields source_data))).
  2:{ intros k Hk. apply restore_id_in_dom.
      apply list_elem_of_In, elem_of_elements in Hk. set_solver. }
  cbn [bind].
  rewrite (for_each_pure _ (compared L (stored_index repr_container exclude_fields source_data)
                                     (stored_index repr_container exclude_fields target_data))).
  2:{ intros k Hk. apply list_elem_of_In, elem_of_elements in Hk.
      apply compare_common_in_dom; set_solver. }
  cbn [bind]. rewrite omap_id_map. reflexivity.
Qed.
End ReconcileFacts.

(** ** Set completeness of the identity matcher *)

Lemma size_inter_difference (A B : gset string) :
  (size (A ∩ B) + size (A ∖ B) = size A)%nat.
Proof.
  rewrite <- size_union by set_solver.
  f_equal. apply set_eq. intros x. rewrite elem_of_union, elem_of_intersection, elem_of_difference.
  destruct (decide (x ∈ B)); tauto.
Qed.

Lemma size_list_to_set_remove_dups (l : list string) :
  size (list_to_set l : gset string) = length (remove_dups l).
Proof.
  rewrite <- (size_list_to_set (C := gset string) (remove_dups l)) by apply NoDup_remove_dups.
  f_equal. apply set_eq. intros x.
  now rewrite !elem_of_list_to_set, elem_of_remove_dups.
Qed.

Lemma length_elements_size (A : gset string) : length (elements A) = size A.
Proof. reflexivity. Qed.

(** What a returned result is. *)
Lemma compare_collections_returns
    (repr_container : value -> string) (L : DiffLibrary)
    (source_data target_data : list pydict) (name : string)
    (exclude_fields : list string) (r : differences (report L)) :
  compare_collections repr_container L source_data target_data name exclude_fields
  = Returns r ->
  all_have_id source_data = true /\ all_have_id target_data = true /\
  r = reconciled repr_container L exclude_fields source_data target_data.
Proof.
  rewrite compare_collections_spec.
  destruct (all_have_id source_data), (all_have_id target_data); simpl; try discriminate.
  intros H. apply bind_returns in H as (_ & _ & H). inversion H. auto.
Qed.

(** C1: in a returned result, the common identities and the identities
    missing in the target add up to the distinct stringified identities of
    the source, and the common identities and those missing in the source
    add up to the distinct stringified identities of the target. *)
Theorem set_completeness
    (repr_container : value -> string) (L : DiffLibrary)
    (S T : list pydict) (name : string) (exclude_fields : list string)
    (r : differences (report L)) :
  compare_collections repr_container L S T name exclude_fields = Returns r ->
  (common_count r + length (missing_in_target r)
   = length (remove_dups (identities repr_container S)))%nat /\
  (common_count r + length (missing_in_source r)
   = length (remove_dups (identities repr_container T)))%nat.
Proof.
  intros (_ & _ & ->)%compare_collections_returns. simpl.
  rewrite !length_map, !length_elements_size.
  rewrite <- !size_list_to_set_remove_dups, <- !(dom_stored_index _ exclude_fields).
  split.
  - apply size_inter_difference.
  - rewrite (comm_L (∩)). apply size_inter_difference.
Qed.

(** ** Exclusion transparency *)

Lemma str_in_In (k : string) (l : list string) : str_in k l = true <-> In k l.
Proof.
  unfold str_in. rewrite existsb_exists. split.
  - intros (x & Hx & ->%String.eqb_eq). exact Hx.
  - intros H. exists k. split; [exact H | apply String.eqb_refl].
Qed.

Lemma dict_of_items_fold_get (k : string) (items acc : pydict) :
  ~ In k (dict_keys items) ->
  dict_get k (fold_left (fun d kv => dict_set (fst kv) (snd kv) d) items acc)
  = dict_get k acc.
Proof.
  revert acc. induction items as [|[k' v'] items IH]; intros acc Hn; simpl; [reflexivity|].
  simpl in Hn. rewrite IH by tauto. apply dict_get_set_ne. intros ->. tauto.
Qed.

Lemma dict_get_of_items_None (k : string) (items : pydict) :
  ~ In k (dict_keys items) -> dict_get k (dict_of_items items) = None.
Proof. intros H. unfold dict_of_items. now rewrite dict_of_items_fold_get. Qed.

(** A field of the exclusion list, and the [_id] field, is no key of a
    stripped document. *)
Lemma strip_fields_excluded (exclude_fields : list string) (doc : pydict) (f : string) :
  In f (exclude_fields ++ ["_id"]) ->
  dict_get f (strip_fields exclude_fields doc) = None.
Proof.
  intros Hf. apply dict_get_of_items_None. unfold dict_keys.
  intros ((k & v) & <- & Hin)%in_map_iff.
  apply filter_In in Hin as [_ Hneg]. simpl in *.
  apply negb_true_iff in Hneg. apply str_in_In in Hf. congruence.
Qed.

Lemma strip_fields_same_but_field (exclude_fields : list string) (f : string)
    (doc doc' : pydict) :
  In f exclude_fields -> same_but_field f doc doc' ->
  strip_fields exclude_fields doc = strip_fields exclude_fields doc'.
Proof.
  intros Hf Hsame. unfold strip_fields. f_equal.
  induction Hsame as [|[k v] [k' v'] doc doc' [Hk Hv] _ IH]; [reflexivity|].
  simpl in *. subst k'. rewrite IH.
  destruct (str_in k (exclude_fields ++ ["_id"])) eqn:E; simpl; [reflexivity|].
  rewrite Hv; [reflexivity|]. intros ->.
  assert (str_in f (exclude_fields ++ ["_id"]) = true) as E'.
  { apply str_in_In, in_or_app. now left. }
  congruence.
Qed.

Lemma dict_get_same_but_field (f k : string) (doc doc' : pydict) :
  k <> f -> same_but_field f doc doc' -> dict_get k doc = dict_get k doc'.
Proof.
  intros Hk Hsame.
  induction Hsame as [|[k1 v] [k2 v'] doc doc' [Hk12 Hv] _ IH]; [reflexivity|].
  simpl in *. subst k2. destruct (String.eqb k k1) eqn:E; [|exact IH].
  apply String.eqb_eq in E. subst k1. now rewrite Hv.
Qed.

Lemma index_by_id_same_but_field (repr_container : value -> string)
    (exclude_fields : list string) (f : string) (data data' : list pydict) :
  In f exclude_fields -> f <> "_id" -> same_but_field_data f data data' ->
  index_by_id repr_container exclude_fields data
  = index_by_id repr_container exclude_fields data'.
Proof.
  intros Hf Hid Hsame. unfold index_by_id. generalize (Returns (∅ : gmap string pydict)).
  induction Hsame as [|doc doc' data data' Hdoc _ IH]; intros acc; [reflexivity|].
  simpl. rewrite IH. f_equal. unfold index_step, dict_item.
  rewrite (dict_get_same_but_field f "_id" doc doc') by auto.
  now rewrite (strip_fields_same_but_field exclude_fields f doc doc').
Qed.

(** The entries of [content_differences]: the common identities whose two
    stored documents have a true report. *)
Lemma In_content_differences (repr_container : value -> string) (L : DiffLibrary)
    (exclude_fields : list string) (S T : list pydict) (e : diff_entry (report L)) :
  In e (content_differences (reconciled repr_container L exclude_fields S T)) <->
  stored_index repr_container exclude_fields S !! entry_id e = Some (source_doc e) /\
  stored_index repr_container exclude_fields T !! entry_id e = Some (target_doc e) /\
  diff e = DeepDiff L (source_doc e) (target_doc e) /\
  report_bool L (diff e) = true.
Proof.
  simpl. rewrite <- list_elem_of_In, list_elem_of_omap. split.
  - intros (k & _ & Hk). unfold compared in Hk.
    destruct (stored_index repr_container exclude_fields S !! k) as [s|] eqn:Hs; [|discriminate].
    destruct (stored_index repr_container exclude_fields T !! k) as [t|] eqn:Ht; [|discriminate].
    destruct (report_bool L (DeepDiff L s t)) eqn:Hb; [|discriminate].
    inversion Hk; subst; simpl. auto.
  - intros (Hs & Ht & Hd & Hb). exists (entry_id e). split.
    + apply elem_of_elements, elem_of_intersection. split; apply elem_of_dom; eauto.
    + unfold compared. rewrite Hs, Ht, <- Hd, Hb. destruct e; reflexivity.
Qed.

(** A document of the index is a stripped document of the collection. *)
Lemma stored_index_Some (repr_container : value -> string)
    (exclude_fields : list string) (data : list pydict) (k : string) (d : pydict) :
  stored_index repr_container exclude_fields data !! k = Some d ->
  exists doc, In doc data /\ doc_id repr_container doc = Some k /\
              d = strip_fields exclude_fields doc.
Proof.
  rewrite stored_index_lookup. unfold representative.
  destruct (last _) as [doc|] eqn:Hlast; [|discriminate].
  intros [= <-]. exists doc.
  apply last_Some in Hlast as (l' & Hl').
  assert (In doc (List.filter (fun doc => bool_decide (doc_id repr_container doc = Some k)) data)) as Hin.
  { rewrite Hl'. apply in_or_app. right. now left. }
  apply filter_In in Hin as [Hin Hdec]. apply bool_decide_eq_true in Hdec. auto.
Qed.



(** ** Symmetry of the missing lists *)

(** C4: the documents missing in the source when [S] is compared with [T]
    are, up to the order of the list, the documents missing in the target
    when [T] is compared with [S], and the other way round. *)
Theorem missing_lists_symmetry
    (repr_container : value -> string) (L : DiffLibrary)
    (S T : list pydict) (name : string) (exclude_fields : list string)
    (r r' : differences (report L)) :
  compare_collections repr_container L S T name exclude_fields = Returns r ->
  compare_collections repr_container L T S name exclude_fields = Returns r' ->
  Permutation (missing_in_source r) (missing_in_target r') /\
  Permutation (missing_in_target r) (missing_in_source r').
Proof.
  intros (_ & _ & ->)%compare_collections_returns
         (_ & _ & ->)%compare_collections_returns.
  split; apply Permutation_refl.
Qed.

(** ** Duplicate identities *)

(** The outcome depends on a collection only through its index. *)
Lemma compare_collections_index_ext
    (repr_container : value -> string) (L : DiffLibrary)
    (S S' T T' : list pydict) (name : string) (exclude_fields : list string) :
  all_have_id S = all_have_id S' ->
  stored_index repr_container exclude_fields S
  = stored_index repr_container exclude_fields S' ->
  all_have_id T = all_have_id T' ->
  stored_index repr_container exclude_fields T
  = stored_index repr_container exclude_fields T' ->
  compare_collections repr_container L S T name exclude_fields
  = compare_collections repr_container L S' T' name exclude_fields.
Proof.
  intros HaS HiS HaT HiT. rewrite !compare_collections_spec.
  unfold reconciled. now rewrite HaS, HiS, HaT, HiT.
Qed.

Lemma representative_drop_earlier (repr_container : value -> string)
    (k k' : string) (d1 d2 : pydict) (S1 S2 S3 : list pydict) :
  doc_id repr_container d1 = Some k -> doc_id repr_container d2 = Some k ->
  representative repr_container k' (S1 ++ d1 :: S2 ++ d2 :: S3)
  = representative repr_container k' (S1 ++ S2 ++ d2 :: S3).
Proof.
  intros H1 H2. unfold representative.
  rewrite !List.filter_app. simpl. rewrite !List.filter_app. simpl.
  rewrite H1, H2.
  destruct (bool_decide (Some k = Some k')) eqn:E; [|reflexivity].
  rewrite (app_assoc _ (List.filter _ S2)).
  change (?d :: ?l1 ++ ?d' :: ?l2) with ((d :: l1) ++ d' :: l2).
  rewrite (app_assoc _ (d1 :: _)).
  rewrite !(last_app _ (d2 :: _)), !last_cons.
  destruct (last (List.filter _ S3)); reflexivity.
Qed.

Lemma all_have_id_drop (d1 : pydict) (S1 S2 : list pydict) :
  has_key "_id" d1 = true ->
  all_have_id (S1 ++ d1 :: S2) = all_have_id (S1 ++ S2).
Proof.
  intros H. unfold all_have_id. rewrite !forallb_app. simpl. now rewrite H.
Qed.

Lemma doc_id_has_key (repr_container : value -> string) (doc : pydict) (k : string) :
  doc_id repr_container doc = Some k -> has_key "_id" doc = true.
Proof. unfold doc_id, has_key. destruct (dict_get "_id" doc); [reflexivity | discriminate]. Qed.

Lemma stored_index_drop_earlier (repr_container : value -> string)
    (exclude_fields : list string) (k : string) (d1 d2 : pydict)
    (S1 S2 S3 : list pydict) :
  doc_id repr_container d1 = Some k -> doc_id repr_container d2 = Some k ->
  stored_index repr_container exclude_fields (S1 ++ d1 :: S2 ++ d2 :: S3)
  = stored_index repr_container exclude_fields (S1 ++ S2 ++ d2 :: S3).
Proof.
  intros H1 H2. apply map_eq. intros k'.
  rewrite !stored_index_lookup.
  now rewrite (representative_drop_earlier repr_container k k' d1 d2).
Qed.

(** ** The structural differ *)

Lemma bytes_eqb_eq (x y : list byte) : bytes_eqb x y = true <-> x = y.
Proof.
  revert y. induction x as [|a x IH]; intros [|b y]; simpl; split; try congruence; try reflexivity.
  - intros [Hab Hxy]%andb_true_iff. apply Byte.byte_dec_bl in Hab. apply IH in Hxy. congruence.
  - intros [= -> ->]. apply andb_true_iff. split; [apply Byte.byte_dec_lb; reflexivity | now apply IH].
Qed.

Lemma value_eqb_items (la lb : list value) :
  Forall (fun a => forall b, value_eqb a b = true <-> a = b) la ->
  (fix items (la lb : list value) : bool :=
     match la, lb with
     | [], [] => true
     | x :: la', y :: lb' => value_eqb x y && items la' lb'
     | _, _ => false
     end) la lb = true <-> la = lb.
Proof.
  intros H. revert lb. induction H as [|a la Ha _ IH]; intros [|b lb]; split; try congruence; try reflexivity.
  - intros [Hab Hl]%andb_true_iff. apply Ha in Hab. apply IH in Hl. congruence.
  - intros [= -> ->]. apply andb_true_iff. split; [now apply Ha | now apply IH].
Qed.

Lemma value_eqb_eq (a b : value) : value_eqb a b = true <-> a = b.
Proof.
  revert b. induction a as [| x | x | x | x | la IH | la IH | la IH | la IH | da IH ]
    using value_nested_ind; intros b.
  - destruct b; simpl; split; congruence.
  - destruct b; simpl; split; try congruence; try discriminate.
    + intros ->%Bool.eqb_prop. reflexivity.
    + intros [= ->]. apply Bool.eqb_reflx.
  - destruct b; simpl; split; try congruence; try discriminate.
    + intros ->%Z.eqb_eq. reflexivity.
    + intros [= ->]. apply Z.eqb_refl.
  - destruct b; simpl; split; try congruence; try discriminate.
    + intros ->%String.eqb_eq. reflexivity.
    + intros [= ->]. apply String.eqb_refl.
  - destruct b; simpl; split; try congruence; try discriminate.
    + intros ->%bytes_eqb_eq. reflexivity.
    + intros [= ->]. now apply bytes_eqb_eq.
  - destruct b; try (simpl; split; congruence).
    change (value_eqb (VList la) (VList items)) with
      ((fix items (la lb : list value) : bool :=
          match la, lb with
          | [], [] => true
          | x :: la', y :: lb' => value_eqb x y && items la' lb'
          | _, _ => false
          end) la items).
    rewrite (value_eqb_items la items IH). split; congruence.
  - destruct b; try (simpl; split; congruence).
    change (value_eqb (VTuple la) (VTuple items)) with
      ((fix items (la lb : list value) : bool :=
          match la, lb with
          | [], [] => true
          | x :: la', y :: lb' => value_eqb x y && items la' lb'
          | _, _ => false
          end) la items).
    rewrite (value_eqb_items la items IH). split; congruence.
  - destruct b; try (simpl; split; congruence).
    change (value_eqb (VSet la) (VSet members)) with
      ((fix items (la lb : list value) : bool :=
          match la, lb with
          | [], [] => true
          | x :: la', y :: lb' => value_eqb x y && items la' lb'
          | _, _ => false
          end) la members).
    rewrite (value_eqb_items la members IH). split; congruence.
  - destruct b; try (simpl; split; congruence).
    change (value_eqb (VSetOrdered la) (VSetOrdered members)) with
      ((fix items (la lb : list value) : bool :=
          match la, lb with
          | [], [] => true
          | x :: la', y :: lb' => value_eqb x y && items la' lb'
          | _, _ => false
          end) la members).
    rewrite (value_eqb_items la members IH). split; congruence.
  - destruct b as [| | | | | | | | | db]; try (simpl; split; congruence).
    change (value_eqb (VDict da) (VDict db)) with
      ((fix fields (da db : list (string * value)) : bool :=
          match da, db with
          | [], [] => true
          | (k, x) :: da', (k', y) :: db' =>
              String.eqb k k' && value_eqb x y && fields da' db'
          | _, _ => false
          end) da db).
    assert (G : (fix fields (da db : list (string * value)) : bool :=
          match da, db with
          | [], [] => true
          | (k, x) :: da', (k', y) :: db' =>
              String.eqb k k' && value_eqb x y && fields da' db'
          | _, _ => false
          end) da db = true <-> da = db).
    { clear -IH. revert db.
      induction IH as [|[k x] da Hx _ IHda]; intros [|[k' y] db]; split;
        try congruence; try reflexivity.
      - intros [[Hk Hxy]%andb_true_iff Hd]%andb_true_iff.
        apply String.eqb_eq in Hk. apply Hx in Hxy. apply IHda in Hd. simpl in *. congruence.
      - intros [= -> -> ->]. rewrite String.eqb_refl. simpl.
        apply andb_true_iff. split; [now apply Hx | now apply IHda]. }
    rewrite G. split; congruence.
Qed.

Lemma value_eqb_refl (a : value) : value_eqb a a = true.
Proof. now apply value_eqb_eq. Qed.

Lemma distinct_strings_NoDup (l : list string) :
  distinct_strings l = true <-> List.NoDup l.
Proof.
  induction l as [|k l IH]; simpl.
  - split; [constructor | reflexivity].
  - rewrite andb_true_iff, negb_true_iff, IH. split.
    + intros [Hk Hl]. constructor; [|exact Hl].
      intros Hin%str_in_In. congruence.
    + intros H. inversion H as [|? ? Hk Hl]; subst. split; [|exact Hl].
      destruct (str_in k l) eqn:E; [|reflexivity]. apply str_in_In in E. tauto.
Qed.

Lemma well_formed_dict (d : pydict) :
  well_formed (VDict d) = true <->
  distinct_keys d /\ Forall (fun kv => well_formed (snd kv) = true) d.
Proof.
  unfold distinct_keys, dict_keys. simpl.
  rewrite andb_true_iff, distinct_strings_NoDup.
  enough ((fix fields (d : list (string * value)) : bool :=
             match d with
             | [] => true
             | (_, x) :: d' => well_formed x && fields d'
             end) d = true <-> Forall (fun kv => well_formed (snd kv) = true) d) as -> by tauto.
  induction d as [|[k v] d IH].
  - split; [constructor | reflexivity].
  - rewrite andb_true_iff, IH, Forall_cons. reflexivity.
Qed.

Lemma well_formed_list (l : list value) :
  well_formed (VList l) = true <-> Forall (fun v => well_formed v = true) l.
Proof.
  simpl. rewrite forallb_forall, List.Forall_forall. reflexivity.
Qed.

Lemma has_key_In (k : string) (d : pydict) :
  has_key k d = true <-> In k (dict_keys d).
Proof.
  unfold has_key. destruct (dict_get k d) eqn:E.
  - split; [|reflexivity]. intros _. apply dict_get_Some_In in E.
    change k with (fst (k, v)). now apply in_map.
  - apply dict_get_None_keys in E. split; [discriminate | tauto].
Qed.

Lemma filter_none {A : Type} (f : A -> bool) (l : list A) :
  (forall x, In x l -> f x = false) -> List.filter f l = [].
Proof.
  induction l as [|x l IH]; intros H; simpl; [reflexivity|].
  rewrite (H x (or_introl eq_refl)). apply IH. intros y Hy. apply H. now right.
Qed.

(** Identical content gives no difference. *)
Lemma diff_values_same_content (a b : value) (path : list path_elem) :
  well_formed a = true -> same_content a b -> diff_values path a b = [].
Proof.
  revert b path.
  induction a as [| x | x | x | x | la IH | la IH | la IH | la IH | da IH ]
    using value_nested_ind; intros b path Hwf Hsame;
    try (inversion Hsame; subst; cbn [diff_values]; rewrite value_eqb_refl;
         reflexivity).
  - (* sequences *)
    inversion Hsame as [| ? lb Hall | ? Hc]; subst; [|discriminate Hc].
    simpl. apply well_formed_list in Hwf.
    generalize 0%nat. clear Hsame.
    induction Hall as [|x y la lb Hxy Hall IHall]; intros i; [reflexivity|].
    simpl. inversion IH; subst. inversion Hwf; subst.
    rewrite H1 by assumption. simpl. apply IHall; assumption.
  - (* mappings *)
    inversion Hsame as [? db Hget | | ? Hc]; subst; [|discriminate Hc].
    apply well_formed_dict in Hwf as [Hkeys Hwf].
    simpl. apply app_nil. split.
    + assert (Hsub : forall k v, In (k, v) da -> In (k, v) da) by auto.
      revert Hsub. generalize da at 1 3. intros d Hsub.
      induction d as [|[k v] d IHd]; [reflexivity|].
      simpl. pose proof (Hsub k v (or_introl eq_refl)) as Hin.
      pose proof (Hget k) as Hk.
      rewrite (dict_get_distinct k v da Hkeys Hin) in Hk.
      inversion Hk as [? w Hvw Heq1 Heq2|]; subst.
      rewrite List.Forall_forall in IH, Hwf.
      rewrite (IH (k, v) Hin w _ (Hwf (k, v) Hin) Hvw). simpl.
      apply IHd. intros k' v' H'. apply Hsub. now right.
    + unfold diff_added_fields.
      enough (List.filter (fun kv => negb (has_key (fst kv) da)) db = []) as -> by reflexivity.
      apply filter_none. intros [k w] Hin. simpl.
      assert (In k (dict_keys db)) as Hk.
      { change k with (fst (k, w)). now apply in_map. }
      apply has_key_In in Hk. unfold has_key in *.
      pose proof (Hget k) as Hg.
      destruct (dict_get k db); [|discriminate].
      destruct (dict_get k da); [reflexivity|]. inversion Hg.
Qed.

Lemma same_content_refl (a : value) : same_content a a.
Proof.
  induction a as [| x | x | x | x | la IH | la IH | la IH | la IH | da IH ]
    using value_nested_ind; try (now apply same_object).
  - apply same_list. induction IH; constructor; auto.
  - apply same_dict. intros k. destruct (dict_get k da) as [v|] eqn:E; constructor.
    apply dict_get_Some_In in E. rewrite List.Forall_forall in IH. apply (IH (k, v) E).
Qed.

(** No difference only for identical content. *)
Lemma diff_values_nil (a b : value) (path : list path_elem) :
  diff_values path a b = [] -> same_content a b.
Proof.
  revert b path.
  induction a as [| x | x | x | x | la IH | la IH | la IH | la IH | da IH ]
    using value_nested_ind; intros b path Hnil;
    try (cbn [diff_values] in Hnil;
         destruct (value_eqb _ b) eqn:E; [|discriminate];
         apply value_eqb_eq in E; subst; now apply same_object).
  - (* sequences *)
    destruct b as [| | | | | lb | | | |];
      try (cbn [diff_values] in Hnil; simpl in Hnil; discriminate).
    apply same_list. cbn [diff_values] in Hnil. revert Hnil. generalize 0%nat.
    revert lb. induction IH as [|x la Hx _ IHla]; intros [|y lb] i Hnil.
    + constructor.
    + discriminate.
    + discriminate.
    + simpl in Hnil. apply app_nil in Hnil as [Hxy Hrest].
      constructor; [eapply Hx; eauto | eapply IHla; eauto].
  - (* mappings *)
    destruct b as [| | | | | | | | | db];
      try (cbn [diff_values] in Hnil; simpl in Hnil; discriminate).
    cbn [diff_values] in Hnil. apply app_nil in Hnil as [Hleft Hadded].
    assert (Hl : forall k v, In (k, v) da ->
                 exists w, dict_get k db = Some w /\ same_content v w).
    { clear Hadded. revert Hleft.
      induction IH as [|[k0 v0] da Hv _ IHda]; simpl; intros Hleft k v Hin; [tauto|].
      apply app_nil in Hleft as [Hhead Hrest].
      destruct Hin as [[= -> ->]|Hin]; [|eauto].
      destruct (dict_get k db) as [w|]; [|discriminate].
      exists w. split; [reflexivity | eapply Hv; eauto]. }
    apply same_dict. intros k.
    destruct (dict_get k da) as [v|] eqn:Ea.
    + apply dict_get_Some_In in Ea. destruct (Hl k v Ea) as (w & -> & Hvw).
      now constructor.
    + destruct (dict_get k db) as [w|] eqn:Eb; [|constructor].
      exfalso. apply dict_get_Some_In in Eb.
      unfold diff_added_fields in Hadded. apply map_eq_nil in Hadded.
      assert (In (k, w) (List.filter (fun kv => negb (has_key (fst kv) da)) db)) as Hin.
      { apply filter_In. split; [exact Eb|]. simpl. unfold has_key. now rewrite Ea. }
      rewrite Hadded in Hin. destruct Hin.
Qed.

(** Every difference is reported at or below the path compared. *)
Lemma diff_values_prefix (a b : value) (path p : list path_elem) (c : change) :
  In (p, c) (diff_values path a b) -> exists q, p = path ++ q.
Proof.
  revert b path.
  induction a as [| x | x | x | x | la IH | la IH | la IH | la IH | da IH ]
    using value_nested_ind; intros b path Hin;
    try (cbn [diff_values] in Hin;
         destruct (value_eqb _ b); [destruct Hin|];
         destruct Hin as [[= <- <-]|[]]; exists []; now rewrite app_nil_r).
  - (* sequences *)
    destruct b as [| | | | | lb | | | |];
      try (cbn [diff_values] in Hin; simpl in Hin;
           destruct Hin as [[= <- <-]|[]]; exists []; now rewrite app_nil_r).
    cbn [diff_values] in Hin. revert Hin. generalize 0%nat. revert lb.
    induction IH as [|x la Hx _ IHla]; intros lb i Hin.
    + simpl in Hin. apply list_elem_of_In, list_elem_of_lookup in Hin as (j & Hj).
      rewrite list_lookup_imap in Hj. destruct (lb !! j); [|discriminate].
      inversion Hj; subst. eauto.
    + destruct lb as [|y lb]; simpl in Hin.
      * destruct Hin as [[= <- <-]|Hin]; [eauto | eapply IHla; eauto].
      * apply in_app_or in Hin as [Hin|Hin]; [|eapply IHla; eauto].
        apply Hx in Hin as (q & ->). rewrite <- app_assoc. eauto.
  - (* mappings *)
    destruct b as [| | | | | | | | | db];
      try (cbn [diff_values] in Hin; simpl in Hin;
           destruct Hin as [[= <- <-]|[]]; exists []; now rewrite app_nil_r).
    cbn [diff_values] in Hin. apply in_app_or in Hin as [Hin|Hin].
    + induction IH as [|[k0 v0] da Hv _ IHda]; simpl in Hin; [destruct Hin|].
      apply in_app_or in Hin as [Hin|Hin]; [|auto].
      destruct (dict_get k0 db) as [w|].
      * apply Hv in Hin as (q & ->). rewrite <- app_assoc. eauto.
      * destruct Hin as [[= <- <-]|[]]. eauto.
    + unfold diff_added_fields in Hin. apply in_map_iff in Hin as ([k w] & [= <- <-] & _).
      eauto.
Qed.

(** The differences of a field present on both sides are among the
    differences of the two mappings. *)
Lemma diff_left_fields_incl (path : list path_elem) (dl dr : pydict)
    (k : string) (v w : value) (pc : list path_elem * change) :
  In (k, v) dl -> dict_get k dr = Some w ->
  In pc (diff_values (path ++ [Key k]) v w) ->
  In pc (diff_values path (VDict dl) (VDict dr)).
Proof.
  intros Hin Hw Hpc. cbn [diff_values]. apply in_or_app. left.
  induction dl as [|[k0 v0] dl IH]; [destruct Hin|].
  simpl. apply in_or_app. destruct Hin as [[= -> ->]|Hin]; [|right; auto].
  left. now rewrite Hw.
Qed.

(** ** Reconciliation with the structural differ *)

Lemma filter_distinct_keys (f : string * value -> bool) (d : pydict) :
  distinct_keys d -> distinct_keys (List.filter f d).
Proof.
  unfold distinct_keys, dict_keys. induction d as [|[k v] d IH]; simpl; [auto|].
  intros Hnd. inversion Hnd as [|? ? Hk Hd]; subst.
  destruct (f (k, v)); simpl; [|auto].
  constructor; [|auto]. intros Hin. apply Hk.
  apply in_map_iff in Hin as (kv & <- & Hkv%filter_In). apply in_map. tauto.
Qed.

(** A well-formed document keeps its fields, in order, when stripped. *)
Lemma strip_fields_filter (exclude_fields : list string) (doc : pydict) :
  distinct_keys doc ->
  strip_fields exclude_fields doc
  = List.filter (fun kv => negb (str_in (fst kv) (exclude_fields ++ ["_id"]))) doc.
Proof.
  intros H. unfold strip_fields. apply dict_of_items_distinct.
  now apply filter_distinct_keys.
Qed.

Lemma strip_fields_well_formed (exclude_fields : list string) (doc : pydict) :
  well_formed_doc doc = true ->
  well_formed (VDict (strip_fields exclude_fields doc)) = true.
Proof.
  unfold well_formed_doc. intros [Hk Hv]%well_formed_dict.
  rewrite strip_fields_filter by exact Hk. apply well_formed_dict. split.
  - now apply filter_distinct_keys.
  - rewrite List.Forall_forall in *. intros kv [Hin _]%filter_In. auto.
Qed.

Lemma diff_documents_same_content (leftDoc rightDoc : pydict) :
  well_formed (VDict leftDoc) = true ->
  same_content (VDict leftDoc) (VDict rightDoc) ->
  diff_documents leftDoc rightDoc = [].
Proof. intros. now apply diff_values_same_content. Qed.

Lemma representative_stored (repr_container : value -> string)
    (exclude_fields : list string) (data : list pydict) (k : string) (doc : pydict) :
  representative repr_container k data = Some doc ->
  stored_index repr_container exclude_fields data !! k
  = Some (strip_fields exclude_fields doc).
Proof. intros H. now rewrite stored_index_lookup, H. Qed.

(** C8: a common identity whose two documents have, once stripped,
    identical content (the same bindings, in whatever key order) has an
    empty diff and no entry in [content_differences]. *)
Theorem diff_emptiness
    (repr_container : value -> string)
    (S T : list pydict) (name : string) (exclude_fields : list string)
    (r : differences (report StructuralDiffer)) (k : string) (s t : pydict) :
  compare_collections repr_container StructuralDiffer S T name exclude_fields
  = Returns r ->
  representative repr_container k S = Some s ->
  representative repr_container k T = Some t ->
  well_formed_doc s = true ->
  same_content (VDict (strip_fields exclude_fields s))
               (VDict (strip_fields exclude_fields t)) ->
  diff_documents (strip_fields exclude_fields s) (strip_fields exclude_fields t) = []
  /\ forall e, In e (content_differences r) -> entry_id e <> k.
Proof.
  intros (_ & _ & ->)%compare_collections_returns Hs Ht Hwf Hsame.
  assert (diff_documents (strip_fields exclude_fields s)
                         (strip_fields exclude_fields t) = []) as Hnil.
  { apply diff_documents_same_content; [|exact Hsame].
    now apply strip_fields_well_formed. }
  split; [exact Hnil|].
  intros e (Hes & Het & Hd & Hb)%In_content_differences Hk.
  destruct e as [eid esrc etgt ed].
  cbn [entry_id source_doc target_doc diff] in *. subst eid.
  rewrite (representative_stored _ _ _ _ _ Hs) in Hes.
  rewrite (representative_stored _ _ _ _ _ Ht) in Het.
  injection Hes as <-. injection Het as <-. subst ed.
  cbn [report_bool DeepDiff StructuralDiffer] in Hb.
  rewrite Hnil in Hb. discriminate.
Qed.


(** ** Idempotence *)

Lemma identities_length (repr_container : value -> string) (data : list pydict) :
  all_have_id data = true ->
  length (identities repr_container data) = length data.
Proof.
  unfold all_have_id, identities. induction data as [|doc data IH]; [reflexivity|].
  simpl. intros [Hdoc Hdata]%andb_true_iff. csimpl.
  unfold has_key in Hdoc. unfold doc_id at 1.
  destruct (dict_get "_id" doc); [|discriminate]. simpl. f_equal. now apply IH.
Qed.

Lemma omap_none {A B : Type} (f : A -> option B) (l : list A) :
  (forall x, In x l -> f x = None) -> omap f l = [].
Proof.
  induction l as [|x l IH]; intros H; [reflexivity|].
  csimpl. rewrite (H x (or_introl eq_refl)). apply IH. intros y Hy. apply H. now right.
Qed.

Lemma log_nothing (L : DiffLibrary) (r : differences (report L)) :
  content_differences r = [] ->
  (do _ <- log_differences L (content_differences r) ;; Returns r) = Returns r.
Proof. intros ->. reflexivity. Qed.

(** C3: a collection of well-formed documents with pairwise distinct
    stringified identities, compared with itself, has nothing missing on
    either side, as many common identities as documents, and no content
    difference. *)
Theorem idempotence
    (repr_container : value -> string)
    (S : list pydict) (name : string) (exclude_fields : list string) :
  all_have_id S = true ->
  List.NoDup (identities repr_container S) ->
  Forall (fun doc => well_formed_doc doc = true) S ->
  compare_collections repr_container StructuralDiffer S S name exclude_fields
  = Returns {| missing_in_source := [];
               missing_in_target := [];
               common_count := length S;
               content_differences := [] |}.
Proof.
  intros Hid Hnd Hwf. rewrite compare_collections_spec, Hid.
  change (true && true) with true. cbv iota.
  assert (content_differences
            (reconciled repr_container StructuralDiffer exclude_fields S S) = []) as Hcd.
  { cbn [content_differences reconciled]. apply omap_none. intros k _.
    unfold compared.
    destruct (stored_index repr_container exclude_fields S !! k) as [d|] eqn:Hd; [|reflexivity].
    apply stored_index_Some in Hd as (doc & Hin & _ & ->).
    cbn [report_bool DeepDiff StructuralDiffer].
    rewrite diff_documents_same_content; [reflexivity | | apply same_content_refl].
    apply strip_fields_well_formed. rewrite List.Forall_forall in Hwf. auto. }
  etransitivity; [apply log_nothing; exact Hcd|]. f_equal.
  cbn [content_differences reconciled] in Hcd.
  unfold reconciled. rewrite Hcd, difference_diag_L, elements_empty. cbn [map].
  f_equal. rewrite intersection_idemp_L, dom_stored_index.
  rewrite size_list_to_set by (now apply NoDup_ListNoDup).
  now apply identities_length.
Qed.

(** ** JSON-like documents and the logging of the differences *)

Lemma json_like_dict (d : pydict) :
  json_like (VDict d) = true <-> Forall (fun kv => json_like (snd kv) = true) d.
Proof.
  simpl. induction d as [|[k v] d IH].
  - split; [constructor | reflexivity].
  - rewrite andb_true_iff, IH, Forall_cons. reflexivity.
Qed.

Lemma json_like_list (l : list value) :
  json_like (VList l) = true <-> Forall (fun v => json_like v = true) l.
Proof. simpl. rewrite forallb_forall, List.Forall_forall. reflexivity. Qed.

Lemma for_each_returns {A B : Type} (f : A -> outcome B) (xs : list A) :
  (forall x, In x xs -> exists y, f x = Returns y) ->
  exists ys, for_each f xs = Returns ys.
Proof.
  induction xs as [|x xs IH]; intros H; [now exists []|].
  destruct (H x (or_introl eq_refl)) as (y & Hy).
  destruct IH as (ys & Hys); [intros z Hz; apply H; now right|].
  exists (y :: ys). now rewrite for_each_cons, Hy, Hys.
Qed.

(** The encoder serialises every JSON-like object. *)
Lemma json_dumps_json_like (v : value) :
  json_like v = true -> exists j, json_dumps v = Returns j.
Proof.
  induction v as [| x | x | x | x | la IH | la IH | la IH | la IH | da IH ]
    using value_nested_ind; intros Hj; try discriminate; try (simpl; eauto; fail).
  - apply json_like_list in Hj.
    destruct (for_each_returns json_dumps la) as (js & Hjs).
    { intros x Hx. rewrite List.Forall_forall in IH, Hj. auto. }
    exists (JArray js). cbn [json_dumps]. now rewrite Hjs.
  - apply json_like_dict in Hj. cbn [json_dumps].
    enough (exists js,
               (fix go (d : list (string * value)) : outcome (list (string * json)) :=
                  match d with
                  | [] => Returns []
                  | (k, v) :: d' =>
                      do j <- json_dumps v ;; do js <- go d' ;; Returns ((k, j) :: js)
                  end) da = Returns js) as (js & ->) by (simpl; eauto).
    induction IH as [|[k v] da Hv _ IHda]; [eauto|].
    inversion Hj; subst. destruct (Hv ltac:(assumption)) as (j & Hjv).
    destruct (IHda ltac:(assumption)) as (js & Hjs).
    exists ((k, j) :: js). simpl in *. now rewrite Hjv, Hjs.
Qed.

Lemma dict_set_In (k : string) (v : value) (d : pydict) (kv : string * value) :
  In kv (dict_set k v d) -> kv = (k, v) \/ In kv d.
Proof.
  induction d as [|[k' v'] d IH]; simpl.
  - intros [<-|[]]. now left.
  - destruct (String.eqb k k'); simpl; intros [<-|H]; auto.
    destruct (IH H); auto.
Qed.

Lemma dict_of_items_In (items : pydict) (kv : string * value) :
  In kv (dict_of_items items) -> In kv items.
Proof.
  unfold dict_of_items.
  enough (forall acc, In kv (fold_left (fun d kv => dict_set (fst kv) (snd kv) d) items acc) ->
                      In kv acc \/ In kv items) as G.
  { intros H. destruct (G [] H) as [[]|]; assumption. }
  induction items as [|[k v] items IH]; intros acc H; simpl in *; [auto|].
  destruct (IH _ H) as [H'|H']; [|auto].
  apply dict_set_In in H' as [->|H']; auto.
Qed.

Lemma strip_fields_In (exclude_fields : list string) (doc : pydict) (kv : string * value) :
  In kv (strip_fields exclude_fields doc) -> In kv doc.
Proof. intros H%dict_of_items_In. now apply filter_In in H as [H _]. Qed.

(** C10: [compare_collections] does not return for all JSON-like
    documents with an [_id]: for a common identity whose field holds a
    number on one side and a string on the other, the report is a type
    change, the classes it holds are refused by the encoder, and the logging
    of [content_differences] raises [TypeError]. *)
Theorem type_change_raises_TypeError :
  forallb json_like_doc (example_source_int ++ example_target_str) = true /\
  all_have_id (example_source_int ++ example_target_str) = true /\
  diff_documents (strip_fields [] [("_id", VInt 1); ("a", VInt 1)])
                 (strip_fields [] [("_id", VInt 1); ("a", VStr "1")])
  = [([Key "a"], Changed (VInt 1) (VStr "1"))] /\
  DiffTree_dumps [([Key "a"], Changed (VInt 1) (VStr "1"))] = Raises TypeError /\
  compare_collections repr_opaque StructuralDiffer example_source_int example_target_str
    "users" []
  = Raises TypeError.
Proof.
  split; [reflexivity|]. split; [reflexivity|]. split; [reflexivity|].
  split; [reflexivity|].
  rewrite compare_collections_spec. vm_compute. reflexivity.
Qed.

(** ** Rendering of identities *)

(** Objects that are not JSON-native are encoded through
    [JSONEncoder.default]. *)
Lemma json_dumps_default (obj : value) :
  match obj with
  | VObjectId _ | VSet _ | VSetOrdered _ =>
      json_dumps obj = (do o <- JSONEncoder_default obj ;; json_dumps o)
  | _ => True
  end.
Proof. destruct obj; try exact I; reflexivity. Qed.

Lemma restored_id (index : gmap string pydict) (exclude_fields : list string)
    (k : string) (doc : pydict) :
  index !! k = Some (strip_fields exclude_fields doc) ->
  dict_get "_id" (restored index k) = Some (VStr k).
Proof.
  intros H. unfold restored. rewrite H. unfold dict_of_items. simpl.
  rewrite dict_of_items_fold_get; [reflexivity|].
  apply dict_get_None_keys, strip_fields_excluded, in_or_app. right. now left.
Qed.

Lemma restored_fields (index : gmap string pydict) (k f : string) (v : value)
    (doc : pydict) :
  index !! k = Some doc ->
  In (f, v) (restored index k) -> (f, v) = ("_id", VStr k) \/ In (f, v) doc.
Proof.
  intros H Hin. unfold restored in Hin. rewrite H in Hin.
  apply dict_of_items_In in Hin as [<-|Hin]; auto.
Qed.

Lemma missing_entry (repr_container : value -> string)
    (exclude_fields : list string) (data : list pydict) (ids : gset string)
    (d : pydict) :
  ids ⊆ dom (stored_index repr_container exclude_fields data) ->
  In d (map (restored (stored_index repr_container exclude_fields data)) (elements ids)) ->
  exists doc id,
    In doc data /\ dict_get "_id" doc = Some id /\
    dict_get "_id" d = Some (VStr (py_str repr_container id)) /\
    forall f v, In (f, v) d ->
                (f, v) = ("_id", VStr (py_str repr_container id)) \/ In (f, v) doc.
Proof.
  intros Hsub (k & <- & Hk)%in_map_iff.
  apply list_elem_of_In, elem_of_elements, Hsub, elem_of_dom in Hk as [sd Hsd].
  destruct (stored_index_Some _ _ _ _ _ Hsd) as (doc & Hin & Hid & ->).
  unfold doc_id in Hid. destruct (dict_get "_id" doc) as [id|] eqn:E; [|discriminate].
  injection Hid as <-. exists doc, id. repeat split; auto.
  - eapply restored_id; eauto.
  - intros f v Hfv. destruct (restored_fields _ _ _ _ _ Hsd Hfv) as [?|?%strip_fields_In]; auto.
Qed.

(** C6, as stated, fails for the fields of the documents: an ObjectId held
    by a field other than [_id] is in [source_doc] as the object it is. *)
Lemma ObjectId_field_kept_in_result :
  ~ (forall (S T : list pydict) (exclude_fields : list string)
            (r : differences (report StructuralDiffer))
            (e : diff_entry (report StructuralDiffer)) (f : string) (v : value),
       compare_collections repr_opaque StructuralDiffer S T "c" exclude_fields
       = Returns r ->
       In e (content_differences r) ->
       In (f, v) (source_doc e) ->
       forall binary, v <> VObjectId binary).
Proof.
  intros H.
  pose (oid := [x5f; x1a; x2b; x3c; x4d; x5e; x6f; x70; x81; x92; xa3; xb4]%byte).
  pose (S := [[("_id", VObjectId oid); ("owner", VObjectId oid); ("ver", VInt 1)]]).
  pose (T := [[("_id", VObjectId oid); ("owner", VObjectId oid); ("ver", VInt 2)]]).
  pose (e := {| entry_id := "5f1a2b3c4d5e6f708192a3b4";
                source_doc := [("owner", VObjectId oid); ("ver", VInt 1)];
                target_doc := [("owner", VObjectId oid); ("ver", VInt 2)];
                diff := [([Key "ver"], Changed (VInt 1) (VInt 2))] |}
             : diff_entry (report StructuralDiffer)).
  apply (H S T [] {| missing_in_source := []; missing_in_target := [];
                     common_count := 1; content_differences := [e] |}
           e "owner" (VObjectId oid)) with (binary := oid).
  - vm_compute. reflexivity.
  - now left.
  - now left.
  - reflexivity.
Qed.

(** C6 (amended): in a returned result the [_id] of every missing document
    and of every [content_differences] entry is the string [str(doc['_id'])]
    of a document of the input, which for an ObjectId is its hexadecimal
    rendering; the other fields of the emitted documents hold the objects of
    the input as they are, and an ObjectId among them is rendered as its
    string by the JSON encoder when the result is serialised. *)
Theorem identity_rendering
    (repr_container : value -> string) (L : DiffLibrary)
    (S T : list pydict) (name : string) (exclude_fields : list string)
    (r : differences (report L)) :
  compare_collections repr_container L S T name exclude_fields = Returns r ->
  (forall d, In d (missing_in_source r) ->
     exists doc id, In doc T /\ dict_get "_id" doc = Some id /\
       dict_get "_id" d = Some (VStr (py_str repr_container id)) /\
       forall f v, In (f, v) d ->
         (f, v) = ("_id", VStr (py_str repr_container id)) \/ In (f, v) doc) /\
  (forall d, In d (missing_in_target r) ->
     exists doc id, In doc S /\ dict_get "_id" doc = Some id /\
       dict_get "_id" d = Some (VStr (py_str repr_container id)) /\
       forall f v, In (f, v) d ->
         (f, v) = ("_id", VStr (py_str repr_container id)) \/ In (f, v) doc) /\
  (forall e, In e (content_differences r) ->
     exists s t id, In s S /\ In t T /\ dict_get "_id" s = Some id /\
       entry_id e = py_str repr_container id /\
       (forall f v, In (f, v) (source_doc e) -> In (f, v) s) /\
       (forall f v, In (f, v) (target_doc e) -> In (f, v) t)) /\
  (forall binary,
     py_str repr_container (VObjectId binary) = hexlify binary /\
     JSONEncoder_default (VObjectId binary) = Returns (VStr (hexlify binary)) /\
     json_dumps (VObjectId binary) = Returns (JString (hexlify binary))).
Proof.
  intros (_ & _ & ->)%compare_collections_returns. repeat split.
  - intros d Hd. cbn [missing_in_source reconciled] in Hd.
    apply missing_entry in Hd; [exact Hd | set_solver].
  - intros d Hd. cbn [missing_in_target reconciled] in Hd.
    apply missing_entry in Hd; [exact Hd | set_solver].
  - intros e (Hs & Ht & _)%In_content_differences.
    apply stored_index_Some in Hs as (s & Hs & Hid & Hse).
    apply stored_index_Some in Ht as (t & Ht & _ & Hte).
    unfold doc_id in Hid. destruct (dict_get "_id" s) as [id|] eqn:E; [|discriminate].
    injection Hid as Hid. exists s, t, id. repeat split; auto.
    + rewrite Hse. intros f v. apply strip_fields_In.
    + rewrite Hte. intros f v. apply strip_fields_In.
Qed.

(** ** The last document of an identity *)

Lemma representative_last (repr_container : value -> string) (k : string)
    (d2 : pydict) (S0 S3 : list pydict) :
  doc_id repr_container d2 = Some k ->
  (forall d, In d S3 -> doc_id repr_container d <> Some k) ->
  representative repr_container k (S0 ++ d2 :: S3) = Some d2.
Proof.
  intros H2 H3. unfold representative. rewrite List.filter_app. simpl.
  rewrite H2, bool_decide_eq_true_2 by reflexivity.
  rewrite (filter_none _ S3).
  - apply last_snoc.
  - intros d Hd. apply bool_decide_eq_false_2. auto.
Qed.

(** The document that a missing list holds for an identity is the one
    restored from the index, and the list holds no other document with that
    identity. *)
Lemma missing_of_identity (repr_container : value -> string)
    (exclude_fields : list string) (data other : list pydict) (k : string)
    (doc : pydict) :
  stored_index repr_container exclude_fields data !! k
  = Some (strip_fields exclude_fields doc) ->
  stored_index repr_container exclude_fields other !! k = None ->
  In (dict_of_items (("_id", VStr k) :: strip_fields exclude_fields doc))
     (map (restored (stored_index repr_container exclude_fields data))
          (elements (dom (stored_index repr_container exclude_fields data)
                     ∖ dom (stored_index repr_container exclude_fields other)))) /\
  forall d,
    In d (map (restored (stored_index repr_container exclude_fields data))
              (elements (dom (stored_index repr_container exclude_fields data)
                         ∖ dom (stored_index repr_container exclude_fields other)))) ->
    dict_get "_id" d = Some (VStr k) ->
    d = dict_of_items (("_id", VStr k) :: strip_fields exclude_fields doc).
Proof.
  intros Hdata Hother.
  assert (restored (stored_index repr_container exclude_fields data) k
          = dict_of_items (("_id", VStr k) :: strip_fields exclude_fields doc)) as Hk.
  { unfold restored. now rewrite Hdata. }
  split.
  - apply in_map_iff. exists k. split; [exact Hk|].
    apply list_elem_of_In, elem_of_elements, elem_of_difference. split.
    + apply elem_of_dom. eauto.
    + now apply not_elem_of_dom.
  - intros d (k' & <- & Hk')%in_map_iff Hid.
    apply list_elem_of_In, elem_of_elements, elem_of_difference in Hk' as [Hin _].
    apply elem_of_dom in Hin as [sd Hsd].
    destruct (stored_index_Some _ _ _ _ _ Hsd) as (doc' & _ & _ & ->).
    rewrite (restored_id _ _ _ _ Hsd) in Hid. injection Hid as ->. exact Hk.
Qed.

(** C9: of the documents of a collection with one stringified [_id] the
    last one is the representative: it is the document of the index, the
    one that the missing list holds when the other side lacks the identity,
    and the one that is compared and shown in [content_differences] when the
    other side has it; an earlier document with the same identity has no
    influence on the outcome, on either side. *)
Theorem last_write_wins
    (repr_container : value -> string) (L : DiffLibrary)
    (exclude_fields : list string) (name : string) (k : string)
    (d1 d2 : pydict) (S1 S2 S3 T : list pydict) :
  doc_id repr_container d1 = Some k -> doc_id repr_container d2 = Some k ->
  (forall d, In d S3 -> doc_id repr_container d <> Some k) ->
  (forall index,
      index_by_id repr_container exclude_fields (S1 ++ d1 :: S2 ++ d2 :: S3)
      = Returns index ->
      index !! k = Some (strip_fields exclude_fields d2)) /\
  compare_collections repr_container L (S1 ++ d1 :: S2 ++ d2 :: S3) T name exclude_fields
  = compare_collections repr_container L (S1 ++ S2 ++ d2 :: S3) T name exclude_fields /\
  compare_collections repr_container L T (S1 ++ d1 :: S2 ++ d2 :: S3) name exclude_fields
  = compare_collections repr_container L T (S1 ++ S2 ++ d2 :: S3) name exclude_fields /\
  (forall r,
      compare_collections repr_container L (S1 ++ d1 :: S2 ++ d2 :: S3) T name exclude_fields
      = Returns r ->
      (representative repr_container k T = None ->
       In (dict_of_items (("_id", VStr k) :: strip_fields exclude_fields d2))
          (missing_in_target r) /\
       forall d, In d (missing_in_target r) -> dict_get "_id" d = Some (VStr k) ->
                 d = dict_of_items (("_id", VStr k) :: strip_fields exclude_fields d2)) /\
      (forall t,
          representative repr_container k T = Some t ->
          (forall e, In e (content_differences r) -> entry_id e = k ->
                     source_doc e = strip_fields exclude_fields d2 /\
                     target_doc e = strip_fields exclude_fields t) /\
          (report_bool L (DeepDiff L (strip_fields exclude_fields d2)
                                     (strip_fields exclude_fields t)) = true ->
           In {| entry_id := k;
                 source_doc := strip_fields exclude_fields d2;
                 target_doc := strip_fields exclude_fields t;
                 diff := DeepDiff L (strip_fields exclude_fields d2)
                                    (strip_fields exclude_fields t) |}
              (content_differences r)))) /\
  (forall r,
      compare_collections repr_container L T (S1 ++ d1 :: S2 ++ d2 :: S3) name exclude_fields
      = Returns r ->
      representative repr_container k T = None ->
      In (dict_of_items (("_id", VStr k) :: strip_fields exclude_fields d2))
         (missing_in_source r) /\
      forall d, In d (missing_in_source r) -> dict_get "_id" d = Some (VStr k) ->
                d = dict_of_items (("_id", VStr k) :: strip_fields exclude_fields d2)).
Proof.
  intros H1 H2 H3.
  assert (stored_index repr_container exclude_fields (S1 ++ d1 :: S2 ++ d2 :: S3) !! k
          = Some (strip_fields exclude_fields d2)) as Hlast.
  { rewrite stored_index_lookup.
    replace (S1 ++ d1 :: S2 ++ d2 :: S3) with ((S1 ++ d1 :: S2) ++ d2 :: S3)
      by (now rewrite <- app_assoc).
    now rewrite (representative_last repr_container k d2 _ S3 H2 H3). }
  split; [|split; [|split; [|split]]].
  - intros index Hindex. rewrite index_by_id_spec in Hindex.
    destruct (all_have_id _); [|discriminate]. inversion Hindex; subst. exact Hlast.
  - apply compare_collections_index_ext; try reflexivity.
    + apply all_have_id_drop. eapply doc_id_has_key; eauto.
    + eapply stored_index_drop_earlier; eauto.
  - apply compare_collections_index_ext; try reflexivity.
    + apply all_have_id_drop. eapply doc_id_has_key; eauto.
    + eapply stored_index_drop_earlier; eauto.
  - intros r (_ & _ & ->)%compare_collections_returns. split.
    + intros HT. cbn [missing_in_target reconciled].
      apply missing_of_identity; [exact Hlast|].
      rewrite stored_index_lookup, HT. reflexivity.
    + intros t HT.
      assert (stored_index repr_container exclude_fields T !! k
              = Some (strip_fields exclude_fields t)) as Ht.
      { rewrite stored_index_lookup, HT. reflexivity. }
      split.
      * intros e (Hs & Ht' & _)%In_content_differences Hk. rewrite Hk in *.
        split; congruence.
      * intros Hb. apply In_content_differences. cbn [entry_id source_doc target_doc diff].
        auto.
  - intros r (_ & _ & ->)%compare_collections_returns HT.
    cbn [missing_in_source reconciled].
    apply missing_of_identity; [exact Hlast|].
    rewrite stored_index_lookup, HT. reflexivity.
Qed.

(** ** The order of strings *)

Lemma string_compare_refl (s : string) : String.compare s s = Eq.
Proof.
  induction s as [|c s IH]; [reflexivity|]. simpl.
  unfold Ascii.compare. now rewrite N.compare_refl.
Qed.

Lemma string_compare_trans (a b c : string) :
  String.compare a b = Lt -> String.compare b c = Lt -> String.compare a c = Lt.
Proof.
  revert b c. induction a as [|x a IH]; intros [|y b] [|z c]; simpl; try congruence.
  unfold Ascii.compare.
  destruct (N.compare_spec (N_of_ascii x) (N_of_ascii y)) as [Hxy|Hxy|Hxy];
    destruct (N.compare_spec (N_of_ascii y) (N_of_ascii z)) as [Hyz|Hyz|Hyz];
    destruct (N.compare_spec (N_of_ascii x) (N_of_ascii z)) as [Hxz|Hxz|Hxz];
    try congruence; try lia; eauto.
Qed.

Lemma string_ltb_irrefl (s : string) : String.ltb s s = false.
Proof. unfold String.ltb. now rewrite string_compare_refl. Qed.

Lemma string_ltb_trans (a b c : string) :
  String.ltb a b = true -> String.ltb b c = true -> String.ltb a c = true.
Proof.
  unfold String.ltb. intros Hab Hbc.
  destruct (String.compare a b) eqn:Eab; try discriminate.
  destruct (String.compare b c) eqn:Ebc; try discriminate.
  now rewrite (string_compare_trans a b c Eab Ebc).
Qed.

Lemma string_ltb_total (a b : string) :
  a <> b -> String.ltb a b = false -> String.ltb b a = true.
Proof.
  unfold String.ltb. intros Hne. rewrite (String.compare_antisym b a).
  destruct (String.compare a b) eqn:E; simpl; try congruence.
  apply String.compare_eq_iff in E. contradiction.
Qed.

(** ** The canonicalizer on sets *)

Lemma insert_sorted_pairs {B : Type} (g : value -> B) (x : value) (l : list value) :
  insert_sorted fst (x, g x) (map (fun y => (y, g y)) l)
  = (do r <- insert_sorted (fun y => y) x l ;; Returns (map (fun y => (y, g y)) r)).
Proof.
  induction l as [|y l IH]; [reflexivity|].
  simpl. destruct (py_lt x y) as [[|]|e]; simpl; try reflexivity.
  rewrite IH. destruct (insert_sorted (fun y => y) x l); reflexivity.
Qed.

Lemma sorted_on_pairs {B : Type} (g : value -> B) (l : list value) :
  sorted_on fst (map (fun y => (y, g y)) l)
  = (do s <- py_sorted l ;; Returns (map (fun y => (y, g y)) s)).
Proof.
  unfold py_sorted, sorted_on.
  assert (G : forall (acc : outcome (list value)),
             fold_left (fun acc x => do s <- acc ;; insert_sorted fst x s)
               (map (fun y => (y, g y)) l)
               (do s <- acc ;; Returns (map (fun y => (y, g y)) s))
             = (do s <- fold_left (fun acc x => do s <- acc ;; insert_sorted (fun y => y) x s) l acc ;;
                Returns (map (fun y => (y, g y)) s))).
  { induction l as [|x l IH]; intros acc; [reflexivity|].
    simpl. rewrite <- IH. f_equal.
    destruct acc as [s|e]; [|reflexivity]. simpl. apply insert_sorted_pairs. }
  apply (G (Returns [])).
Qed.

Lemma for_each_snd_pairs {B : Type} (g : value -> outcome B) (l : list value) :
  for_each snd (map (fun y => (y, g y)) l) = for_each g l.
Proof.
  induction l as [|x l IH]; [reflexivity|].
  simpl map. now rewrite !for_each_cons, IH.
Qed.

(** The set branch in the source's own form:
    [tuple(make_hashable(item) for item in sorted(obj))]. *)
Lemma make_hashable_set (members : list value) :
  make_hashable (VSet members)
  = (do ordered <- py_sorted members ;;
     do items <- for_each make_hashable ordered ;;
     Returns (VTuple items)).
Proof.
  cbn [make_hashable].
  change ((fix go (l : list value) : list (value * outcome value) :=
             match l with
             | [] => []
             | x :: l' => (x, make_hashable x) :: go l'
             end) members)
    with (map (fun y => (y, make_hashable y)) members).
  rewrite sorted_on_pairs. destruct (py_sorted members) as [s|e]; [|reflexivity].
  simpl. now rewrite for_each_snd_pairs.
Qed.

Lemma map_fst_pairs {B : Type} (g : value -> B) (d : list (string * value)) :
  (fix go (d : list (string * value)) : list (string * B) :=
     match d with
     | [] => []
     | (k, v) :: d' => (k, g v) :: go d'
     end) d = map (fun kv => (fst kv, g (snd kv))) d.
Proof. induction d as [|[k v] d IH]; [reflexivity|]. simpl. now rewrite IH. Qed.

Lemma insert_item_map {A B : Type} (g : A -> B) (x : string * A) (l : list (string * A)) :
  insert_item (fst x, g (snd x)) (map (fun kv => (fst kv, g (snd kv))) l)
  = map (fun kv => (fst kv, g (snd kv))) (insert_item x l).
Proof.
  induction l as [|y l IH]; [reflexivity|].
  simpl. destruct (String.ltb (fst x) (fst y)); simpl; [reflexivity | now rewrite IH].
Qed.

Lemma sorted_items_map {A B : Type} (g : A -> B) (l : list (string * A)) :
  sorted_items (map (fun kv => (fst kv, g (snd kv))) l)
  = map (fun kv => (fst kv, g (snd kv))) (sorted_items l).
Proof.
  unfold sorted_items.
  enough (forall acc,
             fold_left (fun acc x => insert_item x acc)
               (map (fun kv => (fst kv, g (snd kv))) l)
               (map (fun kv => (fst kv, g (snd kv))) acc)
             = map (fun kv => (fst kv, g (snd kv)))
                 (fold_left (fun acc x => insert_item x acc) l acc)) as G
      by apply (G []).
  induction l as [|x l IH]; intros acc; [reflexivity|].
  simpl. rewrite insert_item_map. apply IH.
Qed.

(** The dict branch in the source's own form:
    [tuple((k, make_hashable(v)) for k, v in sorted(obj.items()))]. *)
Lemma make_hashable_dict (fields : pydict) :
  make_hashable (VDict fields)
  = (do pairs <- for_each
                   (fun kv => do v' <- make_hashable (snd kv) ;;
                              Returns (VTuple [VStr (fst kv); v']))
                   (sorted_items fields) ;;
     Returns (VTuple pairs)).
Proof.
  cbn [make_hashable]. rewrite (map_fst_pairs make_hashable), sorted_items_map.
  f_equal. induction (sorted_items fields) as [|kv l IH]; [reflexivity|].
  simpl map. now rewrite !for_each_cons, IH.
Qed.

(** *** The order of ObjectIds and of their renderings *)

Lemma all_bytes_complete (b : byte) : In b all_bytes.
Proof.
  apply list_elem_of_In, list_elem_of_omap. exists (N.to_nat (Byte.to_N b)). split.
  - apply list_elem_of_In, in_seq. pose proof (Byte.to_N_bounded b). lia.
  - rewrite N2Nat.id. apply Byte.of_to_N.
Qed.

Lemma hex_order_ok_all (a b : byte) : hex_order_ok a b = true.
Proof.
  assert (forallb (fun a => forallb (hex_order_ok a) all_bytes) all_bytes = true) as H
      by (vm_compute; reflexivity).
  rewrite forallb_forall in H. specialize (H a (all_bytes_complete a)).
  rewrite forallb_forall in H. apply H, all_bytes_complete.
Qed.

(** The hexadecimal renderings of two byte strings are ordered as the byte
    strings are. *)
Lemma hexlify_order (x y : list byte) :
  String.ltb (hexlify x) (hexlify y) = bytes_ltb x y.
Proof.
  unfold String.ltb.
  enough (String.compare (hexlify x) (hexlify y) = Lt <-> bytes_ltb x y = true) as H.
  { destruct (String.compare (hexlify x) (hexlify y)), (bytes_ltb x y);
      destruct H as [H1 H2]; try reflexivity;
      try discriminate (H2 eq_refl); try discriminate (H1 eq_refl). }
  revert y. induction x as [|a x IH]; intros [|b y]; simpl; try (split; congruence).
  pose proof (hex_order_ok_all a b) as Hab. unfold hex_order_ok in Hab.
  rewrite !N.ltb_compare, (N.compare_antisym (Byte.to_N a) (Byte.to_N b)).
  destruct (Ascii.compare (hex_digit (Byte.to_N a / 16)) (hex_digit (Byte.to_N b / 16)));
    [destruct (Ascii.compare (hex_digit (Byte.to_N a mod 16)) (hex_digit (Byte.to_N b mod 16)))| |];
    destruct (N.compare (Byte.to_N a) (Byte.to_N b)); try discriminate Hab; simpl;
    try (split; congruence).
  apply IH.
Qed.

(** *** Sorting before or after canonicalizing *)

Lemma make_hashable_member (x : value) :
  hashable x = true -> make_hashable x = Returns (member_form x).
Proof. destruct x; simpl; intros H; try discriminate; reflexivity. Qed.

(** A comparison that succeeds on two objects gives the same answer on
    their canonical forms. *)
Lemma py_lt_member_form (a b : value) (c : bool) :
  py_lt a b = Returns c -> py_lt (member_form a) (member_form b) = Returns c.
Proof.
  destruct a, b; cbn [member_form]; try (intros H; exact H);
    try (simpl; discriminate).
  simpl. intros [= <-]. unfold ObjectId_str. now rewrite hexlify_order.
Qed.

Lemma insert_sorted_member_form (x : value) (l r : list value) :
  insert_sorted (fun y => y) x l = Returns r ->
  insert_sorted (fun y => y) (member_form x) (map member_form l)
  = Returns (map member_form r).
Proof.
  revert r. induction l as [|y l IH]; intros r; simpl.
  - intros [= <-]. reflexivity.
  - destruct (py_lt x y) as [c|e] eqn:E; [|discriminate].
    rewrite (py_lt_member_form x y c E). simpl. destruct c.
    + intros [= <-]. reflexivity.
    + destruct (insert_sorted (fun y => y) x l) as [r'|e]; [|discriminate].
      simpl. intros [= <-]. now rewrite (IH r' eq_refl).
Qed.

Lemma sorted_fold_raises (l : list value) (e : exn) :
  fold_left (fun acc x => do s <- acc ;; insert_sorted (fun y => y) x s) l (Raises e)
  = Raises e.
Proof. induction l as [|x l IH]; [reflexivity | exact IH]. Qed.

(** A sort that succeeds on the members succeeds on their canonical forms,
    with the same order. *)
Lemma py_sorted_member_form (l s : list value) :
  py_sorted l = Returns s ->
  py_sorted (map member_form l) = Returns (map member_form s).
Proof.
  unfold py_sorted, sorted_on.
  change (Returns (@nil value)) with (Returns (map member_form [])) at 2.
  generalize (@nil value). revert s.
  induction l as [|x l IH]; intros s acc; simpl.
  - intros [= <-]. reflexivity.
  - destruct (insert_sorted (fun y => y) x acc) as [r|e] eqn:E.
    + rewrite (insert_sorted_member_form x acc r E). apply IH.
    + rewrite sorted_fold_raises. discriminate.
Qed.

Lemma insert_sorted_In (x y : value) (l r : list value) :
  insert_sorted (fun y => y) x l = Returns r -> In y r -> y = x \/ In y l.
Proof.
  revert r. induction l as [|z l IH]; intros r; simpl.
  - intros [= <-] [<-|[]]. now left.
  - destruct (py_lt x z) as [[|]|e]; simpl; try discriminate.
    + intros [= <-] [<-|H]; auto.
    + destruct (insert_sorted (fun y => y) x l) as [r'|e]; [|discriminate].
      simpl. intros [= <-] [<-|H]; auto.
      destruct (IH r' eq_refl H); auto.
Qed.

Lemma py_sorted_In (l s : list value) (y : value) :
  py_sorted l = Returns s -> In y s -> In y l.
Proof.
  unfold py_sorted, sorted_on.
  enough (forall acc,
             fold_left (fun acc x => do s <- acc ;; insert_sorted (fun y => y) x s) l
               (Returns acc) = Returns s ->
             In y s -> In y acc \/ In y l) as G.
  { intros H Hy. destruct (G [] H Hy) as [[]|]; assumption. }
  revert s. induction l as [|x l IH]; intros s acc; simpl.
  - intros [= <-]. auto.
  - destruct (insert_sorted (fun y => y) x acc) as [r|e] eqn:E.
    + intros H Hy. destruct (IH s r H Hy) as [Hr|Hl]; [|auto].
      destruct (insert_sorted_In x y acc r E Hr); auto.
    + rewrite sorted_fold_raises. discriminate.
Qed.

Lemma for_each_make_hashable_members (l : list value) :
  forallb hashable l = true ->
  for_each make_hashable l = Returns (map member_form l).
Proof.
  intros H. apply for_each_pure. intros x Hx. apply make_hashable_member.
  rewrite forallb_forall in H. auto.
Qed.

(** *** Sets that [sorted] can order *)

Section OrderedKind.
Variable kind : value -> bool.
Hypothesis kind_lt :
  forall a b, kind a = true -> kind b = true -> exists c, py_lt a b = Returns c.
Hypothesis kind_trans :
  forall a b c, kind a = true -> kind b = true -> kind c = true ->
                precedes a b -> precedes b c -> precedes a c.
Hypothesis kind_total :
  forall a b, kind a = true -> kind b = true ->
              py_eq a b = false -> py_lt a b = Returns false -> precedes b a.
Hypothesis kind_asym :
  forall a b, kind a = true -> kind b = true -> precedes a b -> precedes b a -> False.
Hypothesis kind_eq_sym :
  forall a b, kind a = true -> kind b = true -> py_eq a b = py_eq b a.
Hypothesis kind_eq_refl : forall a, kind a = true -> py_eq a a = true.

(** Pairwise different members, as a property of the members and not of
    their order. *)
Lemma distinct_members_apart (l : list value) :
  forallb kind l = true -> distinct_members l = true ->
  List.NoDup l /\
  forall a b, In a l -> In b l -> a <> b -> py_eq a b = false.
Proof.
  induction l as [|x l IH]; intros Hk Hd.
  - split; [constructor | intros a b []].
  - cbn [forallb distinct_members] in Hk, Hd.
    apply andb_true_iff in Hk as [Hx Hk]. apply andb_true_iff in Hd as [Hxl Hd].
    destruct (IH Hk Hd) as [Hnd Hne]. rewrite forallb_forall in Hxl, Hk.
    assert (forall y, In y l -> py_eq x y = false) as Hxy.
    { intros y Hy. apply negb_true_iff. auto. }
    split.
    + constructor; [|exact Hnd]. intros Hin.
      pose proof (Hxy x Hin) as Hf. rewrite kind_eq_refl in Hf by exact Hx. discriminate.
    + intros a b [<-|Ha] [<-|Hb] Hab; auto.
      * contradiction.
      * rewrite kind_eq_sym by auto. auto.
Qed.

Lemma insert_sorted_kind (x : value) (l : list value) :
  kind x = true -> (forall y, In y l -> kind y = true) ->
  (forall y, In y l -> py_eq x y = false) ->
  StronglySorted precedes l ->
  exists r, insert_sorted (fun y => y) x l = Returns r /\
            Permutation r (x :: l) /\ StronglySorted precedes r.
Proof.
  induction l as [|y l IH]; intros Hx Hl Hne Hs.
  - exists [x]. repeat split; repeat constructor.
  - cbn [insert_sorted].
    destruct (kind_lt x y Hx (Hl y (or_introl eq_refl))) as [c Hc]. rewrite Hc. cbn [bind].
    inversion Hs as [|? ? Hs' Hall]; subst. rewrite List.Forall_forall in Hall.
    destruct c.
    + exists (x :: y :: l). split; [reflexivity|]. split; [reflexivity|].
      constructor; [exact Hs|]. apply List.Forall_forall. intros z [<-|Hz]; [exact Hc|].
      apply (kind_trans x y z);
        [exact Hx | apply Hl; now left | apply Hl; right; exact Hz | exact Hc | auto].
    + destruct IH as (r & Hr & Hperm & Hsr); auto.
      { intros z Hz. apply Hl. now right. }
      { intros z Hz. apply Hne. now right. }
      rewrite Hr. exists (y :: r). split; [reflexivity|]. split.
      * rewrite Hperm. apply perm_swap.
      * constructor; [exact Hsr|]. apply List.Forall_forall. intros z Hz.
        apply (Permutation.Permutation_in _ Hperm) in Hz as [<-|Hz]; [|auto].
        apply kind_total; [exact Hx | apply Hl; now left | apply Hne; now left | exact Hc].
Qed.

Lemma sorted_fold_kind (l acc : list value) :
  (forall y, In y (acc ++ l) -> kind y = true) ->
  List.NoDup (acc ++ l) ->
  (forall a b, In a (acc ++ l) -> In b (acc ++ l) -> a <> b -> py_eq a b = false) ->
  StronglySorted precedes acc ->
  exists s,
    fold_left (fun a x => do s <- a ;; insert_sorted (fun y => y) x s) l (Returns acc)
    = Returns s /\
    Permutation s (acc ++ l) /\ StronglySorted precedes s.
Proof.
  revert acc. induction l as [|x l IH]; intros acc Hk Hnd Hne Hs.
  - exists acc. rewrite app_nil_r. repeat split; auto.
  - cbn [fold_left bind].
    assert (Permutation (acc ++ x :: l) (x :: acc ++ l)) as Hmid
        by (symmetry; apply Permutation_middle).
    destruct (insert_sorted_kind x acc) as (r & Hr & Hperm & Hsr).
    + apply Hk, in_or_app. right. now left.
    + intros y Hy. apply Hk, in_or_app. now left.
    + intros y Hy. apply Hne.
      * apply in_or_app. right. now left.
      * apply in_or_app. now left.
      * intros <-. apply List.NoDup_remove_2 in Hnd. apply Hnd, in_or_app. now left.
    + exact Hs.
    + rewrite Hr.
      assert (Permutation (r ++ l) (acc ++ x :: l)) as Hrl.
      { rewrite Hperm, Hmid. reflexivity. }
      destruct (IH r) as (s & Hfold & Hps & Hss).
      * intros y Hy. apply Hk. exact (Permutation.Permutation_in _ Hrl Hy).
      * exact (Permutation.Permutation_NoDup (Permutation_sym Hrl) Hnd).
      * intros a b Ha Hb. apply Hne.
        -- exact (Permutation.Permutation_in _ Hrl Ha).
        -- exact (Permutation.Permutation_in _ Hrl Hb).
      * exact Hsr.
      * exists s. split; [exact Hfold|]. split; [|exact Hss]. now rewrite Hps.
Qed.

(** On such a set [sorted] returns the members in increasing order, the
    same list for every order in which the set yields them. *)
Lemma py_sorted_kind (l l' : list value) :
  forallb kind l = true -> distinct_members l = true -> Permutation l l' ->
  exists s, py_sorted l = Returns s /\ py_sorted l' = Returns s /\
            Permutation s l /\ StronglySorted precedes s.
Proof.
  intros Hk Hd Hperm.
  destruct (distinct_members_apart l Hk Hd) as [Hnd Hne].
  rewrite forallb_forall in Hk.
  destruct (sorted_fold_kind l []) as (s & Hs & Hps & Hss); auto; [constructor|].
  destruct (sorted_fold_kind l' []) as (s' & Hs' & Hps' & Hss').
  - intros y Hy. apply Hk. exact (Permutation.Permutation_in _ (Permutation_sym Hperm) Hy).
  - exact (Permutation.Permutation_NoDup Hperm Hnd).
  - intros a b Ha Hb. apply Hne.
    + exact (Permutation.Permutation_in _ (Permutation_sym Hperm) Ha).
    + exact (Permutation.Permutation_in _ (Permutation_sym Hperm) Hb).
  - constructor.
  - simpl in Hps, Hps'.
    assert (s' = s) as ->.
    { apply (StronglySorted_unique_strong precedes); auto.
      - intros x1 x2 H1%list_elem_of_In H2%list_elem_of_In H12 H21.
        exfalso. apply (kind_asym x1 x2); auto; apply Hk.
        + apply (Permutation.Permutation_in _ (Permutation_sym Hperm)).
          exact (Permutation.Permutation_in _ Hps' H1).
        + exact (Permutation.Permutation_in _ Hps H2).
      - rewrite Hps', Hps. now symmetry. }
    exists s. auto.
Qed.
End OrderedKind.

Lemma number_order (a b : value) :
  is_number a = true -> is_number b = true ->
  exists x y, as_int a = Some x /\ as_int b = Some y /\
              py_lt a b = Returns (Z.ltb x y) /\ py_eq a b = Z.eqb x y.
Proof.
  destruct a, b; try discriminate; intros _ _; cbn; eauto 8.
Qed.

Lemma bytes_eqb_refl (x : list byte) : bytes_eqb x x = true.
Proof. now apply bytes_eqb_eq. Qed.

Lemma bytes_eqb_sym (x y : list byte) : bytes_eqb x y = bytes_eqb y x.
Proof.
  destruct (bytes_eqb x y) eqn:E.
  - apply bytes_eqb_eq in E. subst. now rewrite bytes_eqb_refl.
  - destruct (bytes_eqb y x) eqn:E'; [|reflexivity].
    apply bytes_eqb_eq in E'. subst. now rewrite bytes_eqb_refl in E.
Qed.

Lemma bytes_ltb_total (x y : list byte) :
  bytes_eqb x y = false -> bytes_ltb x y = false -> bytes_ltb y x = true.
Proof.
  revert y. induction x as [|a x IH]; intros [|b y]; simpl; try congruence.
  destruct (N.ltb_spec (Byte.to_N a) (Byte.to_N b)) as [Hab|Hab]; [discriminate|].
  destruct (N.ltb_spec (Byte.to_N b) (Byte.to_N a)) as [Hba|Hba]; [reflexivity|].
  assert (a = b) as ->.
  { assert (Byte.to_N a = Byte.to_N b) as E by lia.
    pose proof (Byte.of_to_N a) as Ha. rewrite E, Byte.of_to_N in Ha. congruence. }
  assert (Byte.eqb b b = true) as -> by (now apply Byte.byte_dec_lb).
  simpl. apply IH.
Qed.

(** The three kinds of members are ordered by [<]. *)
Lemma py_sorted_one_kind (l l' : list value) :
  one_kind l = true -> distinct_members l = true -> Permutation l l' ->
  exists s, py_sorted l = Returns s /\ py_sorted l' = Returns s /\
            Permutation s l /\ StronglySorted precedes s.
Proof.
  unfold one_kind. intros [[Hk|Hk]%orb_true_iff|Hk]%orb_true_iff.
  - apply (py_sorted_kind is_number); [| | | | | | exact Hk]; unfold precedes.
    + intros a b Ha Hb. destruct (number_order a b Ha Hb) as (x & y & _ & _ & -> & _). eauto.
    + intros a b c Ha Hb Hc.
      destruct (number_order a b Ha Hb) as (x & y & Hx & Hy & -> & _).
      destruct (number_order b c Hb Hc) as (y' & z & Hy' & Hz & -> & _).
      destruct (number_order a c Ha Hc) as (x' & z' & Hx' & Hz' & -> & _).
      assert (y' = y) as -> by congruence. assert (x' = x) as -> by congruence.
      assert (z' = z) as -> by congruence.
      intros [= H1] [= H2]. f_equal. lia.
    + intros a b Ha Hb.
      destruct (number_order a b Ha Hb) as (x & y & Hx & Hy & -> & ->).
      destruct (number_order b a Hb Ha) as (y' & x' & Hy' & Hx' & -> & _).
      assert (y' = y) as -> by congruence. assert (x' = x) as -> by congruence.
      intros H1 [= H2]. f_equal. lia.
    + intros a b Ha Hb.
      destruct (number_order a b Ha Hb) as (x & y & Hx & Hy & -> & _).
      destruct (number_order b a Hb Ha) as (y' & x' & Hy' & Hx' & -> & _).
      assert (y' = y) as -> by congruence. assert (x' = x) as -> by congruence.
      intros [= H1] [= H2]. lia.
    + intros a b Ha Hb.
      destruct (number_order a b Ha Hb) as (x & y & Hx & Hy & _ & ->).
      destruct (number_order b a Hb Ha) as (y' & x' & Hy' & Hx' & _ & ->).
      assert (y' = y) as -> by congruence. assert (x' = x) as -> by congruence.
      apply Z.eqb_sym.
    + intros a Ha.
      destruct (number_order a a Ha Ha) as (x & y & Hx & Hy & _ & ->).
      assert (y = x) as -> by congruence. apply Z.eqb_refl.
  - apply (py_sorted_kind is_string); [| | | | | | exact Hk]; unfold precedes.
    + intros [] []; try discriminate. cbn. eauto.
    + intros [] [] []; try discriminate. cbn. intros _ _ _ [= H1] [= H2]. f_equal.
      eapply string_ltb_trans; eauto.
    + intros [] []; try discriminate. cbn. intros _ _ Hne [= H]. f_equal.
      apply string_ltb_total; [|exact H]. intros ->. now rewrite String.eqb_refl in Hne.
    + intros [] []; try discriminate. cbn. intros _ _ [= H1] [= H2].
      pose proof (string_ltb_trans _ _ _ H1 H2) as H. now rewrite string_ltb_irrefl in H.
    + intros [] []; try discriminate. cbn. intros _ _. apply String.eqb_sym.
    + intros []; try discriminate. cbn. intros _. apply String.eqb_refl.
  - apply (py_sorted_kind is_ObjectId); [| | | | | | exact Hk]; unfold precedes.
    + intros [] []; try discriminate. cbn. eauto.
    + intros [] [] []; try discriminate. cbn. rewrite <- !hexlify_order.
      intros _ _ _ [= H1] [= H2]. f_equal. eapply string_ltb_trans; eauto.
    + intros [] []; try discriminate. cbn. intros _ _ Hne [= H]. f_equal.
      now apply bytes_ltb_total.
    + intros [] []; try discriminate. cbn. rewrite <- !hexlify_order.
      intros _ _ [= H1] [= H2].
      pose proof (string_ltb_trans _ _ _ H1 H2) as H. now rewrite string_ltb_irrefl in H.
    + intros [] []; try discriminate. cbn. intros _ _. apply bytes_eqb_sym.
    + intros []; try discriminate. cbn. intros _. apply bytes_eqb_refl.
Qed.

Lemma member_forms_sorted (s : list value) :
  StronglySorted precedes s -> StronglySorted precedes (map member_form s).
Proof.
  induction 1 as [|x s _ IH Hall]; [constructor|].
  cbn [map]. constructor; [exact IH|].
  rewrite List.Forall_forall in *. intros y (z & <- & Hz)%in_map_iff.
  apply py_lt_member_form. exact (Hall z Hz).
Qed.



(** * The properties on the example collections *)

Lemma set_completeness_witness :
  compare_collections repr_opaque StructuralDiffer example_source example_target "users" []
  = Returns example_differences /\
  ((common_count example_differences + length (missing_in_target example_differences)
    = length (remove_dups (identities repr_opaque example_source)))%nat /\
   (common_count example_differences + length (missing_in_source example_differences)
    = length (remove_dups (identities repr_opaque example_target)))%nat).
Proof.
  split; [vm_compute; reflexivity|].
  apply (set_completeness repr_opaque StructuralDiffer example_source example_target
           "users" [] example_differences).
  vm_compute. reflexivity.
Defined.


Lemma missing_lists_symmetry_witness :
  compare_collections repr_opaque StructuralDiffer example_source example_target "users" []
  = Returns example_differences /\
  compare_collections repr_opaque StructuralDiffer example_target example_source "users" []
  = Returns example_differences_swapped /\
  Permutation (missing_in_source example_differences)
              (missing_in_target example_differences_swapped) /\
  Permutation (missing_in_target example_differences)
              (missing_in_source example_differences_swapped).
Proof.
  assert (compare_collections repr_opaque StructuralDiffer example_source example_target
            "users" [] = Returns example_differences) as H1 by (vm_compute; reflexivity).
  assert (compare_collections repr_opaque StructuralDiffer example_target example_source
            "users" [] = Returns example_differences_swapped) as H2 by (vm_compute; reflexivity).
  split; [exact H1|]. split; [exact H2|].
  apply (missing_lists_symmetry repr_opaque StructuralDiffer example_source example_target
           "users" [] example_differences example_differences_swapped H1 H2).
Defined.

Lemma last_write_wins_witness :
  doc_id repr_opaque example_doc_old = Some "7" /\
  doc_id repr_opaque example_doc_new = Some "7" /\
  (forall d, In d [example_doc_other] -> doc_id repr_opaque d <> Some "7") /\
  compare_collections repr_opaque StructuralDiffer
    ([] ++ example_doc_old :: [] ++ example_doc_new :: [example_doc_other]) example_target
    "users" []
  = Returns example_differences_duplicates /\
  representative repr_opaque "7" example_target = None /\
  In [("_id", VStr "7"); ("name", VStr "new")]
     (missing_in_target example_differences_duplicates) /\
  ~ In [("_id", VStr "7"); ("name", VStr "old")]
       (missing_in_target example_differences_duplicates).
Proof.
  assert (doc_id repr_opaque example_doc_old = Some "7") as H1 by reflexivity.
  assert (doc_id repr_opaque example_doc_new = Some "7") as H2 by reflexivity.
  assert (forall d, In d [example_doc_other] -> doc_id repr_opaque d <> Some "7") as H3.
  { intros d [<-|[]]. discriminate. }
  assert (compare_collections repr_opaque StructuralDiffer
            ([] ++ example_doc_old :: [] ++ example_doc_new :: [example_doc_other])
            example_target "users" []
          = Returns example_differences_duplicates) as H4 by (vm_compute; reflexivity).
  assert (representative repr_opaque "7" example_target = None) as H5
      by (vm_compute; reflexivity).
  pose proof (proj1 (proj1 (proj2 (proj2 (proj2
                (last_write_wins repr_opaque StructuralDiffer [] "users" "7"
                   example_doc_old example_doc_new [] [] [example_doc_other] example_target
                   H1 H2 H3))))
                example_differences_duplicates H4) H5) as [Hin Honly].
  split; [exact H1|]. split; [exact H2|]. split; [exact H3|]. split; [exact H4|].
  split; [exact H5|]. split; [exact Hin|].
  intros Hold. apply Honly in Hold; [discriminate Hold | reflexivity].
Defined.

Lemma example_docs_same_content :
  same_content (VDict (strip_fields [] example_doc_ab))
               (VDict (strip_fields [] example_doc_ba)).
Proof.
  apply same_dict. intros k. simpl.
  destruct (String.eqb_spec k "a"); destruct (String.eqb_spec k "b");
    subst; try discriminate; repeat constructor.
  intros k. simpl.
  destruct (String.eqb_spec k "x"); destruct (String.eqb_spec k "y");
    subst; try discriminate; repeat constructor.
Defined.

Lemma diff_emptiness_witness :
  compare_collections repr_opaque StructuralDiffer [example_doc_ab] [example_doc_ba]
    "users" []
  = Returns {| missing_in_source := []; missing_in_target := [];
               common_count := 1; content_differences := [] |} /\
  representative repr_opaque "5" [example_doc_ab] = Some example_doc_ab /\
  representative repr_opaque "5" [example_doc_ba] = Some example_doc_ba /\
  well_formed_doc example_doc_ab = true /\
  diff_documents (strip_fields [] example_doc_ab) (strip_fields [] example_doc_ba) = [].
Proof.
  assert (compare_collections repr_opaque StructuralDiffer [example_doc_ab] [example_doc_ba]
            "users" []
          = Returns {| missing_in_source := []; missing_in_target := [];
                       common_count := 1; content_differences := [] |}) as H1
      by (vm_compute; reflexivity).
  assert (representative repr_opaque "5" [example_doc_ab] = Some example_doc_ab) as H2
      by (vm_compute; reflexivity).
  assert (representative repr_opaque "5" [example_doc_ba] = Some example_doc_ba) as H3
      by (vm_compute; reflexivity).
  assert (well_formed_doc example_doc_ab = true) as H4 by reflexivity.
  split; [exact H1|]. split; [exact H2|]. split; [exact H3|]. split; [exact H4|].
  apply (diff_emptiness repr_opaque [example_doc_ab] [example_doc_ba] "users" [] _
           "5" example_doc_ab example_doc_ba H1 H2 H3 H4 example_docs_same_content).
Defined.


Lemma idempotence_witness :
  all_have_id example_target = true /\
  List.NoDup (identities repr_opaque example_target) /\
  Forall (fun doc => well_formed_doc doc = true) example_target /\
  compare_collections repr_opaque StructuralDiffer example_target example_target "users" []
  = Returns {| missing_in_source := []; missing_in_target := [];
               common_count := length example_target; content_differences := [] |}.
Proof.
  assert (all_have_id example_target = true) as H1 by reflexivity.
  assert (List.NoDup (identities repr_opaque example_target)) as H2.
  { apply distinct_strings_NoDup. reflexivity. }
  assert (Forall (fun doc => well_formed_doc doc = true) example_target) as H3.
  { repeat constructor. }
  split; [exact H1|]. split; [exact H2|]. split; [exact H3|].
  apply (idempotence repr_opaque example_target "users" [] H1 H2 H3).
Defined.

Lemma identity_rendering_witness :
  compare_collections repr_opaque StructuralDiffer example_source example_target "users" []
  = Returns example_differences /\
  forall d, In d (missing_in_source example_differences) ->
    exists doc id, In doc example_target /\ dict_get "_id" doc = Some id /\
      dict_get "_id" d = Some (VStr (py_str repr_opaque id)) /\
      forall f v, In (f, v) d ->
        (f, v) = ("_id", VStr (py_str repr_opaque id)) \/ In (f, v) doc.
Proof.
  assert (compare_collections repr_opaque StructuralDiffer example_source example_target
            "users" [] = Returns example_differences) as H1 by (vm_compute; reflexivity).
  split; [exact H1|].
  apply (proj1 (identity_rendering repr_opaque StructuralDiffer example_source example_target
                  "users" [] example_differences H1)).
Defined.


(** * The scenario of the specification *)

Example scenario_without_exclusion :
  compare_collections repr_opaque StructuralDiffer example_source example_target "users" []
  = Returns example_differences.
Proof. vm_compute. reflexivity. Qed.

Example scenario_excluding_ver :
  compare_collections repr_opaque StructuralDiffer example_source example_target "users" ["ver"]
  = Returns {| missing_in_source := [[("_id", VStr "2"); ("name", VStr "B")]];
               missing_in_target := [];
               common_count := 1;
               content_differences := [] |}.
Proof. vm_compute. reflexivity. Qed.

Example scenario_document_without_id :
  compare_collections repr_opaque StructuralDiffer
    example_source [[("name", VStr "B")]] "users" []
  = Raises (KeyError "_id").
Proof. vm_compute. reflexivity. Qed.

(** An identity is compared as a string: the number 5 and the string "5"
    are the same identity. *)
Example str_of_identities :
  py_str repr_opaque (VInt 5) = "5" /\ py_str repr_opaque (VStr "5") = "5" /\
  py_str repr_opaque (VInt (-12)) = "-12" /\
  py_str repr_opaque (VObjectId example_oid) = "5f1a2b3c4d5e6f708192a3b4".
Proof. vm_compute. repeat split. Qed.

Example make_hashable_document :
  make_hashable
    (VDict [("b", VList [VInt 2; VObjectId example_oid]);
            ("a", VSet [VStr "z"; VStr "y"])])
  = Returns
      (VTuple [VTuple [VStr "a"; VTuple [VStr "y"; VStr "z"]];
               VTuple [VStr "b"; VTuple [VInt 2; VStr "5f1a2b3c4d5e6f708192a3b4"]]]).
Proof. vm_compute. reflexivity. Qed.

(** A set in a document whose pair differs cannot be logged: the encoder
    raises [TypeError] although every document has an [_id]. *)
Example set_value_not_serialisable :
  compare_collections repr_opaque StructuralDiffer
    [[("_id", VInt 1); ("s", VSet [VInt 1]); ("ver", VInt 1)]]
    [[("_id", VInt 1); ("s", VSet [VInt 1]); ("ver", VInt 2)]] "users" []
  = Raises TypeError.
Proof. vm_compute. reflexivity. Qed.

(** * Further properties of script.py *)

(** ** What the encoder serialises *)

Lemma contains_set_dict (d : pydict) :
  contains_set (VDict d) = existsb (fun kv => contains_set (snd kv)) d.
Proof.
  simpl. induction d as [|[k v] d IH]; [reflexivity|]. simpl. now rewrite IH.
Qed.

Lemma for_each_first_raise {A B : Type} (f : A -> outcome B) (P : A -> bool)
    (xs : list A) :
  Forall (fun x => match f x with
                   | Returns _ => P x = false
                   | Raises e => e = TypeError /\ P x = true
                   end) xs ->
  match for_each f xs with
  | Returns _ => existsb P xs = false
  | Raises e => e = TypeError /\ existsb P xs = true
  end.
Proof.
  induction 1 as [|x xs Hx _ IH]; [reflexivity|].
  rewrite for_each_cons. simpl existsb.
  destruct (f x) as [y|e]; simpl.
  - rewrite Hx. simpl. destruct (for_each f xs); simpl; exact IH.
  - destruct Hx as [-> ->]. auto.
Qed.

(** X1: [json.dumps(obj, cls=JSONEncoder)] serialises an object exactly
    when no built-in [set] occurs in it; when it fails, it raises
    [TypeError]. *)
Theorem json_dumps_outcome (obj : value) :
  match json_dumps obj with
  | Returns _ => contains_set obj = false
  | Raises e => e = TypeError /\ contains_set obj = true
  end.
Proof.
  induction obj as [| x | x | x | x | la IH | la IH | la IH | la IH | da IH ]
    using value_nested_ind; try (simpl; auto; fail).
  - cbn [json_dumps contains_set].
    pose proof (for_each_first_raise json_dumps contains_set la IH) as H.
    destruct (for_each json_dumps la); exact H.
  - cbn [json_dumps contains_set].
    pose proof (for_each_first_raise json_dumps contains_set la IH) as H.
    destruct (for_each json_dumps la); exact H.
  - cbn [json_dumps contains_set].
    pose proof (for_each_first_raise json_dumps contains_set la IH) as H.
    destruct (for_each json_dumps la); exact H.
  - rewrite contains_set_dict. cbn [json_dumps].
    enough (match (fix go (d : list (string * value)) : outcome (list (string * json)) :=
                     match d with
                     | [] => Returns []
                     | (k, v) :: d' =>
                         do j <- json_dumps v ;; do js <- go d' ;; Returns ((k, j) :: js)
                     end) da with
            | Returns _ => existsb (fun kv => contains_set (snd kv)) da = false
            | Raises e => e = TypeError /\ existsb (fun kv => contains_set (snd kv)) da = true
            end) as H.
    { destruct ((fix go (d : list (string * value)) := _) da); exact H. }
    induction IH as [|[k v] da Hv _ IHda]; [reflexivity|].
    simpl in *. destruct (json_dumps v) as [j|e]; simpl.
    + rewrite Hv. simpl.
      destruct ((fix go (d : list (string * value)) := _) da); exact IHda.
    + destruct Hv as [-> ->]. auto.
Qed.

(** ** The sorting of items *)

Lemma insert_item_Permutation {A : Type} (x : string * A) (l : list (string * A)) :
  Permutation (insert_item x l) (x :: l).
Proof.
  induction l as [|y l IH]; simpl; [reflexivity|].
  destruct (String.ltb (fst x) (fst y)); [reflexivity|].
  rewrite IH. apply perm_swap.
Qed.

(** [sorted(d.items())] holds the items of the dict. *)
Lemma sorted_items_Permutation {A : Type} (l : list (string * A)) :
  Permutation (sorted_items l) l.
Proof.
  unfold sorted_items.
  enough (forall acc, Permutation (fold_left (fun acc x => insert_item x acc) l acc)
                                  (acc ++ l)) as G by apply (G []).
  induction l as [|x l IH]; intros acc; simpl.
  - now rewrite app_nil_r.
  - rewrite IH, insert_item_Permutation. apply Permutation_middle.
Qed.

Lemma insert_item_sorted {A : Type} (x : string * A) (l : list (string * A)) :
  StronglySorted item_lt l ->
  (forall y, In y l -> fst y <> fst x) ->
  StronglySorted item_lt (insert_item x l).
Proof.
  induction 1 as [|y l Hl IH Hy]; intros Hne; simpl.
  - repeat constructor.
  - destruct (String.ltb (fst x) (fst y)) eqn:E.
    + constructor; [now constructor|]. constructor; [exact E|].
      rewrite List.Forall_forall in *. intros z Hz.
      eapply string_ltb_trans; [exact E | now apply Hy].
    + constructor.
      * apply IH. intros z Hz. apply Hne. now right.
      * apply string_ltb_total in E; [|intros Heq; apply (Hne y); [now left | now symmetry]].
        rewrite List.Forall_forall in *. intros z Hz.
        apply (Permutation_in _ (insert_item_Permutation x l)) in Hz.
        destruct Hz as [<-|Hz]; [exact E | now apply Hy].
Qed.

(** [sorted(d.items())] is in ascending order of the keys. *)
Lemma sorted_items_sorted {A : Type} (l : list (string * A)) :
  List.NoDup (map fst l) -> StronglySorted item_lt (sorted_items l).
Proof.
  unfold sorted_items.
  enough (forall acc,
             StronglySorted item_lt acc ->
             List.NoDup (map fst (acc ++ l)) ->
             StronglySorted item_lt (fold_left (fun acc x => insert_item x acc) l acc)) as G.
  { intros H. apply (G []); [constructor | exact H]. }
  induction l as [|x l IH]; intros acc Hs Hnd; simpl; [exact Hs|].
  rewrite map_app in Hnd. simpl in Hnd.
  apply IH.
  - apply insert_item_sorted; [exact Hs|].
    intros y Hy Heq. apply NoDup_remove_2 in Hnd. apply Hnd.
    apply in_or_app. left. rewrite <- Heq. now apply in_map.
  - rewrite (Permutation_map fst (Permutation_app_tail l (insert_item_Permutation x acc))).
    simpl. rewrite map_app.
    apply (Permutation_NoDup (Permutation_sym (Permutation_middle _ _ _))) in Hnd.
    exact Hnd.
Qed.

(** Two orders of the same items with distinct keys sort to the same
    sequence. *)
Lemma sorted_items_order_independent {A : Type} (l l' : list (string * A)) :
  List.NoDup (map fst l) -> Permutation l l' -> sorted_items l = sorted_items l'.
Proof.
  intros Hnd Hperm.
  apply (StronglySorted_unique_strong item_lt).
  - intros x1 x2 _ _ H12 H21. unfold item_lt in *.
    pose proof (string_ltb_trans _ _ _ H12 H21) as H.
    now rewrite string_ltb_irrefl in H.
  - now apply sorted_items_sorted.
  - apply sorted_items_sorted.
    apply (Permutation_NoDup (Permutation_map fst Hperm) Hnd).
  - now rewrite !sorted_items_Permutation.
Qed.

(** ** The canonical form and the content of an object *)

Lemma insert_item_map_key {A B : Type} (g : string * A -> string * B)
    (x : string * A) (l : list (string * A)) :
  (forall y, fst (g y) = fst y) ->
  insert_item (g x) (map g l) = map g (insert_item x l).
Proof.
  intros Hg. induction l as [|y l IH]; [reflexivity|].
  simpl. rewrite !Hg. destruct (String.ltb (fst x) (fst y)); simpl; [reflexivity | now rewrite IH].
Qed.

(** Sorting looks at the keys only. *)
Lemma sorted_items_map_key {A B : Type} (g : string * A -> string * B)
    (l : list (string * A)) :
  (forall y, fst (g y) = fst y) ->
  sorted_items (map g l) = map g (sorted_items l).
Proof.
  intros Hg. unfold sorted_items.
  enough (forall acc,
             fold_left (fun acc x => insert_item x acc) (map g l) (map g acc)
             = map g (fold_left (fun acc x => insert_item x acc) l acc)) as G
      by apply (G []).
  induction l as [|x l IH]; intros acc; [reflexivity|].
  simpl. rewrite insert_item_map_key by exact Hg. apply IH.
Qed.

(** Two dicts with the same bindings hold the same items. *)
Lemma same_bindings_Permutation (da db : pydict) :
  distinct_keys da -> distinct_keys db ->
  (forall k, dict_get k da = None <-> dict_get k db = None) ->
  Permutation db
    (map (fun kv => (fst kv, default VNone (dict_get (fst kv) db))) da).
Proof.
  intros Ha Hb Hget. apply Permutation.NoDup_Permutation.
  - exact (List.NoDup_map_inv fst db Hb).
  - apply (List.NoDup_map_inv fst). rewrite List.map_map. simpl. exact Ha.
  - intros [k w]. rewrite in_map_iff. split.
    + intros Hin. pose proof (dict_get_distinct k w db Hb Hin) as Hw.
      destruct (dict_get k da) as [v|] eqn:Ev.
      * exists (k, v). simpl. rewrite Hw. split; [reflexivity | now apply dict_get_Some_In].
      * apply Hget in Ev. congruence.
    + intros ([k' v] & [= -> <-] & Hin).
      pose proof (dict_get_distinct k v da Ha Hin) as Hv.
      destruct (dict_get k db) as [w|] eqn:Ew.
      * simpl. now apply dict_get_Some_In.
      * apply Hget in Ew. congruence.
Qed.

(** X2: objects with identical content have the same canonical form: the
    order in which the keys of a dict were inserted, at any depth, does not
    show in [make_hashable]. *)
Theorem make_hashable_same_content (a b : value) :
  well_formed a = true -> well_formed b = true -> same_content a b ->
  make_hashable a = make_hashable b.
Proof.
  revert b.
  induction a as [| x | x | x | x | la IH | la IH | la IH | la IH | da IH ]
    using value_nested_ind; intros b Hwa Hwb Hsame;
    try (inversion Hsame; subst; reflexivity).
  - (* sequences *)
    inversion Hsame as [| ? lb Hall | ? Hc]; subst; [|discriminate Hc].
    apply well_formed_list in Hwa. apply well_formed_list in Hwb.
    cbn [make_hashable].
    enough (for_each make_hashable la = for_each make_hashable lb) as -> by reflexivity.
    clear Hsame. induction Hall as [|x y la lb Hxy Hall IHall]; [reflexivity|].
    apply Forall_cons in IH as [IHx IHla]. apply Forall_cons in Hwa as [Hx Hla].
    apply Forall_cons in Hwb as [Hy Hlb].
    rewrite !for_each_cons, (IHx y Hx Hy Hxy), (IHall IHla Hla Hlb). reflexivity.
  - (* mappings *)
    inversion Hsame as [? db Hget | | ? Hc]; subst; [|discriminate Hc].
    apply well_formed_dict in Hwa as [Hka Hva]. apply well_formed_dict in Hwb as [Hkb Hvb].
    rewrite !make_hashable_dict.
    assert (Hnone : forall k, dict_get k da = None <-> dict_get k db = None).
    { intros k. specialize (Hget k).
      destruct (dict_get k da), (dict_get k db); inversion Hget; split; congruence. }
    rewrite (sorted_items_order_independent db _ Hkb
               (same_bindings_Permutation da db Hka Hkb Hnone)).
    rewrite (sorted_items_map_key
               (fun kv => (fst kv, default VNone (dict_get (fst kv) db)))) by reflexivity.
    enough (for_each
              (fun kv => do v' <- make_hashable (snd kv) ;;
                         Returns (VTuple [VStr (fst kv); v']))
              (sorted_items da)
            = for_each
                (fun kv => do v' <- make_hashable (snd kv) ;;
                           Returns (VTuple [VStr (fst kv); v']))
                (map (fun kv => (fst kv, default VNone (dict_get (fst kv) db)))
                     (sorted_items da))) as -> by reflexivity.
    assert (Hin : forall kv, In kv (sorted_items da) -> In kv da).
    { intros kv. apply Permutation_in, sorted_items_Permutation. }
    induction (sorted_items da) as [|[k v] l IHl]; [reflexivity|].
    simpl map. rewrite !for_each_cons. simpl fst. simpl snd.
    pose proof (Hin (k, v) (or_introl eq_refl)) as Hkv.
    specialize (Hget k). rewrite (dict_get_distinct k v da Hka Hkv) in Hget.
    inversion Hget as [? w Hvw Heq1 Heq2|]; subst. simpl default.
    rewrite List.Forall_forall in IH, Hva, Hvb.
    symmetry in Heq2. apply dict_get_Some_In in Heq2.
    pose proof (IH (k, v) Hkv w (Hva (k, v) Hkv) (Hvb (k, w) Heq2) Hvw) as E.
    simpl in E. rewrite E.
    rewrite IHl; [reflexivity|]. intros kv Hkv'. apply Hin. now right.
Qed.

(** ** What the canonicalizer returns *)

Lemma for_each_outcome {A B : Type} (f : A -> outcome B) (P : A -> bool)
    (Q : B -> Prop) (xs : list A) :
  Forall (fun x => match f x with
                   | Returns y => Q y
                   | Raises e => e = TypeError /\ P x = true
                   end) xs ->
  match for_each f xs with
  | Returns ys => Forall Q ys
  | Raises e => e = TypeError /\ existsb P xs = true
  end.
Proof.
  induction 1 as [|x xs Hx _ IH]; [constructor|].
  rewrite for_each_cons. simpl existsb.
  destruct (f x) as [y|e]; simpl.
  - destruct (for_each f xs) as [ys|e]; simpl.
    + now constructor.
    + destruct IH as [-> ->]. split; [reflexivity | apply orb_true_r].
  - destruct Hx as [-> ->]. auto.
Qed.

Lemma py_lt_raises (a b : value) (e : exn) : py_lt a b = Raises e -> e = TypeError.
Proof.
  revert b.
  induction a as [| x | x | x | x | la IH | la IH | la IH | la IH | da IH ]
    using value_nested_ind; intros b; destruct b; simpl;
    try discriminate; try (intros [= <-]; reflexivity);
    try (destruct x; discriminate).
  - (* lists *)
    revert items. induction IH as [|x la Hx _ IHla]; intros [|y lb]; try discriminate.
    destruct (py_eq x y); [apply IHla | apply Hx].
  - (* tuples *)
    revert items. induction IH as [|x la Hx _ IHla]; intros [|y lb]; try discriminate.
    destruct (py_eq x y); [apply IHla | apply Hx].
Qed.

Lemma insert_sorted_raises {A : Type} (key : A -> value) (x : A) (l : list A) (e : exn) :
  insert_sorted key x l = Raises e -> e = TypeError.
Proof.
  induction l as [|y l IH]; simpl; [discriminate|].
  destruct (py_lt (key x) (key y)) as [[|]|e'] eqn:E; simpl.
  - discriminate.
  - destruct (insert_sorted key x l); [discriminate|]. intros [= <-]. now apply IH.
  - intros [= <-]. eapply py_lt_raises; eauto.
Qed.

(** [sorted] raises nothing but [TypeError]. *)
Lemma py_sorted_raises (l : list value) (e : exn) :
  py_sorted l = Raises e -> e = TypeError.
Proof.
  unfold py_sorted, sorted_on.
  enough (forall acc,
             fold_left (fun acc x => do s <- acc ;; insert_sorted (fun y => y) x s) l
               (Returns acc) = Raises e -> e = TypeError) as G by apply G.
  induction l as [|x l IH]; intros acc; simpl; [discriminate|].
  destruct (insert_sorted (fun y => y) x acc) as [r|e'] eqn:E.
  - apply IH.
  - rewrite sorted_fold_raises. intros [= <-]. eapply insert_sorted_raises; eauto.
Qed.

Lemma convertible_dict (d : pydict) :
  convertible (VDict d) = true <-> Forall (fun kv => convertible (snd kv) = true) d.
Proof.
  simpl. induction d as [|[k v] d IH].
  - split; [constructor | reflexivity].
  - rewrite andb_true_iff, IH, Forall_cons. reflexivity.
Qed.

(** A canonical form is hashable. *)
Lemma canonical_hashable (v : value) : canonical v = true -> hashable v = true.
Proof.
  induction v as [| x | x | x | x | la IH | la IH | la IH | la IH | da IH ]
    using value_nested_ind; intros Hc; try discriminate; try reflexivity.
  cbn [canonical hashable] in *. rewrite forallb_forall in *.
  rewrite List.Forall_forall in IH. auto.
Qed.

(** What [make_hashable] returns is a canonical form; it raises nothing
    but [TypeError], and only on an object that holds a set. *)
Lemma make_hashable_convertible (obj : value) :
  convertible obj = true ->
  match make_hashable obj with
  | Returns y => canonical y = true
  | Raises e => e = TypeError /\ contains_set obj = true
  end.
Proof.
  induction obj as [| x | x | x | x | la IH | la IH | la IH | la IH | da IH ]
    using value_nested_ind; intros Hc; try discriminate; try reflexivity.
  - (* lists *)
    cbn [make_hashable contains_set]. cbn [convertible] in Hc.
    rewrite forallb_forall in Hc.
    assert (Forall (fun x => match make_hashable x with
                             | Returns y => canonical y = true
                             | Raises e => e = TypeError /\ contains_set x = true
                             end) la) as Hall.
    { rewrite List.Forall_forall in *. intros x Hx. apply (IH x Hx (Hc x Hx)). }
    pose proof (for_each_outcome make_hashable contains_set
                  (fun y => canonical y = true) la Hall) as H.
    destruct (for_each make_hashable la) as [ys|e]; simpl.
    + apply forallb_forall. rewrite List.Forall_forall in H. exact H.
    + exact H.
  - (* sets *)
    rewrite make_hashable_set. cbn [contains_set]. cbn [convertible] in Hc.
    rewrite forallb_forall in Hc.
    destruct (py_sorted la) as [s|e] eqn:Hs; simpl.
    + pose proof (for_each_outcome make_hashable contains_set
                    (fun y => canonical y = true) s) as H.
      assert (Forall (fun x => match make_hashable x with
                               | Returns y => canonical y = true
                               | Raises e => e = TypeError /\ contains_set x = true
                               end) s) as Hall.
      { rewrite List.Forall_forall in *. intros x Hx.
        pose proof (py_sorted_In la s x Hs Hx) as Hin. apply (IH x Hin (Hc x Hin)). }
      specialize (H Hall). destruct (for_each make_hashable s) as [ys|e]; simpl.
      * apply forallb_forall. rewrite List.Forall_forall in H. exact H.
      * split; [apply H | reflexivity].
    + split; [eapply py_sorted_raises; eauto | reflexivity].
  - (* dicts *)
    rewrite make_hashable_dict, contains_set_dict. apply convertible_dict in Hc.
    pose proof (for_each_outcome
                  (fun kv => do v' <- make_hashable (snd kv) ;;
                             Returns (VTuple [VStr (fst kv); v']))
                  (fun kv => contains_set (snd kv))
                  (fun y => canonical y = true) (sorted_items da)) as H.
    assert (Forall (fun kv => match (do v' <- make_hashable (snd kv) ;;
                                     Returns (VTuple [VStr (fst kv); v'])) with
                              | Returns y => canonical y = true
                              | Raises e => e = TypeError /\ contains_set (snd kv) = true
                              end) (sorted_items da)) as Hall.
    { rewrite List.Forall_forall in *. intros kv Hkv.
      apply (Permutation_in _ (sorted_items_Permutation da)) in Hkv.
      specialize (IH kv Hkv (Hc kv Hkv)).
      destruct (make_hashable (snd kv)); simpl; [now rewrite IH | exact IH]. }
    specialize (H Hall).
    destruct (for_each _ (sorted_items da)) as [ys|e]; simpl.
    + apply forallb_forall. rewrite List.Forall_forall in H. exact H.
    + destruct H as [-> H]. split; [reflexivity|].
      apply existsb_exists in H as (kv & Hkv & Hset). apply existsb_exists.
      exists kv. split; [|exact Hset].
      now apply (Permutation_in _ (sorted_items_Permutation da)).
Qed.


Lemma json_like_convertible (v : value) : json_like v = true -> convertible v = true.
Proof.
  induction v as [| x | x | x | x | la IH | la IH | la IH | la IH | da IH ]
    using value_nested_ind; intros Hj; try discriminate; try reflexivity.
  - apply json_like_list in Hj. cbn [convertible]. apply forallb_forall.
    rewrite List.Forall_forall in *. auto.
  - apply json_like_dict in Hj. apply convertible_dict.
    rewrite List.Forall_forall in *. auto.
Qed.

(** No set occurs in a JSON-like object. *)
Lemma json_like_no_set (v : value) : json_like v = true -> contains_set v = false.
Proof.
  induction v as [| x | x | x | x | la IH | la IH | la IH | la IH | da IH ]
    using value_nested_ind; intros Hj; try discriminate; try reflexivity.
  - apply json_like_list in Hj. cbn [contains_set].
    rewrite List.Forall_forall in *.
    destruct (existsb contains_set la) eqn:E; [|reflexivity].
    apply existsb_exists in E as (x & Hx & Hset).
    rewrite (IH x Hx (Hj x Hx)) in Hset. discriminate.
  - apply json_like_dict in Hj. rewrite contains_set_dict.
    rewrite List.Forall_forall in *.
    destruct (existsb _ da) eqn:E; [|reflexivity].
    apply existsb_exists in E as (kv & Hkv & Hset).
    rewrite (IH kv Hkv (Hj kv Hkv)) in Hset. discriminate.
Qed.

(** X4: on a JSON-like object [make_hashable] never raises, and what it
    returns is hashable. *)
Theorem make_hashable_json_like (obj : value) :
  json_like obj = true ->
  exists y, make_hashable obj = Returns y /\ hashable y = true.
Proof.
  intros Hj.
  pose proof (make_hashable_convertible obj (json_like_convertible obj Hj)) as H.
  destruct (make_hashable obj) as [y|e].
  - exists y. split; [reflexivity | now apply canonical_hashable].
  - destruct H as [_ Hset]. rewrite (json_like_no_set obj Hj) in Hset. discriminate.
Qed.

(** X5: [make_hashable] is idempotent: what it returns is returned
    unchanged when canonicalized again. *)
Theorem make_hashable_idempotent (obj y : value) :
  make_hashable obj = Returns y -> make_hashable y = Returns y.
Proof.
  destruct obj; try (intros [= <-]; reflexivity).
  - cbn [make_hashable]. intros (items' & _ & [= <-])%bind_returns. reflexivity.
  - rewrite make_hashable_set.
    intros (s & _ & (items' & _ & [= <-])%bind_returns)%bind_returns. reflexivity.
  - rewrite make_hashable_dict. intros (pairs & _ & [= <-])%bind_returns. reflexivity.
Qed.

(** ** Dict comprehensions *)

Lemma dict_set_keys (k : string) (v : value) (d : pydict) :
  dict_keys (dict_set k v d)
  = if str_in k (dict_keys d) then dict_keys d else dict_keys d ++ [k].
Proof.
  unfold str_in. induction d as [|[k' v'] d IH]; simpl; [reflexivity|].
  destruct (String.eqb k k') eqn:E; simpl.
  - apply String.eqb_eq in E. now subst.
  - rewrite IH. now destruct (existsb (String.eqb k) (dict_keys d)).
Qed.

Lemma dict_set_distinct (k : string) (v : value) (d : pydict) :
  distinct_keys d -> distinct_keys (dict_set k v d).
Proof.
  unfold distinct_keys. rewrite dict_set_keys.
  destruct (str_in k (dict_keys d)) eqn:E; [auto|].
  intros Hnd. apply NoDup_ListNoDup, NoDup_app. repeat split.
  - now apply NoDup_ListNoDup.
  - intros x Hx [->|[]]%list_elem_of_In%in_inv.
    apply list_elem_of_In, str_in_In in Hx. congruence.
  - apply NoDup_ListNoDup. repeat constructor. intros [].
Qed.

(** A dict built by a comprehension has distinct keys, whatever its items. *)
Lemma dict_of_items_distinct_keys (items : list (string * value)) :
  distinct_keys (dict_of_items items).
Proof.
  unfold dict_of_items.
  enough (forall acc, distinct_keys acc ->
            distinct_keys (fold_left (fun d kv => dict_set (fst kv) (snd kv) d) items acc)) as G.
  { apply G. constructor. }
  induction items as [|[k v] items IH]; intros acc Hacc; simpl; [exact Hacc|].
  apply IH. now apply dict_set_distinct.
Qed.

(** X6: the projection of [get_collection_data] maps exactly the fields of
    [exclude_fields] to 0, each of them once however often it is listed;
    without excluded fields it is empty. *)
Theorem projection_spec (exclude_fields : list string) (field : string) :
  distinct_keys (projection exclude_fields) /\
  dict_get field (projection exclude_fields)
  = (if str_in field exclude_fields then Some (VInt 0) else None) /\
  projection [] = [].
Proof.
  split; [apply dict_of_items_distinct_keys|]. split; [|reflexivity].
  unfold projection, dict_of_items.
  enough (forall acc,
             dict_get field
               (fold_left (fun d kv => dict_set (fst kv) (snd kv) d)
                  (map (fun f => (f, VInt 0)) exclude_fields) acc)
             = if str_in field exclude_fields then Some (VInt 0) else dict_get field acc) as G
      by apply (G []).
  induction exclude_fields as [|f ex IH]; intros acc; [reflexivity|].
  simpl. rewrite IH. unfold str_in. simpl.
  destruct (existsb (String.eqb field) ex); [now rewrite orb_true_r|].
  rewrite orb_false_r. destruct (String.eqb field f) eqn:E.
  - apply String.eqb_eq in E. subst. apply dict_get_set_eq.
  - apply String.eqb_neq in E. apply dict_get_set_ne. congruence.
Qed.

(** ** Exclusion on data fetched without the excluded fields *)

Lemma strip_fields_no_excluded (exclude_fields : list string) (doc : pydict) :
  (forall f, In f exclude_fields -> dict_get f doc = None) ->
  strip_fields exclude_fields doc = strip_fields [] doc.
Proof.
  intros Hno. unfold strip_fields. f_equal. apply filter_ext_in.
  intros [k v] Hin. simpl. f_equal. unfold str_in. rewrite existsb_app.
  destruct (existsb (String.eqb k) exclude_fields) eqn:E; [|reflexivity].
  apply existsb_exists in E as (f & Hf & ->%String.eqb_eq).
  apply Hno, dict_get_None_keys in Hf. exfalso. apply Hf.
  change f with (fst (f, v)). now apply in_map.
Qed.

Lemma index_by_id_no_excluded (repr_container : value -> string)
    (exclude_fields : list string) (data : list pydict) :
  (forall doc f, In doc data -> In f exclude_fields -> dict_get f doc = None) ->
  index_by_id repr_container exclude_fields data = index_by_id repr_container [] data.
Proof.
  unfold index_by_id. generalize (Returns (∅ : gmap string pydict)).
  induction data as [|doc data IH]; intros acc Hno; [reflexivity|].
  simpl. rewrite IH by (intros d f Hd; apply Hno; now right).
  f_equal. unfold index_step.
  rewrite (strip_fields_no_excluded exclude_fields doc); [reflexivity|].
  intros f. apply Hno. now left.
Qed.

(** X7: on collections fetched without the excluded fields, as [main]
    fetches them, [exclude_fields] changes nothing: the outcome is that of a
    comparison without exclusion. *)
Theorem exclusion_redundant_after_projection
    (repr_container : value -> string) (L : DiffLibrary)
    (S T : list pydict) (name : string) (exclude_fields : list string) :
  (forall doc f, In doc (S ++ T) -> In f exclude_fields -> dict_get f doc = None) ->
  compare_collections repr_container L S T name exclude_fields
  = compare_collections repr_container L S T name [].
Proof.
  intros Hno. unfold compare_collections.
  rewrite (index_by_id_no_excluded repr_container exclude_fields S)
    by (intros d f Hd; apply Hno, in_or_app; now left).
  rewrite (index_by_id_no_excluded repr_container exclude_fields T)
    by (intros d f Hd; apply Hno, in_or_app; now right).
  reflexivity.
Qed.

(** ** No identity is reported twice *)

Lemma omap_id_restored (repr_container : value -> string)
    (exclude_fields : list string) (data : list pydict) (ks : list string) :
  (forall k, In k ks -> k ∈ dom (stored_index repr_container exclude_fields data)) ->
  omap (dict_get "_id")
       (map (restored (stored_index repr_container exclude_fields data)) ks)
  = map VStr ks.
Proof.
  induction ks as [|k ks IH]; intros Hdom; [reflexivity|].
  simpl map. csimpl.
  pose proof (Hdom k (or_introl eq_refl)) as Hk.
  apply elem_of_dom in Hk as [d Hd].
  destruct (stored_index_Some _ _ _ _ _ Hd) as (doc & _ & _ & ->).
  rewrite (restored_id _ exclude_fields k doc Hd). simpl.
  f_equal. apply IH. intros k' Hk'. apply Hdom. now right.
Qed.

Lemma compared_ids (L : DiffLibrary) (sd td : gmap string pydict) (ks : list string) :
  map (fun e => entry_id e) (omap (compared L sd td) ks)
  = List.filter (fun k => match compared L sd td k with Some _ => true | None => false end) ks.
Proof.
  induction ks as [|k ks IH]; [reflexivity|].
  csimpl. simpl List.filter. destruct (compared L sd td k) as [e|] eqn:E; csimpl.
  - rewrite IH. f_equal. unfold compared in E.
    destruct (sd !! k), (td !! k); try discriminate.
    destruct (report_bool L _); [|discriminate]. now inversion E.
  - exact IH.
Qed.

(** X8: a returned result reports every identity at most once: the
    documents of the two missing lists all carry an [_id], and these
    identities and those of the [content_differences] entries are pairwise
    different. *)
Theorem identities_reported_once
    (repr_container : value -> string) (L : DiffLibrary)
    (S T : list pydict) (name : string) (exclude_fields : list string)
    (r : differences (report L)) :
  compare_collections repr_container L S T name exclude_fields = Returns r ->
  List.NoDup (reported_identities r) /\
  length (reported_identities r)
  = (length (missing_in_source r) + length (missing_in_target r)
     + length (content_differences r))%nat.
Proof.
  intros (_ & _ & ->)%compare_collections_returns.
  unfold reported_identities. cbn [missing_in_source missing_in_target content_differences reconciled].
  rewrite !omap_id_restored
    by (intros k Hk%list_elem_of_In%elem_of_elements; set_solver).
  split.
  - rewrite <- (List.map_map (fun e => entry_id e) VStr), compared_ids, <- !map_app.
    assert (Inj (=) (=) VStr) as HInj by (intros x y [= ->]; reflexivity).
    apply NoDup_ListNoDup, (NoDup_fmap_2 VStr).
    apply NoDup_app. split; [apply NoDup_elements|]. split.
    + intros k Hk%elem_of_elements [Hk'%elem_of_elements|Hk']%elem_of_app; [set_solver|].
      apply list_elem_of_In, filter_In in Hk' as [Hk'%list_elem_of_In%elem_of_elements _].
      set_solver.
    + apply NoDup_app. split; [apply NoDup_elements|]. split.
      * intros k Hk%elem_of_elements Hk'.
        apply list_elem_of_In, filter_In in Hk' as [Hk'%list_elem_of_In%elem_of_elements _].
        set_solver.
      * apply NoDup_ListNoDup, List.NoDup_filter, NoDup_ListNoDup, NoDup_elements.
  - rewrite !length_app, !length_map. lia.
Qed.

(** ** The order of the documents *)

Lemma store_commute (repr_container : value -> string) (exclude_fields : list string)
    (m : gmap string pydict) (x y : pydict) :
  (forall k, doc_id repr_container x = Some k -> doc_id repr_container y <> Some k) ->
  store repr_container exclude_fields (store repr_container exclude_fields m x) y
  = store repr_container exclude_fields (store repr_container exclude_fields m y) x.
Proof.
  intros Hne. unfold store.
  destruct (doc_id repr_container x) as [kx|] eqn:Ex;
    destruct (doc_id repr_container y) as [ky|] eqn:Ey; try reflexivity.
  apply insert_insert_ne. intros Heq. apply (Hne kx eq_refl). congruence.
Qed.

Lemma stored_fold_Permutation (repr_container : value -> string)
    (exclude_fields : list string) (data data' : list pydict) :
  Permutation data data' ->
  List.NoDup (identities repr_container data) ->
  forall m, fold_left (store repr_container exclude_fields) data m
            = fold_left (store repr_container exclude_fields) data' m.
Proof.
  induction 1 as [|x l l' Hperm IH|x y l|l l' l'' H1 IH1 H2 IH2]; intros Hnd m.
  - reflexivity.
  - simpl. apply IH. unfold identities in *. csimpl in Hnd.
    destruct (doc_id repr_container x); [now inversion Hnd | exact Hnd].
  - simpl. f_equal. apply store_commute. intros k Hy Hx.
    unfold identities in Hnd. csimpl in Hnd. rewrite Hy, Hx in Hnd. csimpl in Hnd.
    inversion Hnd as [|? ? Hnotin _]; subst. apply Hnotin. now left.
  - rewrite IH1 by exact Hnd. apply IH2.
    unfold identities in *.
    apply (Permutation_NoDup (omap_Permutation (doc_id repr_container) _ _ H1) Hnd).
Qed.

Lemma all_have_id_Permutation (data data' : list pydict) :
  Permutation data data' -> all_have_id data = all_have_id data'.
Proof.
  unfold all_have_id.
  induction 1 as [|x l l' _ IH|x y l|l l' l'' _ IH1 _ IH2]; simpl.
  - reflexivity.
  - now rewrite IH.
  - now rewrite !andb_assoc, (andb_comm (has_key "_id" y)).
  - congruence.
Qed.

(** X9: with pairwise distinct identities on each side, the order of the
    documents in the two collections does not matter: the same exception is
    raised, or the results agree up to the order of their lists. *)
Theorem document_order_irrelevant
    (repr_container : value -> string) (L : DiffLibrary)
    (S S' T T' : list pydict) (name : string) (exclude_fields : list string) :
  Permutation S S' -> Permutation T T' ->
  List.NoDup (identities repr_container S) ->
  List.NoDup (identities repr_container T) ->
  match compare_collections repr_container L S T name exclude_fields,
        compare_collections repr_container L S' T' name exclude_fields with
  | Returns r, Returns r' => same_report r r'
  | Raises e, Raises e' => e = e'
  | _, _ => False
  end.
Proof.
  intros HS HT HndS HndT.
  rewrite (compare_collections_index_ext repr_container L S S' T T' name exclude_fields).
  - destruct (compare_collections repr_container L S' T' name exclude_fields);
      [repeat split; reflexivity | reflexivity].
  - now apply all_have_id_Permutation.
  - now apply stored_fold_Permutation.
  - now apply all_have_id_Permutation.
  - now apply stored_fold_Permutation.
Qed.

(** ** Counts *)

Lemma omap_length_le {A B : Type} (f : A -> option B) (l : list A) :
  (length (omap f l) <= length l)%nat.
Proof.
  induction l as [|x l IH]; [reflexivity|]. csimpl.
  destruct (f x); simpl; lia.
Qed.

Lemma size_dom_stored_index (repr_container : value -> string)
    (exclude_fields : list string) (data : list pydict) :
  (size (dom (stored_index repr_container exclude_fields data)) <= length data)%nat.
Proof.
  rewrite dom_stored_index, size_list_to_set_remove_dups.
  etransitivity; [|apply (omap_length_le (doc_id repr_container))].
  fold (identities repr_container data).
  generalize (identities repr_container data). intros l.
  induction l as [|x l IH]; simpl; [lia|].
  destruct (decide_rel elem_of x l); simpl; lia.
Qed.

(** X10: in a returned result there are no more entries in
    [content_differences] than common identities, and no more common
    identities than documents in either collection. *)
Theorem counts_bounded
    (repr_container : value -> string) (L : DiffLibrary)
    (S T : list pydict) (name : string) (exclude_fields : list string)
    (r : differences (report L)) :
  compare_collections repr_container L S T name exclude_fields = Returns r ->
  (length (content_differences r) <= common_count r)%nat /\
  (common_count r <= length S)%nat /\ (common_count r <= length T)%nat.
Proof.
  intros (_ & _ & ->)%compare_collections_returns.
  cbn [content_differences common_count reconciled]. repeat split.
  - etransitivity; [apply omap_length_le|]. now rewrite length_elements_size.
  - etransitivity; [|apply (size_dom_stored_index repr_container exclude_fields S)].
    apply subseteq_size. set_solver.
  - etransitivity; [|apply (size_dom_stored_index repr_container exclude_fields T)].
    apply subseteq_size. set_solver.
Qed.

(** ** An empty collection *)

(** X11: against an empty source, a target whose documents all have an
    [_id] is reported missing as a whole: the comparison returns, nothing is
    common or different, and there is one missing document for each
    distinct identity of the target, whatever objects the documents hold. *)
Theorem empty_source
    (repr_container : value -> string) (L : DiffLibrary)
    (T : list pydict) (name : string) (exclude_fields : list string) :
  all_have_id T = true ->
  exists missing,
    compare_collections repr_container L [] T name exclude_fields
    = Returns {| missing_in_source := missing; missing_in_target := [];
                 common_count := 0; content_differences := [] |} /\
    length missing = length (remove_dups (identities repr_container T)).
Proof.
  intros Hid. rewrite compare_collections_spec, Hid.
  change (all_have_id [] && true) with true. cbv iota.
  change (stored_index repr_container exclude_fields []) with (∅ : gmap string pydict).
  exists (map (restored (stored_index repr_container exclude_fields T))
              (elements (dom (stored_index repr_container exclude_fields T)))).
  split.
  - unfold reconciled.
    change (stored_index repr_container exclude_fields []) with (∅ : gmap string pydict).
    rewrite dom_empty_L.
    assert (forall X : gset string, X ∖ ∅ = X) as -> by set_solver.
    assert (forall X : gset string, ∅ ∖ X = ∅) as -> by set_solver.
    assert (forall X : gset string, ∅ ∩ X = ∅) as -> by set_solver.
    rewrite elements_empty, size_empty. reflexivity.
  - now rewrite length_map, length_elements_size, dom_stored_index,
      size_list_to_set_remove_dups.
Qed.

(** ** The documents of the missing lists *)

(** X12: a document of [missing_in_source] is the last document of the
    target with its identity, an identity that no document of the source
    has; for a document with distinct keys it is that document with [_id],
    as a string, first, followed by the fields that are not excluded, in
    their order. *)
Theorem missing_document_shape
    (repr_container : value -> string) (L : DiffLibrary)
    (S T : list pydict) (name : string) (exclude_fields : list string)
    (r : differences (report L)) (d : pydict) :
  compare_collections repr_container L S T name exclude_fields = Returns r ->
  In d (missing_in_source r) ->
  exists k doc,
    representative repr_container k T = Some doc /\
    representative repr_container k S = None /\
    (distinct_keys doc ->
     d = ("_id", VStr k)
         :: List.filter (fun kv => negb (str_in (fst kv) (exclude_fields ++ ["_id"]))) doc).
Proof.
  intros (_ & _ & ->)%compare_collections_returns Hd.
  cbn [missing_in_source reconciled] in Hd.
  apply in_map_iff in Hd as (k & <- & Hk).
  apply list_elem_of_In, elem_of_elements, elem_of_difference in Hk as [HkT HkS].
  apply elem_of_dom in HkT as [sd HsdT]. apply not_elem_of_dom in HkS.
  pose proof HsdT as Hlookup. rewrite stored_index_lookup in Hlookup.
  rewrite stored_index_lookup in HkS.
  destruct (representative repr_container k T) as [doc|] eqn:ET; [|discriminate].
  destruct (representative repr_container k S) eqn:ES; [discriminate|].
  exists k, doc. split; [exact ET|]. split; [exact ES|].
  intros Hdist. unfold restored. rewrite HsdT. simpl default.
  injection Hlookup as <-. rewrite strip_fields_filter by exact Hdist.
  apply dict_of_items_distinct. unfold distinct_keys. simpl. constructor.
  - intros Hin. apply in_map_iff in Hin as ([k' v] & Hk' & [_ Hneg]%filter_In).
    simpl in *. subst k'. apply negb_true_iff in Hneg.
    assert (str_in "_id" (exclude_fields ++ ["_id"]) = true) as E.
    { apply str_in_In, in_or_app. right. now left. }
    congruence.
  - now apply filter_distinct_keys.
Qed.

(** ** Writing the result *)

Lemma restored_json_like (repr_container : value -> string)
    (exclude_fields : list string) (data : list pydict) (k : string) :
  Forall (fun doc => json_like_doc doc = true) data ->
  k ∈ dom (stored_index repr_container exclude_fields data) ->
  json_like (VDict (restored (stored_index repr_container exclude_fields data) k)) = true.
Proof.
  intros Hj [sd Hsd]%elem_of_dom.
  destruct (stored_index_Some _ _ _ _ _ Hsd) as (doc & Hin & _ & ->).
  apply json_like_dict, List.Forall_forall. intros [f v] Hfv.
  destruct (restored_fields _ _ _ _ _ Hsd Hfv) as [[= -> ->]|Hfv'%strip_fields_In];
    [reflexivity|].
  rewrite List.Forall_forall in Hj. specialize (Hj doc Hin).
  apply json_like_dict in Hj. rewrite List.Forall_forall in Hj. apply (Hj (f, v) Hfv').
Qed.

(** X13: the result that [compare_collections] returns for JSON-like
    documents can always be written by [main]: the encoder raises on none
    of its parts, the entries of [content_differences] having been
    serialised once already for the log. *)
Theorem result_serialisable
    (repr_container : value -> string) (L : DiffLibrary)
    (S T : list pydict) (name : string) (exclude_fields : list string)
    (r : differences (report L)) :
  Forall (fun doc => json_like_doc doc = true) (S ++ T) ->
  compare_collections repr_container L S T name exclude_fields = Returns r ->
  exists j, dumps_differences L r = Returns j.
Proof.
  intros Hj Hr. apply Forall_app in Hj as [HS HT].
  pose proof Hr as (_ & _ & Heq)%compare_collections_returns.
  rewrite compare_collections_spec in Hr.
  destruct (all_have_id S && all_have_id T); [|discriminate].
  apply bind_returns in Hr as ([] & Hlog & _). rewrite <- Heq in Hlog.
  unfold dumps_differences.
  destruct (for_each_returns (fun doc => json_dumps (VDict doc)) (missing_in_source r))
    as (ms & ->).
  { subst r. cbn [missing_in_source reconciled].
    intros d (k & <- & Hk)%in_map_iff. apply json_dumps_json_like.
    apply restored_json_like; [exact HT|].
    apply list_elem_of_In, elem_of_elements in Hk. set_solver. }
  destruct (for_each_returns (fun doc => json_dumps (VDict doc)) (missing_in_target r))
    as (mt & ->).
  { subst r. cbn [missing_in_target reconciled].
    intros d (k & <- & Hk)%in_map_iff. apply json_dumps_json_like.
    apply restored_json_like; [exact HS|].
    apply list_elem_of_In, elem_of_elements in Hk. set_solver. }
  cbn [bind]. unfold log_differences in Hlog.
  destruct (content_differences r) as [|e es]; [simpl; eauto|].
  destruct (for_each (dumps_entry L) (e :: es)) as [cd|err]; [simpl; eauto | discriminate].
Qed.

(** ** The canonical form of a set of strings *)

Lemma insert_sorted_strings (x : string) (l : list (string * unit)) :
  insert_sorted (fun y => y) (VStr x) (map (fun p => VStr (fst p)) l)
  = Returns (map (fun p => VStr (fst p)) (insert_item (x, tt) l)).
Proof.
  induction l as [|y l IH]; [reflexivity|].
  cbn [map insert_sorted insert_item fst]. cbn [py_lt bind].
  destruct (String.ltb x (fst y)); [reflexivity|].
  rewrite IH. reflexivity.
Qed.

Lemma py_sorted_strings (ss : list string) :
  py_sorted (map VStr ss)
  = Returns (map (fun p => VStr (fst p)) (sorted_items (map (fun s => (s, tt)) ss))).
Proof.
  unfold py_sorted, sorted_on, sorted_items.
  change (Returns (@nil value))
    with (Returns (map (fun p : string * unit => VStr (fst p)) [])).
  generalize (@nil (string * unit)) as acc.
  induction ss as [|s ss IH]; intros acc; [reflexivity|].
  cbn [map fold_left bind]. rewrite insert_sorted_strings. apply IH.
Qed.

Lemma for_each_make_hashable_strings (ss : list string) :
  for_each make_hashable (map VStr ss) = Returns (map VStr ss).
Proof.
  induction ss as [|s ss IH]; [reflexivity|].
  cbn [map]. rewrite for_each_cons. cbn [make_hashable bind]. rewrite IH. reflexivity.
Qed.

Lemma make_hashable_set_strings (ss : list string) :
  make_hashable (VSet (map VStr ss))
  = Returns (VTuple (map VStr (map fst (sorted_items (map (fun s => (s, tt)) ss))))).
Proof.
  rewrite make_hashable_set, py_sorted_strings. cbn [bind].
  rewrite <- (map_map fst VStr), for_each_make_hashable_strings. reflexivity.
Qed.

(** X22: the canonical form of a set of strings is the tuple of its
    members in increasing order, whatever the order in which the set yields
    them: on such a set [sorted] never raises, and two iteration orders of
    the same set give the same tuple. *)
Theorem make_hashable_set_order (ss ss' : list string) :
  List.NoDup ss -> Permutation ss ss' ->
  make_hashable (VSet (map VStr ss)) = make_hashable (VSet (map VStr ss')) /\
  exists sorted,
    make_hashable (VSet (map VStr ss)) = Returns (VTuple (map VStr sorted)) /\
    Permutation sorted ss /\
    StronglySorted (fun a b => String.ltb a b = true) sorted.
Proof.
  intros Hnd Hperm.
  assert (Hfst : forall l : list string, map fst (map (fun s => (s, tt)) l) = l).
  { intros l. rewrite map_map. cbn [fst]. apply map_id. }
  assert (Hkeys : List.NoDup (map fst (map (fun s => (s, tt)) ss))).
  { now rewrite Hfst. }
  split.
  - rewrite !make_hashable_set_strings.
    rewrite (sorted_items_order_independent _ (map (fun s => (s, tt)) ss') Hkeys
               (Permutation_map _ Hperm)).
    reflexivity.
  - exists (map fst (sorted_items (map (fun s => (s, tt)) ss))).
    split; [apply make_hashable_set_strings|]. split.
    + rewrite <- (Hfst ss) at 2. apply Permutation_map, sorted_items_Permutation.
    + pose proof (sorted_items_sorted _ Hkeys) as Hs.
      induction Hs as [|x l _ IH Hall]; [constructor|].
      cbn [map]. constructor; [exact IH|].
      rewrite List.Forall_forall in *. intros y Hy.
      apply in_map_iff in Hy as (p & <- & Hp). exact (Hall p Hp).
Qed.

(** * Properties of elastic_load_tester.py *)

(** ** [normalize_arabic] *)

Lemma replacement_fixed (c : N) :
  table_get replacements (table_get replacements c c) (table_get replacements c c)
  = table_get replacements c c.
Proof.
  cbv [table_get replacements].
  repeat match goal with
         | |- context [N.eqb c ?k] =>
             destruct (N.eqb_spec c k) as [->|?];
             [first [reflexivity | congruence] | cbv beta iota]
         end.
  reflexivity.
Qed.

(** X14: [normalize_arabic] is idempotent: a normalized text is left
    unchanged by a second normalization. *)
Theorem normalize_arabic_idempotent (t : text) :
  normalize_arabic (normalize_arabic t) = normalize_arabic t.
Proof.
  unfold normalize_arabic. rewrite List.map_map.
  apply map_ext. intros c. apply replacement_fixed.
Qed.

Lemma replacement_not_variant (c : N) :
  variant_letter (table_get replacements c c) = false.
Proof.
  cbv [variant_letter table_get replacements existsb fst].
  repeat match goal with
         | |- context [N.eqb c ?k] =>
             destruct (N.eqb_spec c k) as [->|?];
             [first [reflexivity | congruence] | cbv beta iota]
         end.
  reflexivity.
Qed.

Lemma replacement_of_plain (c : N) :
  variant_letter c = false -> table_get replacements c c = c.
Proof.
  cbv [variant_letter table_get replacements existsb fst].
  repeat match goal with
         | |- context [N.eqb c ?k] =>
             destruct (N.eqb_spec c k) as [->|?];
             [first [discriminate | congruence] | cbv beta iota]
         end.
  reflexivity.
Qed.

Lemma ascii_not_variant (a : ascii) : variant_letter (N_of_ascii a) = false.
Proof.
  pose proof (N_ascii_bounded a) as Hb.
  cbv [variant_letter replacements existsb fst].
  repeat match goal with
         | |- context [N.eqb ?x ?k] => rewrite (proj2 (N.eqb_neq x k)) by lia
         end.
  reflexivity.
Qed.

(** X16: a normalized text holds none of the seven letters of the table; a
    text that holds none of them is returned as it is, and so is every
    ASCII text. *)
Theorem normalize_arabic_variants (t : text) (s : string) :
  Forall (fun c => variant_letter c = false) (normalize_arabic t) /\
  (forallb (fun c => negb (variant_letter c)) t = true -> normalize_arabic t = t) /\
  normalize_arabic (lit s) = lit s.
Proof.
  assert (Hplain : forall u, forallb (fun c => negb (variant_letter c)) u = true ->
                             normalize_arabic u = u).
  { intros u Hu. unfold normalize_arabic. rewrite <- (map_id u) at 2.
    apply map_ext_in. intros c Hc. apply replacement_of_plain.
    rewrite forallb_forall in Hu. apply negb_true_iff. auto. }
  split; [|split].
  - unfold normalize_arabic. apply List.Forall_forall. intros c (c0 & <- & _)%in_map_iff.
    apply replacement_not_variant.
  - apply Hplain.
  - apply Hplain. unfold lit. apply forallb_forall.
    intros c (a & <- & _)%in_map_iff. now rewrite ascii_not_variant.
Qed.

(** ** [build_query] *)

(** X17: for the language "ar" the query is normalized inside
    [build_query], so normalizing it beforehand changes nothing; for any
    other language the body is the one built for "en". *)
Theorem build_query_language (query lang : text) :
  build_query (normalize_arabic query) (lit "ar") = build_query query (lit "ar") /\
  (lang <> lit "ar" -> build_query query lang = build_query query (lit "en")).
Proof.
  split.
  - unfold build_query. rewrite bool_decide_eq_true_2 by reflexivity.
    replace (normalize_arabic (normalize_arabic query)) with (normalize_arabic query);
      [reflexivity|].
    unfold normalize_arabic. rewrite List.map_map. symmetry.
    apply map_ext. intros c. apply replacement_fixed.
  - intros Hne. unfold build_query.
    rewrite (bool_decide_eq_false_2 (lang = lit "ar")) by exact Hne.
    rewrite (bool_decide_eq_false_2 (lit "en" = lit "ar")) by discriminate.
    reflexivity.
Qed.

(** X18: every should clause of the body searches for the same text: the
    normalized query in the fifteen clauses built for "ar", the query as
    given in the nine clauses built for any other language. *)
Theorem build_query_clauses (query lang : text) :
  let searched := if bool_decide (lang = lit "ar")
                  then normalize_arabic query else query in
  Forall (fun clause => clause_text clause = Some searched)
         (should_clauses (build_query query lang)) /\
  length (should_clauses (build_query query lang))
  = (if bool_decide (lang = lit "ar") then 15 else 9)%nat.
Proof.
  unfold build_query. destruct (bool_decide (lang = lit "ar")); simpl;
    (split; [repeat constructor | reflexivity]).
Qed.

(** ** The loops of [load_test] *)

Lemma rotate_term_nonempty (terms : list text) (i : nat) :
  terms <> [] ->
  exists term, rotate_term terms i = inr term /\
               nth_error terms (i mod length terms) = Some term.
Proof.
  intros Hne. unfold rotate_term.
  destruct (length terms) as [|n] eqn:Hlen.
  - destruct terms; [contradiction | discriminate].
  - destruct (nth_error terms (i mod S n)) as [term|] eqn:E; [eauto|].
    apply nth_error_None in E.
    pose proof (Nat.mod_upper_bound i (S n)). lia.
Qed.

Lemma submitted_from_nonempty (terms : list text) (i count : nat) :
  terms <> [] ->
  exists l, submitted_from terms i count = inr l /\
            length l = count /\
            forall j, (j < count)%nat ->
                      nth_error l j = nth_error terms ((i + j) mod length terms).
Proof.
  intros Hne. revert i. induction count as [|count IH]; intros i.
  - exists []. repeat split. intros j Hj. lia.
  - destruct (rotate_term_nonempty terms i Hne) as (term & Hterm & Hnth).
    destruct (IH (S i)) as (l & Hl & Hlen & Hjs).
    exists (term :: l). simpl. rewrite Hterm, Hl. repeat split; [simpl; lia|].
    intros [|j] Hj; simpl.
    + now rewrite Nat.add_0_r, Hnth.
    + rewrite Hjs by lia. f_equal. f_equal. lia.
Qed.

(** X19: the first loop of [load_test] submits one query term for each
    request, in rotation: the request [j] uses the term at position
    [j mod len(QUERY_TERMS)], so no index is out of range.  It fails only
    without query terms, with a division by zero at the first request; with
    no request nothing is submitted and nothing fails. *)
Theorem submitted_terms_rotation (QUERY_TERMS : list text) (NUM_REQUESTS : nat) :
  submitted_terms QUERY_TERMS 0 = inr [] /\
  (QUERY_TERMS = [] -> (0 < NUM_REQUESTS)%nat ->
   submitted_terms QUERY_TERMS NUM_REQUESTS = inl ZeroDivisionError) /\
  (QUERY_TERMS <> [] ->
   exists submitted,
     submitted_terms QUERY_TERMS NUM_REQUESTS = inr submitted /\
     length submitted = NUM_REQUESTS /\
     forall j, (j < NUM_REQUESTS)%nat ->
               nth_error submitted j
               = nth_error QUERY_TERMS (j mod length QUERY_TERMS)).
Proof.
  split; [reflexivity|]. split.
  - intros -> Hn. destruct NUM_REQUESTS; [lia | reflexivity].
  - intros Hne. apply (submitted_from_nonempty QUERY_TERMS 0 NUM_REQUESTS Hne).
Qed.

Lemma nth_error_ext {A : Type} (l l' : list A) :
  length l = length l' ->
  (forall j, (j < length l)%nat -> nth_error l j = nth_error l' j) -> l = l'.
Proof.
  revert l'. induction l as [|x l IH]; intros [|y l'] Hlen Hnth; try discriminate.
  - reflexivity.
  - simpl in Hlen. pose proof (Hnth 0%nat ltac:(simpl; lia)) as H0. simpl in H0.
    injection H0 as ->. f_equal. apply IH; [lia|].
    intros j Hj. apply (Hnth (S j)). simpl. lia.
Qed.

(** X20: over whole rounds the rotation is fair: [k * len(QUERY_TERMS)]
    requests submit the list of query terms [k] times over, in order. *)
Theorem submitted_terms_rounds (QUERY_TERMS : list text) (k : nat) :
  QUERY_TERMS <> [] ->
  submitted_terms QUERY_TERMS (k * length QUERY_TERMS)
  = inr (concat (repeat QUERY_TERMS k)).
Proof.
  intros Hne.
  destruct (submitted_from_nonempty QUERY_TERMS 0 (k * length QUERY_TERMS) Hne)
    as (l & Hl & Hlen & Hnth).
  unfold submitted_terms. rewrite Hl. f_equal.
  assert (Hpos : (0 < length QUERY_TERMS)%nat).
  { destruct QUERY_TERMS; [contradiction | simpl; lia]. }
  assert (Hcat : forall n j, (j < n * length QUERY_TERMS)%nat ->
                   nth_error (concat (repeat QUERY_TERMS n)) j
                   = nth_error QUERY_TERMS (j mod length QUERY_TERMS)).
  { induction n as [|n IHn]; intros j Hj; [lia|].
    simpl repeat. simpl concat.
    destruct (Nat.lt_ge_cases j (length QUERY_TERMS)) as [Hlt|Hge].
    - rewrite nth_error_app1 by exact Hlt. now rewrite Nat.mod_small.
    - rewrite nth_error_app2 by exact Hge. rewrite IHn by (simpl in Hj; lia).
      f_equal.
      replace j with ((j - length QUERY_TERMS) + 1 * length QUERY_TERMS)%nat at 2 by lia.
      now rewrite Nat.Div0.mod_add. }
  apply nth_error_ext.
  - rewrite Hlen. clear -Hpos. induction k as [|k IH]; [reflexivity|].
    simpl repeat. simpl concat. rewrite length_app, <- IH. simpl. lia.
  - intros j Hj. rewrite Hlen in Hj. rewrite Hnth, Hcat by exact Hj. reflexivity.
Qed.

Lemma tally_fold {D : Type} (completed : list (search_result D)) (t : tally D) :
  let t' := fold_left tally_step completed t in
  response_times t' = response_times t ++ map result_duration completed /\
  (successes t' + errors t' = successes t + errors t + length completed)%nat /\
  successes t'
  = (successes t
     + length (List.filter (fun r => match r with SearchSuccess _ _ => true | _ => false end)
                           completed))%nat.
Proof.
  revert t. induction completed as [|r completed IH]; intros t; simpl.
  - rewrite app_nil_r. repeat split; lia.
  - destruct (IH (tally_step t r)) as (Ht & Hc & Hs).
    rewrite Ht, Hs. destruct r as [hits d|err d]; simpl in *.
    + rewrite <- app_assoc. repeat split; simpl; lia.
    + rewrite <- app_assoc. repeat split; simpl; lia.
Qed.

(** X21: after the second loop of [load_test] every result has been
    counted once, as a success or as an error, and [response_times] holds
    the duration of every result, failed requests included, in the order of
    completion; the two counts do not depend on that order. *)
Theorem tally_results_counts {D : Type} (completed completed' : list (search_result D)) :
  (successes (tally_results completed) + errors (tally_results completed)
   = length completed)%nat /\
  response_times (tally_results completed) = map result_duration completed /\
  (Permutation completed completed' ->
   successes (tally_results completed') = successes (tally_results completed) /\
   errors (tally_results completed') = errors (tally_results completed)).
Proof.
  unfold tally_results.
  destruct (tally_fold completed {| response_times := []; successes := 0; errors := 0 |})
    as (Ht & Hc & Hs).
  destruct (tally_fold completed' {| response_times := []; successes := 0; errors := 0 |})
    as (Ht' & Hc' & Hs').
  cbn [response_times successes errors] in *.
  split; [lia|]. split; [exact Ht|].
  intros Hperm.
  assert (length (List.filter (fun r : search_result D =>
                                 match r with SearchSuccess _ _ => true | _ => false end)
                              completed')
          = length (List.filter (fun r : search_result D =>
                                   match r with SearchSuccess _ _ => true | _ => false end)
                                completed)) as Hf.
  { clear -Hperm. induction Hperm as [|x l l' _ IH|x y l|l l' l'' _ IH1 _ IH2]; simpl.
    - reflexivity.
    - destruct x; simpl; lia.
    - destruct x, y; reflexivity.
    - lia. }
  pose proof (Permutation_length Hperm). lia.
Qed.

(** * The further properties on examples *)

Lemma make_hashable_same_content_witness :
  well_formed (VDict (strip_fields [] example_doc_ab)) = true /\
  well_formed (VDict (strip_fields [] example_doc_ba)) = true /\
  make_hashable (VDict (strip_fields [] example_doc_ab))
  = make_hashable (VDict (strip_fields [] example_doc_ba)).
Proof.
  assert (well_formed (VDict (strip_fields [] example_doc_ab)) = true) as H1 by reflexivity.
  assert (well_formed (VDict (strip_fields [] example_doc_ba)) = true) as H2 by reflexivity.
  split; [exact H1|]. split; [exact H2|].
  apply (make_hashable_same_content _ _ H1 H2 example_docs_same_content).
Defined.


Lemma make_hashable_json_like_witness :
  json_like (VDict example_doc_ab) = true /\
  exists y, make_hashable (VDict example_doc_ab) = Returns y /\ hashable y = true.
Proof.
  assert (json_like (VDict example_doc_ab) = true) as H1 by reflexivity.
  split; [exact H1|].
  apply (make_hashable_json_like _ H1).
Defined.

Lemma make_hashable_idempotent_witness :
  make_hashable (VList [VInt 1; VObjectId example_oid])
  = Returns (VTuple [VInt 1; VStr "5f1a2b3c4d5e6f708192a3b4"]) /\
  make_hashable (VTuple [VInt 1; VStr "5f1a2b3c4d5e6f708192a3b4"])
  = Returns (VTuple [VInt 1; VStr "5f1a2b3c4d5e6f708192a3b4"]).
Proof.
  assert (make_hashable (VList [VInt 1; VObjectId example_oid])
          = Returns (VTuple [VInt 1; VStr "5f1a2b3c4d5e6f708192a3b4"])) as H1
      by (vm_compute; reflexivity).
  split; [exact H1|].
  apply (make_hashable_idempotent _ _ H1).
Defined.

Lemma exclusion_redundant_after_projection_witness :
  (forall doc f, In doc (example_source ++ example_target) -> In f ["age"; "city"] ->
                 dict_get f doc = None) /\
  compare_collections repr_opaque StructuralDiffer example_source example_target
    "users" ["age"; "city"]
  = compare_collections repr_opaque StructuralDiffer example_source example_target "users" [].
Proof.
  assert (forall doc f, In doc (example_source ++ example_target) -> In f ["age"; "city"] ->
                        dict_get f doc = None) as H1.
  { intros doc f [<-|[<-|[<-|[]]]] [<-|[<-|[]]]; reflexivity. }
  split; [exact H1|].
  apply (exclusion_redundant_after_projection repr_opaque StructuralDiffer
           example_source example_target "users" ["age"; "city"] H1).
Defined.

Lemma identities_reported_once_witness :
  compare_collections repr_opaque StructuralDiffer example_source example_target "users" []
  = Returns example_differences /\
  List.NoDup (reported_identities example_differences) /\
  length (reported_identities example_differences)
  = (length (missing_in_source example_differences)
     + length (missing_in_target example_differences)
     + length (content_differences example_differences))%nat.
Proof.
  assert (compare_collections repr_opaque StructuralDiffer example_source example_target
            "users" [] = Returns example_differences) as H1 by (vm_compute; reflexivity).
  split; [exact H1|].
  apply (identities_reported_once repr_opaque StructuralDiffer example_source example_target
           "users" [] example_differences H1).
Defined.

Lemma document_order_irrelevant_witness :
  Permutation example_target (rev example_target) /\
  Permutation example_source example_source /\
  List.NoDup (identities repr_opaque example_target) /\
  List.NoDup (identities repr_opaque example_source) /\
  match compare_collections repr_opaque StructuralDiffer example_target example_source
          "users" [],
        compare_collections repr_opaque StructuralDiffer (rev example_target) example_source
          "users" [] with
  | Returns r, Returns r' => same_report r r'
  | Raises e, Raises e' => e = e'
  | _, _ => False
  end.
Proof.
  assert (Permutation example_target (rev example_target)) as H1 by apply perm_swap.
  assert (Permutation example_source example_source) as H2 by apply Permutation_refl.
  assert (List.NoDup (identities repr_opaque example_target)) as H3.
  { apply distinct_strings_NoDup. reflexivity. }
  assert (List.NoDup (identities repr_opaque example_source)) as H4.
  { apply distinct_strings_NoDup. reflexivity. }
  split; [exact H1|]. split; [exact H2|]. split; [exact H3|]. split; [exact H4|].
  apply (document_order_irrelevant repr_opaque StructuralDiffer
           example_target (rev example_target) example_source example_source
           "users" [] H1 H2 H3 H4).
Defined.

Lemma counts_bounded_witness :
  compare_collections repr_opaque StructuralDiffer example_source example_target "users" []
  = Returns example_differences /\
  (length (content_differences example_differences) <= common_count example_differences)%nat /\
  (common_count example_differences <= length example_source)%nat /\
  (common_count example_differences <= length example_target)%nat.
Proof.
  assert (compare_collections repr_opaque StructuralDiffer example_source example_target
            "users" [] = Returns example_differences) as H1 by (vm_compute; reflexivity).
  split; [exact H1|].
  apply (counts_bounded repr_opaque StructuralDiffer example_source example_target
           "users" [] example_differences H1).
Defined.

Lemma empty_source_witness :
  all_have_id example_target = true /\
  exists missing,
    compare_collections repr_opaque StructuralDiffer [] example_target "users" ["ver"]
    = Returns {| missing_in_source := missing; missing_in_target := [];
                 common_count := 0; content_differences := [] |} /\
    length missing = length (remove_dups (identities repr_opaque example_target)).
Proof.
  assert (all_have_id example_target = true) as H1 by reflexivity.
  split; [exact H1|].
  apply (empty_source repr_opaque StructuralDiffer example_target "users" ["ver"] H1).
Defined.

Lemma missing_document_shape_witness :
  compare_collections repr_opaque StructuralDiffer example_source example_target "users" []
  = Returns example_differences /\
  In [("_id", VStr "2"); ("name", VStr "B")] (missing_in_source example_differences) /\
  exists k doc,
    representative repr_opaque k example_target = Some doc /\
    representative repr_opaque k example_source = None /\
    (distinct_keys doc ->
     [("_id", VStr "2"); ("name", VStr "B")]
     = ("_id", VStr k)
       :: List.filter (fun kv => negb (str_in (fst kv) ([] ++ ["_id"]))) doc).
Proof.
  assert (compare_collections repr_opaque StructuralDiffer example_source example_target
            "users" [] = Returns example_differences) as H1 by (vm_compute; reflexivity).
  assert (In [("_id", VStr "2"); ("name", VStr "B")]
             (missing_in_source example_differences)) as H2 by (simpl; auto).
  split; [exact H1|]. split; [exact H2|].
  apply (missing_document_shape repr_opaque StructuralDiffer example_source example_target
           "users" [] example_differences _ H1 H2).
Defined.

Lemma result_serialisable_witness :
  Forall (fun doc => json_like_doc doc = true) (example_source ++ example_target) /\
  compare_collections repr_opaque StructuralDiffer example_source example_target "users" []
  = Returns example_differences /\
  exists j, dumps_differences StructuralDiffer example_differences = Returns j.
Proof.
  assert (Forall (fun doc => json_like_doc doc = true) (example_source ++ example_target)) as H1.
  { repeat constructor. }
  assert (compare_collections repr_opaque StructuralDiffer example_source example_target
            "users" [] = Returns example_differences) as H2 by (vm_compute; reflexivity).
  split; [exact H1|]. split; [exact H2|].
  apply (result_serialisable repr_opaque StructuralDiffer example_source example_target
           "users" [] example_differences H1 H2).
Defined.

Lemma normalize_arabic_variants_witness :
  forallb (fun c => negb (variant_letter c)) [0x0627; 0x0643; 0x064A]%N = true /\
  normalize_arabic [0x0627; 0x0643; 0x064A]%N = [0x0627; 0x0643; 0x064A]%N.
Proof.
  assert (forallb (fun c => negb (variant_letter c)) [0x0627; 0x0643; 0x064A]%N = true) as H1
      by reflexivity.
  split; [exact H1|].
  apply (proj1 (proj2 (normalize_arabic_variants [0x0627; 0x0643; 0x064A]%N EmptyString)) H1).
Defined.

Lemma build_query_language_witness :
  lit "fr" <> lit "ar" /\
  build_query [0x0623; 0x0643]%N (lit "fr") = build_query [0x0623; 0x0643]%N (lit "en").
Proof.
  assert (lit "fr" <> lit "ar") as H1 by discriminate.
  split; [exact H1|].
  apply (proj2 (build_query_language [0x0623; 0x0643]%N (lit "fr")) H1).
Defined.

Lemma submitted_terms_rotation_witness :
  [lit "a"; lit "b"; lit "c"] <> [] /\
  exists submitted,
    submitted_terms [lit "a"; lit "b"; lit "c"] 10 = inr submitted /\
    length submitted = 10%nat /\
    forall j, (j < 10)%nat ->
              nth_error submitted j
              = nth_error [lit "a"; lit "b"; lit "c"]
                          (j mod length [lit "a"; lit "b"; lit "c"]).
Proof.
  assert ([lit "a"; lit "b"; lit "c"] <> []) as H1 by discriminate.
  split; [exact H1|].
  apply (proj2 (proj2 (submitted_terms_rotation [lit "a"; lit "b"; lit "c"] 10)) H1).
Defined.

Lemma submitted_terms_rounds_witness :
  [lit "a"; lit "b"; lit "c"] <> [] /\
  submitted_terms [lit "a"; lit "b"; lit "c"] (2 * length [lit "a"; lit "b"; lit "c"])
  = inr (concat (repeat [lit "a"; lit "b"; lit "c"] 2)).
Proof.
  assert ([lit "a"; lit "b"; lit "c"] <> []) as H1 by discriminate.
  split; [exact H1|].
  apply (submitted_terms_rounds [lit "a"; lit "b"; lit "c"] 2 H1).
Defined.

Lemma tally_results_counts_witness :
  Permutation [SearchSuccess 3 5; SearchError (lit "timeout") 9]
              [SearchError (lit "timeout") 9; SearchSuccess 3 5] /\
  successes (tally_results [SearchError (lit "timeout") 9; SearchSuccess 3 5])
  = successes (tally_results [SearchSuccess 3 5; SearchError (lit "timeout") 9]) /\
  errors (tally_results [SearchError (lit "timeout") 9; SearchSuccess 3 5])
  = errors (tally_results [SearchSuccess 3 5; SearchError (lit "timeout") 9]).
Proof.
  assert (Permutation [SearchSuccess 3 5; SearchError (lit "timeout") 9]
                      [SearchError (lit "timeout") 9; SearchSuccess 3 5]) as H1
      by apply perm_swap.
  split; [exact H1|].
  apply (proj2 (proj2 (tally_results_counts
                         [SearchSuccess 3 5; SearchError (lit "timeout") 9]
                         [SearchError (lit "timeout") 9; SearchSuccess 3 5])) H1).
Defined.

Lemma make_hashable_set_order_witness :
  List.NoDup ["pear"; "apple"; "fig"] /\
  Permutation ["pear"; "apple"; "fig"] ["fig"; "pear"; "apple"] /\
  make_hashable (VSet (map VStr ["pear"; "apple"; "fig"]))
  = make_hashable (VSet (map VStr ["fig"; "pear"; "apple"])) /\
  exists sorted,
    make_hashable (VSet (map VStr ["pear"; "apple"; "fig"]))
    = Returns (VTuple (map VStr sorted)) /\
    Permutation sorted ["pear"; "apple"; "fig"] /\
    StronglySorted (fun a b => String.ltb a b = true) sorted.
Proof.
  assert (List.NoDup ["pear"; "apple"; "fig"]) as H1.
  { apply distinct_strings_NoDup. reflexivity. }
  assert (Permutation ["pear"; "apple"; "fig"] ["fig"; "pear"; "apple"]) as H2.
  { exact (Permutation_app_comm ["pear"; "apple"] ["fig"]). }
  split; [exact H1|]. split; [exact H2|].
  apply (make_hashable_set_order ["pear"; "apple"; "fig"] ["fig"; "pear"; "apple"] H1 H2).
Defined.
